(** * Goodix GT9xx touchscreen driver: a shallow embedding of
    [drivers/input/touchscreen/goodix.c] and the properties of its
    configuration, decoding, reset, watchdog and power paths.

    The driver talks to the outside world through the I2C adapter, the GPIO
    controller, the input core, the interrupt core, runtime PM and the
    firmware loader.  Every such call is recorded, with the value it
    returned, in a chronological trace; what a call returns is decided by an
    [environment], a family of functions of the trace so far.  A driver
    function is a computation over the pair of the device instance
    ([goodix_ts_data]) and the trace, which either finishes with a value or
    stops at an access outside a buffer.  Buffers are lists of bytes, a
    pointer into a buffer is the rest of the list from there on, and a
    transfer into a buffer is checked against the room behind the pointer.
    The C integer types wrap as written out below.  Diagnostics ([dev_err],
    [dev_dbg], [dev_warn]) and [kfree] have no effect on the device and are
    left out; the driver's threads are taken one at a time. *)

From Stdlib Require Import ZArith Zbitwise List Bool Lia.
From Stdlib.Strings Require Import Byte.
Import ListNotations.
Open Scope Z_scope.

(** ** Machine integers *)

Definition u8_wrap (z : Z) : Z := z mod 256.
Definition u16_wrap (z : Z) : Z := z mod 65536.
Definition u32_wrap (z : Z) : Z := z mod 4294967296.
Definition int_wrap (z : Z) : Z := (z + 2147483648) mod 4294967296 - 2147483648.

Definition u8_val (b : byte) : Z := Z.of_N (Byte.to_N b).
Definition u8_of (z : Z) : byte :=
  match Byte.of_N (Z.to_N (u8_wrap z)) with
  | Some b => b
  | None => x00
  end.

(** ** Constants of the driver *)

Definition EIO : Z := 5.
Definition EAGAIN : Z := 11.
Definition ENOMEM : Z := 12.
Definition EINVAL : Z := 22.
Definition EPROTO : Z := 71.

Definition GOODIX_MAX_HEIGHT : Z := 4096.
Definition GOODIX_MAX_WIDTH : Z := 4096.
Definition GOODIX_INT_TRIGGER : Z := 1.
Definition GOODIX_CONTACT_SIZE : Z := 8.
Definition GOODIX_MAX_CONTACTS : Z := 10.

Definition GOODIX_CONFIG_MAX_LENGTH : Z := 240.
Definition GOODIX_CONFIG_911_LENGTH : Z := 186.
Definition GOODIX_CONFIG_967_LENGTH : Z := 228.

Definition GOODIX_REG_COMMAND : Z := 0x8040.
Definition GOODIX_CMD_SCREEN_OFF : Z := 0x05.
Definition GOODIX_CMD_ESD_ENABLED : Z := 0xAA.
Definition GOODIX_REG_ESD_CHECK : Z := 0x8041.

Definition GOODIX_READ_COOR_ADDR : Z := 0x814E.
Definition GOODIX_REG_CONFIG_DATA : Z := 0x8047.
Definition GOODIX_REG_ID : Z := 0x8140.

Definition RESOLUTION_LOC : Z := 1.
Definition MAX_CONTACTS_LOC : Z := 5.
Definition TRIGGER_LOC : Z := 6.

Definition IRQ_HANDLED : Z := 1.
Definition MT_TOOL_FINGER : Z := 0.

(** ** Results of computations that index buffers *)

Inductive result (A : Type) : Type :=
| Ok (a : A)
| OutOfBounds
| OutOfFuel.
Arguments Ok {A} a.
Arguments OutOfBounds {A}.
Arguments OutOfFuel {A}.

Definition rbind {A B : Type} (r : result A) (k : A -> result B) : result B :=
  match r with
  | Ok a => k a
  | OutOfBounds => OutOfBounds
  | OutOfFuel => OutOfFuel
  end.

(** [buf[i]] for a C [int] index: defined inside the buffer only. *)
Definition data_at (buf : list byte) (i : Z) : result byte :=
  if i <? 0 then OutOfBounds
  else match nth_error buf (Z.to_nat i) with
       | Some b => Ok b
       | None => OutOfBounds
       end.

(** [get_unaligned_le16(&buf[i])] *)
Definition get_unaligned_le16 (buf : list byte) (i : Z) : result Z :=
  rbind (data_at buf i) (fun lo =>
  rbind (data_at buf (i + 1)) (fun hi =>
  Ok (Z.lor (u8_val lo) (Z.shiftl (u8_val hi) 8)))).

(** ** Data model *)

(** [struct goodix_ts_data], with the fields the modelled paths read or
    write.  A GPIO descriptor is modelled by its presence. *)
Record goodix_ts_data : Type := mk_ts {
  client_addr : Z;
  abs_x_max : Z;
  abs_y_max : Z;
  swapped_x_y : bool;
  inverted_x : bool;
  inverted_y : bool;
  max_touch_num : Z;
  int_trigger_type : Z;
  cfg_len : Z;
  substitute_i2c_address : Z;
  gpiod_int : bool;
  gpiod_rst : bool;
  id : Z;
  irq_flags : Z;
  esd_timeout : Z;
  suspended : bool;
  open_count : Z
}.

(** [struct firmware]: [size] is the length of [data]. *)
Record firmware : Type := mk_fw { fw_data : list byte }.
Definition fw_size (cfg : firmware) : Z := Z.of_nat (length (fw_data cfg)).

Inductive gpio_line : Type := LineInt | LineRst.

Inductive abs_code : Type :=
| ABS_MT_POSITION_X
| ABS_MT_POSITION_Y
| ABS_MT_TOUCH_MAJOR
| ABS_MT_WIDTH_MAJOR.

(** Calls into the input core (the sink). *)
Inductive input_event : Type :=
| input_mt_slot (slot : Z)
| input_mt_report_slot_state (tool : Z) (active : bool)
| input_report_abs (code : abs_code) (value : Z)
| input_mt_sync_frame
| input_sync.

(** Calls that leave the driver, each with what it returned. *)
Inductive event : Type :=
| Ev_i2c_read (addr reg len : Z) (ret : Z) (buf : list byte)
| Ev_kmalloc (size : Z) (ok : bool)
| Ev_i2c_send (addr : Z) (msg : list byte) (ret : Z)
| Ev_gpio_output (line : gpio_line) (val : Z) (ret : Z)
| Ev_gpio_input (line : gpio_line) (ret : Z)
| Ev_msleep (msecs : Z)
| Ev_usleep_range (lo hi : Z)
| Ev_free_irq
| Ev_request_irq (flags : Z) (ret : Z)
| Ev_input (e : input_event)
| Ev_wait_firmware_loading
| Ev_mutex_lock
| Ev_mutex_unlock
| Ev_pm_get_sync (ret : Z)
| Ev_pm_put_noidle
| Ev_pm_mark_last_busy
| Ev_pm_put_autosuspend (ret : Z)
| Ev_cancel_esd_work
| Ev_schedule_esd_work (msecs : Z)
| Ev_request_firmware (ret : Z) (blob : list byte)
| Ev_release_firmware.

(** What the outside world answers, as a function of everything that
    happened before. *)
Record environment : Type := mk_env {
  i2c_transfer_read : list event -> Z -> Z -> Z -> Z * (nat -> byte);
  kmalloc : list event -> Z -> bool;
  i2c_transfer_write : list event -> Z -> list byte -> Z;
  gpiod_direction_output : list event -> gpio_line -> Z -> Z;
  gpiod_direction_input : list event -> gpio_line -> Z;
  devm_request_threaded_irq : list event -> Z -> Z;
  pm_runtime_get_sync : list event -> Z;
  pm_runtime_put_autosuspend : list event -> Z;
  request_firmware : list event -> Z * list byte;
  dmi_check_system : bool
}.

Record state : Type := mk_state { ts : goodix_ts_data; trace : list event }.

(** ** The computation monad *)

Definition M (A : Type) : Type := state -> result (A * state).

Definition ret {A : Type} (a : A) : M A := fun st => Ok (a, st).

Definition bind {A B : Type} (m : M A) (k : A -> M B) : M B :=
  fun st =>
    match m st with
    | Ok (a, st') => k a st'
    | OutOfBounds => OutOfBounds
    | OutOfFuel => OutOfFuel
    end.

Definition lift {A : Type} (r : result A) : M A :=
  fun st => rbind r (fun a => Ok (a, st)).

Definition fault {A : Type} : M A := fun _ => OutOfBounds.

Declare Scope drv_scope.
Delimit Scope drv_scope with drv.
Notation "x <- m ;; k" := (bind m (fun x => k))
  (at level 61, m at next level, right associativity) : drv_scope.
Notation "' p <- m ;; k" := (bind m (fun p => k))
  (at level 61, p pattern, m at next level, right associativity) : drv_scope.
Notation "m ;; k" := (bind m (fun _ => k))
  (at level 61, right associativity) : drv_scope.
Open Scope drv_scope.

Definition get_ts : M goodix_ts_data := fun st => Ok (ts st, st).

Definition modify_ts (f : goodix_ts_data -> goodix_ts_data) : M unit :=
  fun st => Ok (tt, mk_state (f (ts st)) (trace st)).

Definition log (st : state) (e : event) : state :=
  mk_state (ts st) (trace st ++ [e]).

Definition emit (e : event) : M unit := fun st => Ok (tt, log st e).

(** Field updates of the instance. *)
Definition set_geometry (x y trig mt : Z) (t : goodix_ts_data) : goodix_ts_data :=
  mk_ts (client_addr t) x y (swapped_x_y t) (inverted_x t) (inverted_y t)
        mt trig (cfg_len t) (substitute_i2c_address t) (gpiod_int t)
        (gpiod_rst t) (id t) (irq_flags t) (esd_timeout t) (suspended t)
        (open_count t).

Definition set_inverted (ix iy : bool) (t : goodix_ts_data) : goodix_ts_data :=
  mk_ts (client_addr t) (abs_x_max t) (abs_y_max t) (swapped_x_y t) ix iy
        (max_touch_num t) (int_trigger_type t) (cfg_len t)
        (substitute_i2c_address t) (gpiod_int t) (gpiod_rst t) (id t)
        (irq_flags t) (esd_timeout t) (suspended t) (open_count t).

Definition set_suspended (b : bool) (t : goodix_ts_data) : goodix_ts_data :=
  mk_ts (client_addr t) (abs_x_max t) (abs_y_max t) (swapped_x_y t)
        (inverted_x t) (inverted_y t) (max_touch_num t) (int_trigger_type t)
        (cfg_len t) (substitute_i2c_address t) (gpiod_int t) (gpiod_rst t)
        (id t) (irq_flags t) (esd_timeout t) b (open_count t).

Definition set_open_count (n : Z) (t : goodix_ts_data) : goodix_ts_data :=
  mk_ts (client_addr t) (abs_x_max t) (abs_y_max t) (swapped_x_y t)
        (inverted_x t) (inverted_y t) (max_touch_num t) (int_trigger_type t)
        (cfg_len t) (substitute_i2c_address t) (gpiod_int t) (gpiod_rst t)
        (id t) (irq_flags t) (esd_timeout t) (suspended t) n.

(** ** Pure parts of the driver *)

(** [goodix_get_cfg_len] *)
Definition goodix_get_cfg_len (id : Z) : Z :=
  match id with
  | 911 | 9271 | 9110 | 927 | 928 => GOODIX_CONFIG_911_LENGTH
  | 912 | 967 => GOODIX_CONFIG_967_LENGTH
  | _ => GOODIX_CONFIG_MAX_LENGTH
  end.

(** The checksum loop of [goodix_check_cfg]:
    [for (i = 0; i < raw_cfg_len; i++) check_sum += cfg->data[i];] *)
Fixpoint check_sum_loop (fuel : nat) (data : list byte)
         (raw_cfg_len i check_sum : Z) : result Z :=
  if i <? raw_cfg_len then
    match fuel with
    | O => OutOfFuel
    | S fuel' =>
        rbind (data_at data i) (fun b =>
        check_sum_loop fuel' data raw_cfg_len (i + 1)
                       (u8_wrap (check_sum + u8_val b)))
    end
  else Ok check_sum.

(** [goodix_check_cfg]: 0 when the blob is valid, [-EINVAL] otherwise. *)
Definition goodix_check_cfg (cfg : firmware) : result Z :=
  if fw_size cfg >? GOODIX_CONFIG_MAX_LENGTH then Ok (- EINVAL)
  else
    let raw_cfg_len := int_wrap (fw_size cfg - 2) in
    rbind (check_sum_loop (Z.to_nat raw_cfg_len) (fw_data cfg) raw_cfg_len 0 0)
      (fun check_sum =>
    let check_sum := u8_wrap (Z.lnot check_sum + 1) in
    rbind (data_at (fw_data cfg) raw_cfg_len) (fun c =>
    if negb (check_sum =? u8_val c) then Ok (- EINVAL)
    else
      rbind (data_at (fw_data cfg) (raw_cfg_len + 1)) (fun f =>
      if negb (u8_val f =? 1) then Ok (- EINVAL) else Ok 0))).

(** ** The driver, over an arbitrary environment *)

Section Driver.

Variable env : environment.

(** *** Calls that leave the driver *)

(** [i2c_transfer] of a register address followed by a read of [len]
    bytes; the bytes that arrive are the environment's. *)
Definition call_i2c_transfer_read (addr reg len : Z) : M (Z * list byte) :=
  fun st =>
    let '(r, f) := i2c_transfer_read env (trace st) addr reg len in
    let buf := map f (seq 0 (Z.to_nat len)) in
    Ok ((r, buf), log st (Ev_i2c_read addr reg len r buf)).

Definition call_kmalloc (size : Z) : M bool :=
  fun st =>
    let ok := kmalloc env (trace st) size in
    Ok (ok, log st (Ev_kmalloc size ok)).

(** [i2c_transfer] of one write message. *)
Definition call_i2c_transfer_write (addr : Z) (msg : list byte) : M Z :=
  fun st =>
    let r := i2c_transfer_write env (trace st) addr msg in
    Ok (r, log st (Ev_i2c_send addr msg r)).

Definition call_gpiod_direction_output (line : gpio_line) (val : Z) : M Z :=
  fun st =>
    let r := gpiod_direction_output env (trace st) line val in
    Ok (r, log st (Ev_gpio_output line val r)).

Definition call_gpiod_direction_input (line : gpio_line) : M Z :=
  fun st =>
    let r := gpiod_direction_input env (trace st) line in
    Ok (r, log st (Ev_gpio_input line r)).

Definition call_request_threaded_irq (flags : Z) : M Z :=
  fun st =>
    let r := devm_request_threaded_irq env (trace st) flags in
    Ok (r, log st (Ev_request_irq flags r)).

Definition call_pm_runtime_get_sync : M Z :=
  fun st =>
    let r := pm_runtime_get_sync env (trace st) in
    Ok (r, log st (Ev_pm_get_sync r)).

Definition call_pm_runtime_put_autosuspend : M Z :=
  fun st =>
    let r := pm_runtime_put_autosuspend env (trace st) in
    Ok (r, log st (Ev_pm_put_autosuspend r)).

Definition call_request_firmware : M (Z * firmware) :=
  fun st =>
    let '(r, blob) := request_firmware env (trace st) in
    Ok ((r, mk_fw blob), log st (Ev_request_firmware r blob)).

(** *** Bus transport *)

(** [ret < 0 ? ret : (ret != n ? -EIO : 0)] for a transfer of [n]
    messages. *)
Definition i2c_ret (n r : Z) : Z :=
  if r <? 0 then r else if negb (r =? n) then - EIO else 0.

(** [goodix_i2c_read(client, reg, buf, len)]; [buf_size] is the room
    behind [buf].  Returns the error code and what the transfer left in
    the buffer. *)
Definition goodix_i2c_read (reg buf_size len : Z) : M (Z * list byte) :=
  t <- get_ts ;;
  if u16_wrap len >? buf_size then fault
  else
    '(r, buf) <- call_i2c_transfer_read (client_addr t) (u16_wrap reg)
                                        (u16_wrap len) ;;
    ret (i2c_ret 2 r, buf).

(** [goodix_i2c_write(client, reg, buf, len)]; the transfer buffer is
    freed again before returning. *)
Definition goodix_i2c_write (reg : Z) (buf : list byte) (len : Z) : M Z :=
  t <- get_ts ;;
  let len := u32_wrap len in
  ok <- call_kmalloc (u32_wrap (len + 2)) ;;
  if negb ok then ret (- ENOMEM)
  else if Z.of_nat (length buf) <? len then fault
  else
    let addr_buf := u8_of (Z.shiftr reg 8) :: u8_of (Z.land reg 0xFF)
                    :: firstn (Z.to_nat len) buf in
    let msg := firstn (Z.to_nat (u16_wrap (len + 2))) addr_buf in
    r <- call_i2c_transfer_write (client_addr t) msg ;;
    ret (i2c_ret 1 r).

(** [goodix_i2c_write_u8] *)
Definition goodix_i2c_write_u8 (reg value : Z) : M Z :=
  goodix_i2c_write reg [u8_of value] 1.

(** *** Power state *)

(** [goodix_set_power_state] *)
Definition goodix_set_power_state (on : bool) : M Z :=
  error <- (if on then call_pm_runtime_get_sync
            else emit Ev_pm_mark_last_busy ;; call_pm_runtime_put_autosuspend) ;;
  if error <? 0 then
    (if on then emit Ev_pm_put_noidle else ret tt) ;;
    ret error
  else ret 0.

(** *** Touch decoder *)

(** [goodix_ts_read_input_report(ts, data)]; [data_size] is the size of
    the caller's array.  Returns the count or error, and the array. *)
Definition goodix_ts_read_input_report (data_size : Z) : M (Z * list byte) :=
  t <- get_ts ;;
  '(error, data) <- goodix_i2c_read GOODIX_READ_COOR_ADDR data_size
                                    (GOODIX_CONTACT_SIZE + 1) ;;
  if negb (error =? 0) then ret (error, data)
  else
    d0 <- lift (data_at data 0) ;;
    if Z.land (u8_val d0) 0x80 =? 0 then ret (- EAGAIN, data)
    else
      let touch_num := Z.land (u8_val d0) 0x0f in
      if u32_wrap touch_num >? max_touch_num t then ret (- EPROTO, data)
      else if touch_num >? 1 then
        '(error, more) <- goodix_i2c_read
                            (GOODIX_READ_COOR_ADDR + 1 + GOODIX_CONTACT_SIZE)
                            (data_size - (1 + GOODIX_CONTACT_SIZE))
                            (GOODIX_CONTACT_SIZE * (touch_num - 1)) ;;
        if negb (error =? 0) then ret (error, data ++ more)
        else ret (touch_num, data ++ more)
      else ret (touch_num, data).

Definition swap_if (b : bool) (p : Z * Z) : Z * Z :=
  if b then (snd p, fst p) else p.

(** [goodix_ts_report_touch(ts, coor_data)]; [coor_data] is the array from
    the contact's first byte on. *)
Definition goodix_ts_report_touch (coor_data : list byte) : M unit :=
  t <- get_ts ;;
  c0 <- lift (data_at coor_data 0) ;;
  let id := Z.land (u8_val c0) 0x0F in
  input_x <- lift (get_unaligned_le16 coor_data 1) ;;
  input_y <- lift (get_unaligned_le16 coor_data 3) ;;
  input_w <- lift (get_unaligned_le16 coor_data 5) ;;
  (* Inversions have to happen before axis swapping *)
  let input_x := if inverted_x t then int_wrap (abs_x_max t - input_x)
                 else input_x in
  let input_y := if inverted_y t then int_wrap (abs_y_max t - input_y)
                 else input_y in
  let '(input_x, input_y) := swap_if (swapped_x_y t) (input_x, input_y) in
  emit (Ev_input (input_mt_slot id)) ;;
  emit (Ev_input (input_mt_report_slot_state MT_TOOL_FINGER true)) ;;
  emit (Ev_input (input_report_abs ABS_MT_POSITION_X input_x)) ;;
  emit (Ev_input (input_report_abs ABS_MT_POSITION_Y input_y)) ;;
  emit (Ev_input (input_report_abs ABS_MT_TOUCH_MAJOR input_w)) ;;
  emit (Ev_input (input_report_abs ABS_MT_WIDTH_MAJOR input_w)).

(** The loop of [goodix_process_events]:
    [for (i = 0; i < touch_num; i++) goodix_ts_report_touch(...)] *)
Fixpoint report_loop (fuel : nat) (point_data : list byte)
         (touch_num i : Z) : M unit :=
  if i <? touch_num then
    match fuel with
    | O => fun _ => OutOfFuel
    | S fuel' =>
        goodix_ts_report_touch
          (skipn (Z.to_nat (1 + GOODIX_CONTACT_SIZE * i)) point_data) ;;
        report_loop fuel' point_data touch_num (i + 1)
    end
  else ret tt.

(** [goodix_process_events] *)
Definition goodix_process_events : M unit :=
  '(touch_num, point_data) <-
     goodix_ts_read_input_report
       (1 + GOODIX_CONTACT_SIZE * GOODIX_MAX_CONTACTS) ;;
  if touch_num <? 0 then ret tt
  else
    report_loop (Z.to_nat touch_num) point_data touch_num 0 ;;
    emit (Ev_input input_mt_sync_frame) ;;
    emit (Ev_input input_sync).

(** [goodix_ts_irq_handler] *)
Definition goodix_ts_irq_handler : M Z :=
  goodix_process_events ;;
  _ <- goodix_i2c_write_u8 GOODIX_READ_COOR_ADDR 0 ;;
  ret IRQ_HANDLED.

(** [goodix_free_irq], [goodix_request_irq] *)
Definition goodix_free_irq : M unit := emit Ev_free_irq.

Definition goodix_request_irq : M Z :=
  t <- get_ts ;;
  call_request_threaded_irq (irq_flags t).

(** *** Config manager *)

(** [goodix_send_cfg] *)
Definition goodix_send_cfg (cfg : firmware) : M Z :=
  error <- lift (goodix_check_cfg cfg) ;;
  if negb (error =? 0) then ret error
  else
    error <- goodix_i2c_write GOODIX_REG_CONFIG_DATA (fw_data cfg)
                              (fw_size cfg) ;;
    if negb (error =? 0) then ret error
    else
      (* Let the firmware reconfigure itself, so sleep for 10ms *)
      emit (Ev_usleep_range 10000 11000) ;;
      ret 0.

Definition default_geometry (t : goodix_ts_data) : goodix_ts_data :=
  let '(x, y) := swap_if (swapped_x_y t) (GOODIX_MAX_WIDTH, GOODIX_MAX_HEIGHT) in
  set_geometry x y GOODIX_INT_TRIGGER GOODIX_MAX_CONTACTS t.

(** [goodix_read_config] *)
Definition goodix_read_config : M unit :=
  t <- get_ts ;;
  '(error, config) <- goodix_i2c_read GOODIX_REG_CONFIG_DATA
                                      GOODIX_CONFIG_MAX_LENGTH (cfg_len t) ;;
  if negb (error =? 0) then modify_ts default_geometry
  else
    x <- lift (get_unaligned_le16 config RESOLUTION_LOC) ;;
    y <- lift (get_unaligned_le16 config (RESOLUTION_LOC + 2)) ;;
    let '(x, y) := swap_if (swapped_x_y t) (x, y) in
    trig <- lift (data_at config TRIGGER_LOC) ;;
    mt <- lift (data_at config MAX_CONTACTS_LOC) ;;
    let trig := Z.land (u8_val trig) 0x03 in
    let mt := Z.land (u8_val mt) 0x0f in
    modify_ts (set_geometry x y trig mt) ;;
    (if (x =? 0) || (y =? 0) || (mt =? 0) then modify_ts default_geometry
     else ret tt) ;;
    if dmi_check_system env then modify_ts (set_inverted true true)
    else ret tt.

(** *** GPIO lines *)

(** [set_reset_output_val] *)
Definition set_reset_output_val (val : Z) : M Z :=
  call_gpiod_direction_output LineRst val.

(** [set_int_output_val]: reg = <0x1d>, 9 - output high, 1 - output low *)
Definition set_int_output_val (val : Z) : M Z :=
  t <- get_ts ;;
  if negb (substitute_i2c_address t =? 0) then
    let buf := [u8_of 0x1d; u8_of (if negb (val =? 0) then 9 else 1)] in
    r <- call_i2c_transfer_write (u16_wrap (substitute_i2c_address t)) buf ;;
    ret (i2c_ret 1 r)
  else call_gpiod_direction_output LineInt val.

(** [set_int_input]: reg = <0x1d>, 3 - input *)
Definition set_int_input : M Z :=
  t <- get_ts ;;
  r0 <- call_gpiod_direction_input LineInt ;;
  if negb (substitute_i2c_address t =? 0) then
    let buf := [u8_of 0x1d; u8_of 3] in
    r <- call_i2c_transfer_write (u16_wrap (substitute_i2c_address t)) buf ;;
    ret (i2c_ret 1 r)
  else ret r0.

(** *** Reset and address selection *)

(** [goodix_int_sync] *)
Definition goodix_int_sync : M Z :=
  error <- set_int_output_val 0 ;;
  if negb (error =? 0) then ret error
  else
    emit (Ev_msleep 50) ;;                     (* T5: 50ms *)
    set_int_input.

(** [goodix_reset] *)
Definition goodix_reset : M Z :=
  t <- get_ts ;;
  (* begin select I2C slave addr *)
  error <- set_reset_output_val 0 ;;
  if negb (error =? 0) then ret error
  else
    emit (Ev_msleep 20) ;;                     (* T2: > 10ms *)
    error <- set_int_output_val (if client_addr t =? 0x14 then 1 else 0) ;;
    if negb (error =? 0) then ret error
    else
      emit (Ev_usleep_range 100 2000) ;;       (* T3: > 100us *)
      error <- set_reset_output_val 1 ;;
      if negb (error =? 0) then ret error
      else
        emit (Ev_usleep_range 6000 10000) ;;   (* T4: > 5ms *)
        (* end select I2C slave addr *)
        goodix_int_sync.

(** *** ESD supervisor *)

(** [goodix_disable_esd] *)
Definition goodix_disable_esd : M unit :=
  t <- get_ts ;;
  if esd_timeout t =? 0 then ret tt
  else emit Ev_cancel_esd_work.

(** [goodix_enable_esd] *)
Definition goodix_enable_esd : M Z :=
  t <- get_ts ;;
  let esd_timeout := esd_timeout t in
  if esd_timeout =? 0 then ret 0
  else
    error <- goodix_i2c_write_u8 GOODIX_REG_ESD_CHECK GOODIX_CMD_ESD_ENABLED ;;
    if negb (error =? 0) then ret error
    else
      emit (Ev_schedule_esd_work esd_timeout) ;;
      ret 0.

(** The loop of [goodix_esd_work], [while (--retries) { ... }]; returns the
    value of [retries] on leaving the loop. *)
Fixpoint esd_retry_loop (fuel : nat) (retries : Z) : M Z :=
  match fuel with
  | O => fun _ => OutOfFuel
  | S fuel' =>
      let retries := int_wrap (retries - 1) in
      if retries =? 0 then ret retries
      else
        '(error, esd_data) <- goodix_i2c_read GOODIX_REG_COMMAND 2 2 ;;
        if negb (error =? 0) then esd_retry_loop fuel' retries
        else
          d0 <- lift (data_at esd_data 0) ;;
          d1 <- lift (data_at esd_data 1) ;;
          if negb (u8_val d0 =? GOODIX_CMD_ESD_ENABLED)
             && (u8_val d1 =? GOODIX_CMD_ESD_ENABLED) then
            (* feed the watchdog *)
            _ <- goodix_i2c_write_u8 GOODIX_REG_COMMAND
                                     GOODIX_CMD_ESD_ENABLED ;;
            ret retries
          else esd_retry_loop fuel' retries
  end.

(** [goodix_esd_work] *)
Definition goodix_esd_work : M unit :=
  emit Ev_wait_firmware_loading ;;
  retries <- esd_retry_loop 3 3 ;;
  if retries =? 0 then
    goodix_free_irq ;;
    _ <- goodix_reset ;;
    '(error, cfg) <- call_request_firmware ;;
    (if error =? 0 then
       _ <- goodix_send_cfg cfg ;;
       emit Ev_release_firmware
     else ret tt) ;;
    _ <- goodix_request_irq ;;
    _ <- goodix_enable_esd ;;
    ret tt
  else
    t <- get_ts ;;
    emit (Ev_schedule_esd_work (esd_timeout t)).

(** *** Open, close, sleep *)

(** [goodix_open] *)
Definition goodix_open : M Z :=
  t <- get_ts ;;
  if negb (gpiod_int t) || negb (gpiod_rst t) then ret 0
  else
    emit Ev_wait_firmware_loading ;;
    error <- goodix_set_power_state true ;;
    if negb (error =? 0) then ret error
    else
      modify_ts (fun t => set_open_count (int_wrap (open_count t + 1)) t) ;;
      ret 0.

(** [goodix_close] *)
Definition goodix_close : M unit :=
  t <- get_ts ;;
  if negb (gpiod_int t) || negb (gpiod_rst t) then ret tt
  else
    _ <- goodix_set_power_state false ;;
    modify_ts (fun t => set_open_count (int_wrap (open_count t - 1)) t).

(** [goodix_sleep] *)
Definition goodix_sleep : M Z :=
  t <- get_ts ;;
  (* We need gpio pins to suspend/resume *)
  if negb (gpiod_int t) || negb (gpiod_rst t) then ret 0
  else
    emit Ev_wait_firmware_loading ;;
    emit Ev_mutex_lock ;;
    if suspended t then
      emit Ev_mutex_unlock ;; ret 0
    else
      goodix_disable_esd ;;
      (* Free IRQ as IRQ pin is used as output in the suspend sequence *)
      goodix_free_irq ;;
      (* Output LOW on the INT pin for 5 ms *)
      error <- set_int_output_val 0 ;;
      if negb (error =? 0) then
        _ <- goodix_request_irq ;;
        emit Ev_mutex_unlock ;; ret error
      else
        emit (Ev_usleep_range 5000 6000) ;;
        error <- goodix_i2c_write_u8 GOODIX_REG_COMMAND
                                     GOODIX_CMD_SCREEN_OFF ;;
        if negb (error =? 0) then
          _ <- set_int_input ;;
          _ <- goodix_request_irq ;;
          emit Ev_mutex_unlock ;; ret (- EAGAIN)
        else
          emit (Ev_msleep 58) ;;
          modify_ts (set_suspended true) ;;
          emit Ev_mutex_unlock ;; ret 0.

End Driver.


(** ** The rest of the driver's runtime paths *)

Definition set_esd_timeout (n : Z) (t : goodix_ts_data) : goodix_ts_data :=
  mk_ts (client_addr t) (abs_x_max t) (abs_y_max t) (swapped_x_y t)
        (inverted_x t) (inverted_y t) (max_touch_num t) (int_trigger_type t)
        (cfg_len t) (substitute_i2c_address t) (gpiod_int t) (gpiod_rst t)
        (id t) (irq_flags t) n (suspended t) (open_count t).

Section DriverRest.

Variable env : environment.

(** *** Probe of the bus *)

(** The loop of [goodix_i2c_test], [while (retry++ < 2) { ... }], with the
    [return 0] inside it and the [return error] after it; [error] is
    assigned in the first pass before it is read. *)
Fixpoint i2c_test_loop (fuel : nat) (retry error : Z) : M Z :=
  if retry <? 2 then
    match fuel with
    | O => fun _ => OutOfFuel
    | S fuel' =>
        let retry := int_wrap (retry + 1) in
        '(error, _) <- goodix_i2c_read env GOODIX_REG_CONFIG_DATA 1 1 ;;
        if error =? 0 then ret 0
        else
          emit (Ev_msleep 20) ;;
          i2c_test_loop fuel' retry error
    end
  else ret error.

(** [goodix_i2c_test] *)
Definition goodix_i2c_test : M Z := i2c_test_loop 2 0 0.

(** *** Wake-up and resume *)

(** [goodix_wakeup] *)
Definition goodix_wakeup : M Z :=
  t <- get_ts ;;
  if negb (gpiod_int t) || negb (gpiod_rst t) then ret 0
  else
    emit Ev_mutex_lock ;;
    if negb (suspended t) then
      emit Ev_mutex_unlock ;; ret 0
    else
      (* Exit sleep mode by outputting HIGH level to INT pin for 2ms~5ms *)
      error <- set_int_output_val env 1 ;;
      if negb (error =? 0) then emit Ev_mutex_unlock ;; ret error
      else
        emit (Ev_usleep_range 2000 5000) ;;
        error <- goodix_int_sync env ;;
        if negb (error =? 0) then emit Ev_mutex_unlock ;; ret error
        else
          error <- goodix_request_irq env ;;
          if negb (error =? 0) then emit Ev_mutex_unlock ;; ret error
          else
            error <- goodix_enable_esd env ;;
            if negb (error =? 0) then emit Ev_mutex_unlock ;; ret error
            else
              modify_ts (set_suspended false) ;;
              emit Ev_mutex_unlock ;; ret 0.

(** [goodix_resume] *)
Definition goodix_resume : M Z :=
  t <- get_ts ;;
  if open_count t =? 0 then ret 0
  else goodix_wakeup.

(** *** Attribute surface *)

(** [kstrtouint(buf, 10, &res)], from the kernel library: the error code
    and the number parsed. *)
Variable kstrtouint : list byte -> Z * Z.

(** [pm_runtime_active(dev)], a query of the runtime-PM core. *)
Variable pm_runtime_active : list event -> bool.

Definition call_pm_runtime_active : M bool :=
  fun st => Ok (pm_runtime_active (trace st), st).

(** [goodix_esd_timeout_store(dev, attr, buf, count)] *)
Definition goodix_esd_timeout_store (buf : list byte) (count : Z) : M Z :=
  let '(error, parsed) := kstrtouint buf in
  let new_esd_timeout := int_wrap parsed in
  if negb (error =? 0) then ret error
  else
    t <- get_ts ;;
    let esd_timeout := esd_timeout t in
    (if negb (esd_timeout =? 0) && (new_esd_timeout =? 0) then
       active <- call_pm_runtime_active ;;
       if active then goodix_disable_esd else ret tt
     else ret tt) ;;
    modify_ts (set_esd_timeout new_esd_timeout) ;;
    (if (esd_timeout =? 0) && negb (new_esd_timeout =? 0) then
       active <- call_pm_runtime_active ;;
       if active then _ <- goodix_enable_esd env ;; ret tt else ret tt
     else ret tt) ;;
    ret count.

(** [scnprintf(buf, size, "%02x ", value)], from the kernel library: the
    characters stored, the terminating NUL apart. *)
Variable scnprintf_02x : Z -> byte -> list byte.

(** [PAGE_SIZE] of the platform. *)
Variable PAGE_SIZE : Z.

(** The loop of [goodix_dump_config_show]:
    [for (i = 0; i < ts->cfg_len; i++) count += scnprintf(buf + count, ...)];
    returns [count] and the text written to [buf]. *)
Fixpoint dump_loop (fuel : nat) (config : list byte) (cfg_len i count : Z)
         (text : list byte) : M (Z * list byte) :=
  if i <? cfg_len then
    match fuel with
    | O => fun _ => OutOfFuel
    | S fuel' =>
        b <- lift (data_at config i) ;;
        let chunk := scnprintf_02x (PAGE_SIZE - count) b in
        dump_loop fuel' config cfg_len (i + 1)
                  (int_wrap (count + Z.of_nat (length chunk)))
                  (text ++ chunk)
    end
  else ret (count, text).

(** [goodix_dump_config_show(dev, attr, buf)]: the value returned and the
    text left in [buf]. *)
Definition goodix_dump_config_show : M (Z * list byte) :=
  t <- get_ts ;;
  error <- goodix_set_power_state env true ;;
  if negb (error =? 0) then ret (error, [])
  else
    '(error, config) <- goodix_i2c_read env GOODIX_REG_CONFIG_DATA
                                        GOODIX_CONFIG_MAX_LENGTH (cfg_len t) ;;
    if negb (error =? 0) then
      _ <- goodix_set_power_state env false ;;
      ret (error, [])
    else
      _ <- goodix_set_power_state env false ;;
      dump_loop (Z.to_nat (cfg_len t)) config (cfg_len t) 0 0 [].

End DriverRest.
(** * Vocabulary of the properties *)

(** ** Config blob *)

(** The words of the blob format: the sum of a run of bytes, and the
    two's-complement checksum that makes the sum of payload and checksum
    vanish modulo 256. *)
Definition sum_bytes (l : list byte) : Z :=
  fold_right (fun b acc => u8_val b + acc) 0 l.

Definition twos_complement_checksum (payload : list byte) : Z :=
  (- sum_bytes payload) mod 256.

(** ** Operations in the trace *)

(** The state after further events, the instance unchanged. *)
Definition after (st : state) (evs : list event) : state :=
  mk_state (ts st) (trace st ++ evs).

(** An operation on a line or a register as it shows in the trace: the
    calls it makes and the error it returns. *)
Record operation : Type := mk_op { op_calls : list event; op_error : Z }.

(** Driving the reset line: always the GPIO. *)
Definition rst_output (val r : Z) : operation :=
  mk_op [Ev_gpio_output LineRst val r] r.

(** Driving the INT line: a write of 9 (high) or 1 (low) to register 0x1d
    of the substitute address when there is one, the GPIO otherwise. *)
Definition int_output (t : goodix_ts_data) (val r : Z) : operation :=
  if substitute_i2c_address t =? 0 then
    mk_op [Ev_gpio_output LineInt val r] r
  else
    mk_op [Ev_i2c_send (u16_wrap (substitute_i2c_address t))
                       [x1d; if val =? 0 then x01 else x09] r]
          (i2c_ret 1 r).

(** Floating the INT line: the GPIO is switched to input; with a
    substitute address, 3 is then written to its register 0x1d and that
    write decides the result. *)
Definition int_input (t : goodix_ts_data) (r0 r : Z) : operation :=
  if substitute_i2c_address t =? 0 then
    mk_op [Ev_gpio_input LineInt r0] r0
  else
    mk_op [Ev_gpio_input LineInt r0;
           Ev_i2c_send (u16_wrap (substitute_i2c_address t)) [x1d; x03] r]
          (i2c_ret 1 r).

Definition runs_as (A : Type) (m : M A) (st : state) (a : A)
           (evs : list event) : Prop :=
  m st = Ok (a, after st evs).
Arguments runs_as {A} m st a evs.


(** Writing one byte to a register of the controller: the transfer buffer
    of three bytes is allocated, and when that succeeds the register
    address, high byte first, and the value go out in one message. *)
Definition reg_write_u8 (t : goodix_ts_data) (reg value : Z) (ok : bool)
           (r : Z) : operation :=
  if ok then
    mk_op [Ev_kmalloc 3 true;
           Ev_i2c_send (client_addr t)
                       [u8_of (Z.shiftr reg 8); u8_of (Z.land reg 0xFF);
                        u8_of value] r]
          (i2c_ret 1 r)
  else mk_op [Ev_kmalloc 3 false] (- ENOMEM).

(** Cancelling the watchdog: only when it is enabled. *)
Definition esd_cancel (t : goodix_ts_data) : list event :=
  if esd_timeout t =? 0 then [] else [Ev_cancel_esd_work].

(** ** Touch reports *)

(** An event that reaches the input core. *)
Definition is_input (e : event) : bool :=
  match e with
  | Ev_input _ => true
  | _ => false
  end.

(** A 16-bit little-endian field of a report or of the config. *)
Definition u16_le (lo hi : byte) : Z := u8_val lo + 256 * u8_val hi.

(** The events of one contact in the sink. *)
Definition contact_events (slot x y w : Z) : list event :=
  [Ev_input (input_mt_slot slot);
   Ev_input (input_mt_report_slot_state MT_TOOL_FINGER true);
   Ev_input (input_report_abs ABS_MT_POSITION_X x);
   Ev_input (input_report_abs ABS_MT_POSITION_Y y);
   Ev_input (input_report_abs ABS_MT_TOUCH_MAJOR w);
   Ev_input (input_report_abs ABS_MT_WIDTH_MAJOR w)].

(** The position emitted for raw coordinates (x, y): the inversions come
    before the swap of the axes. *)
Definition emitted_position (t : goodix_ts_data) (x y : Z) : Z * Z :=
  let xi := if inverted_x t then abs_x_max t - x else x in
  let yi := if inverted_y t then abs_y_max t - y else y in
  if swapped_x_y t then (yi, xi) else (xi, yi).

(** The sink events of the first [n] contacts of a run of 8-byte contact
    blocks {id, x_lo, x_hi, y_lo, y_hi, w_lo, w_hi, reserved}. *)
Fixpoint frame_contacts (t : goodix_ts_data) (blocks : list byte) (n : nat)
         {struct n} : list event :=
  match n with
  | O => []
  | S n' =>
      match blocks with
      | c0 :: xl :: xh :: yl :: yh :: wl :: wh :: _ :: rest =>
          let p := emitted_position t (u16_le xl xh) (u16_le yl yh) in
          contact_events (Z.land (u8_val c0) 0x0F) (fst p) (snd p)
                         (u16_le wl wh)
          ++ frame_contacts t rest n'
      | _ => []
      end
  end.

(** An extent from which any 16-bit coordinate can be subtracted within
    the C type [int]. *)
Definition extent_fits_int (extent : Z) : Prop :=
  - 2147483648 + 65535 <= extent <= 2147483647.

(** ** Panel geometry *)

(** The defaults: 4096x4096, 10 contacts, falling edge. *)
Definition geometry_default (t : goodix_ts_data) : Prop :=
  abs_x_max t = 4096 /\
  abs_y_max t = 4096 /\
  max_touch_num t = 10 /\
  int_trigger_type t = 1.

(** The ranges of the data model: extents in 1..4096, contacts in 1..10,
    trigger index in 0..3. *)
Definition geometry_in_model_ranges (t : goodix_ts_data) : Prop :=
  1 <= abs_x_max t <= 4096 /\
  1 <= abs_y_max t <= 4096 /\
  1 <= max_touch_num t <= 10 /\
  0 <= int_trigger_type t <= 3.

(** ** ESD watchdog *)

(** What a read of two bytes from the command register says about the
    controller: healthy when the transfer went through, the first byte is
    not 0xAA and the second is. *)
Definition esd_healthy (reply : Z * (nat -> byte)) : bool :=
  (fst reply =? 2)
  && negb (u8_val (snd reply 0%nat) =? GOODIX_CMD_ESD_ENABLED)
  && (u8_val (snd reply 1%nat) =? GOODIX_CMD_ESD_ENABLED).

Definition is_i2c_read (e : event) : bool :=
  match e with
  | Ev_i2c_read _ _ _ _ _ => true
  | _ => false
  end.

(** ** Concrete boards *)

(** A GT911 at address 0x14 with both GPIOs, a 4096x4096 panel with 10
    contacts, falling-edge one-shot interrupt, watchdog period 2000 ms. *)
Definition ts_gt911 : goodix_ts_data :=
  mk_ts 0x14 4096 4096 false false false 10 1 186 0 true true 911 0x2002
        2000 false 0.

Definition st_gt911 : state := mk_state ts_gt911 [].

(** The same panel mounted upside down (both axes inverted). *)
Definition st_rotated : state :=
  mk_state (set_inverted true true ts_gt911) [].

(** The same controller without GPIO handles. *)
Definition st_no_gpio : state :=
  mk_state (mk_ts 0x14 4096 4096 false false false 10 1 186 0 false false
                  911 0x2002 0 false 0) [].

(** An environment whose answers do not depend on the history. *)
Definition env_fixed (rd : Z * (nat -> byte)) (alloc : bool)
           (wr gpio irq pm : Z) (fw : Z * list byte) : environment :=
  mk_env (fun _ _ _ _ => rd) (fun _ _ => alloc) (fun _ _ _ => wr)
         (fun _ _ _ => gpio) (fun _ _ => gpio) (fun _ _ => irq)
         (fun _ => pm) (fun _ => pm) (fun _ => fw) false.

(** A config blob of 186 bytes with a valid checksum and the fresh flag. *)
Definition cfg_blob_valid : list byte := repeat x00 184 ++ [x00; x01].

(** Every call succeeds; registers read as zero. *)
Definition env_ok : environment :=
  env_fixed (2, fun _ => x00) true 1 0 0 0 (0, cfg_blob_valid).

(** Config registers of a 5000x4096 panel that announces 15 contacts. *)
Definition config_5000x4096_15 (i : nat) : byte :=
  match i with
  | 1%nat => x88 | 2%nat => x13
  | 3%nat => x00 | 4%nat => x10
  | 5%nat => x0f
  | 6%nat => x01
  | _ => x00
  end.

Definition env_big_panel : environment :=
  env_fixed (2, config_5000x4096_15) true 1 0 0 0 (0, cfg_blob_valid).

(** A report whose header announces 11 contacts. *)
Definition env_eleven_contacts : environment :=
  env_fixed (2, fun i => match i with O => x8b | _ => x00 end) true 1 0 0 0
            (0, cfg_blob_valid).

(** The controller does not acknowledge writes: transfers of one message
    fail with -5 (-EIO). *)
Definition env_write_nak : environment :=
  env_fixed (2, fun _ => x00) true (-5) 0 0 0 (0, cfg_blob_valid).

(** Runtime PM refuses to resume the device (-13). *)
Definition env_pm_refuses : environment :=
  env_fixed (2, fun _ => x00) true 1 0 0 (-13) (0, cfg_blob_valid).

(** The command register reads {0xAA, 0xAA} on the first two reads and
    {0x00, 0xAA}, a healthy controller, from the third read on. *)
Definition env_third_read_healthy : environment :=
  mk_env (fun h _ _ _ =>
            if (length (filter is_i2c_read h) <? 2)%nat
            then (2, fun _ => xaa)
            else (2, fun i => match i with O => x00 | _ => xaa end))
         (fun _ _ => true) (fun _ _ _ => 1)
         (fun _ _ _ => 0) (fun _ _ => 0) (fun _ _ => 0)
         (fun _ => 0) (fun _ => 0) (fun _ => (0, cfg_blob_valid)) false.

(** ** Classes of events *)

(** Requests on the interrupt line. *)
Definition is_irq_event (e : event) : bool :=
  match e with
  | Ev_free_irq | Ev_request_irq _ _ => true
  | _ => false
  end.

(** Events that leave the interrupt registration and the sink alone. *)
Definition steady (e : event) : bool :=
  negb (is_irq_event e) && negb (is_input e).

(** A computation that, from every state, finishes with the instance
    unchanged after events of class [P] only. *)
Definition runs_within (P : event -> bool) (A : Type) (m : M A) : Prop :=
  forall st, exists a evs, runs_as m st a evs /\ forallb P evs = true.
Arguments runs_within P {A} m.

(** ** Wake-up *)

(** Arming the watchdog: nothing when it is disabled; otherwise 0xAA is
    written to the ESD check register and, when that write succeeds, the
    first tick is scheduled. *)
Definition esd_arm (t : goodix_ts_data) (ok : bool) (w : Z) : operation :=
  if esd_timeout t =? 0 then mk_op [] 0
  else
    let arm := reg_write_u8 t GOODIX_REG_ESD_CHECK GOODIX_CMD_ESD_ENABLED
                            ok w in
    if op_error arm =? 0
    then mk_op (op_calls arm ++ [Ev_schedule_esd_work (esd_timeout t)]) 0
    else arm.

(** Requesting the interrupt. *)
Definition irq_request (t : goodix_ts_data) (r : Z) : operation :=
  mk_op [Ev_request_irq (irq_flags t) r] r.


(** The GT911 board held open once. *)
Definition st_opened : state := mk_state (set_open_count 1 ts_gt911) [].

(** The GT911 board after a sleep, and after the wake-up that follows, on
    the environment where every call succeeds. *)
Definition st_gt911_slept : state :=
  Eval vm_compute in
    match goodix_sleep env_ok st_gt911 with
    | Ok (_, st) => st
    | _ => st_gt911
    end.

Definition st_gt911_woken : state :=
  Eval vm_compute in
    match goodix_wakeup env_ok st_gt911_slept with
    | Ok (_, st) => st
    | _ => st_gt911
    end.

Definition st_opened_slept : state :=
  Eval vm_compute in
    match goodix_sleep env_ok st_opened with
    | Ok (_, st) => st
    | _ => st_opened
    end.

Definition st_opened_resumed : state :=
  Eval vm_compute in
    match goodix_resume env_ok st_opened_slept with
    | Ok (_, st) => st
    | _ => st_opened
    end.

(** The GT911 board after an open, and after the close that follows. *)
Definition st_gt911_open : state :=
  Eval vm_compute in
    match goodix_open env_ok st_gt911 with
    | Ok (_, st) => st
    | _ => st_gt911
    end.

Definition st_gt911_closed : state :=
  Eval vm_compute in
    match goodix_close env_ok st_gt911_open with
    | Ok (_, st) => st
    | _ => st_gt911
    end.

(** ** Buses for the decoder and the watchdog *)

(** A report of one contact: slot 3 at (100, 200), width 16. *)
Definition report_one_contact (i : nat) : byte :=
  match i with
  | 0%nat => x81
  | 1%nat => x03
  | 2%nat => x64
  | 4%nat => xc8
  | 6%nat => x10
  | _ => x00
  end.

Definition env_one_contact : environment :=
  env_fixed (2, report_one_contact) true 1 0 0 0 (0, cfg_blob_valid).

(** The command register reads {0x00, 0xAA}: a healthy controller. *)
Definition env_healthy : environment :=
  env_fixed (2, fun i => match i with O => x00 | _ => xaa end) true 1 0 0 0
            (0, cfg_blob_valid).

(** ** Formatting for the config dump *)

Definition hex_digit (d : Z) : byte :=
  u8_of (if d <? 10 then 48 + d else 87 + d).

(** Modelled from the kernel's description of [scnprintf]: the text of
    ["%02x "] for a byte, cut to the room left for it less the
    terminating NUL. *)
Definition format_02x (size : Z) (b : byte) : list byte :=
  firstn (Z.to_nat (size - 1))
         [hex_digit (Z.shiftr (u8_val b) 4);
          hex_digit (Z.land (u8_val b) 0x0F); x20].

(** No device answers on the bus: every transfer fails with -6 (-ENXIO). *)
Definition env_no_answer : environment :=
  env_fixed (-6, fun _ => x00) true (-6) 0 0 0 (0, cfg_blob_valid).

(** ** Operations as the environment answers them *)

(** A sequence of operations, each asked of the environment at the
    history [h] it is reached with and followed by its delay: it runs up
    to and including the first operation that fails and returns that
    operation's error; 0 when none fails. *)
Fixpoint script (steps : list ((list event -> operation) * list event))
         (h : list event) : list event * Z :=
  match steps with
  | [] => ([], 0)
  | (op, delay) :: rest =>
      if op_error (op h) =? 0 then
        (op_calls (op h) ++ delay
         ++ fst (script rest (h ++ op_calls (op h) ++ delay)),
         snd (script rest (h ++ op_calls (op h) ++ delay)))
      else (op_calls (op h), op_error (op h))
  end.

(** The reset line driven at history [h]. *)
Definition rst_output_at (env : environment) (val : Z) (h : list event)
  : operation :=
  rst_output val (gpiod_direction_output env h LineRst val).

(** The INT line driven at history [h]: the answer is the GPIO's, or with
    a substitute address that of the transfer to its register 0x1d. *)
Definition int_output_at (env : environment) (t : goodix_ts_data) (val : Z)
           (h : list event) : operation :=
  int_output t val
    (if substitute_i2c_address t =? 0
     then gpiod_direction_output env h LineInt val
     else i2c_transfer_write env h (u16_wrap (substitute_i2c_address t))
                             [x1d; if val =? 0 then x01 else x09]).

(** The INT line floated at history [h]: the GPIO answers first, the
    transfer to the substitute address after it. *)
Definition int_input_at (env : environment) (t : goodix_ts_data)
           (h : list event) : operation :=
  let r0 := gpiod_direction_input env h LineInt in
  int_input t r0
    (i2c_transfer_write env (h ++ [Ev_gpio_input LineInt r0])
                        (u16_wrap (substitute_i2c_address t)) [x1d; x03]).

(** A one-byte register write at history [h]: the allocation answers
    first, the transfer after it. *)
Definition reg_write_u8_at (env : environment) (t : goodix_ts_data)
           (reg value : Z) (h : list event) : operation :=
  reg_write_u8 t reg value (kmalloc env h 3)
    (i2c_transfer_write env (h ++ [Ev_kmalloc 3 true]) (client_addr t)
       [u8_of (Z.shiftr reg 8); u8_of (Z.land reg 0xFF); u8_of value]).

(** The INT sync at history [h]. *)
Definition int_sync_at (env : environment) (t : goodix_ts_data)
           (h : list event) : operation :=
  let outcome := script [(int_output_at env t 0, [Ev_msleep 50]);
                         (int_input_at env t, [])] h in
  mk_op (fst outcome) (snd outcome).

(** The interrupt requested at history [h]. *)
Definition irq_request_at (env : environment) (t : goodix_ts_data)
           (h : list event) : operation :=
  irq_request t (devm_request_threaded_irq env h (irq_flags t)).

(** The watchdog armed at history [h]. *)
Definition esd_arm_at (env : environment) (t : goodix_ts_data)
           (h : list event) : operation :=
  esd_arm t (kmalloc env h 3)
    (i2c_transfer_write env (h ++ [Ev_kmalloc 3 true]) (client_addr t)
       [u8_of (Z.shiftr GOODIX_REG_ESD_CHECK 8);
        u8_of (Z.land GOODIX_REG_ESD_CHECK 0xFF);
        u8_of GOODIX_CMD_ESD_ENABLED]).

(** ** Boards for the handshake *)

(** The GT911 board with its INT line behind register 0x1d of a
    substitute device at address 0x38. *)
Definition st_substitute : state :=
  mk_state (mk_ts 0x14 4096 4096 false false false 10 1 186 0x38 true true
                  911 0x2002 2000 false 0) [].

(** The GPIO controller refuses to switch a line to input (-22); every
    other call succeeds. *)
Definition env_input_refused : environment :=
  mk_env (fun _ _ _ _ => (2, fun _ => x00)) (fun _ _ => true)
         (fun _ _ _ => 1) (fun _ _ _ => 0) (fun _ _ => -22)
         (fun _ _ => 0) (fun _ => 0) (fun _ => 0)
         (fun _ => (0, cfg_blob_valid)) false.

(** ** A wide panel *)

(** Config registers of a 5000x4096 panel with 5 contacts, trigger type
    1. *)
Definition config_5000x4096_5 (i : nat) : byte :=
  match i with
  | 1%nat => x88 | 2%nat => x13
  | 3%nat => x00 | 4%nat => x10
  | 5%nat => x05
  | 6%nat => x01
  | _ => x00
  end.

Definition env_wide_panel : environment :=
  env_fixed (2, config_5000x4096_5) true 1 0 0 0 (0, cfg_blob_valid).
(** * Properties *)

(** ** Bytes and machine integers *)

Lemma u8_val_range (b : byte) : 0 <= u8_val b < 256.
Proof.
  unfold u8_val. pose proof (Byte.to_N_bounded b) as H.
  split; [apply N2Z.is_nonneg | lia].
Qed.

Lemma int_wrap_small (z : Z) :
  - 2147483648 <= z < 2147483648 -> int_wrap z = z.
Proof.
  intros H. unfold int_wrap. rewrite Z.mod_small by lia. lia.
Qed.

(** ** Config blob length *)

Ltac split_positive p :=
  try reflexivity;
  match goal with
  | |- _ => destruct p as [p | p | ]; simpl; split_positive p
  end.

(** C8.  The config blob length is 186 for the ids 911, 9271, 9110, 927 and
    928, 228 for the ids 912 and 967, and 240 for every other id. *)
Theorem goodix_get_cfg_len_by_id (id : Z) :
  goodix_get_cfg_len id =
  if existsb (Z.eqb id) [911; 9271; 9110; 927; 928] then 186
  else if existsb (Z.eqb id) [912; 967] then 228
  else 240.
Proof.
  unfold goodix_get_cfg_len.
  destruct id as [| p | p]; try reflexivity.
  split_positive p.
Qed.

(** ** Config validation *)

Lemma sum_bytes_app (l1 l2 : list byte) :
  sum_bytes (l1 ++ l2) = sum_bytes l1 + sum_bytes l2.
Proof.
  induction l1 as [| b l1 IH]; simpl; [reflexivity |].
  fold (sum_bytes (l1 ++ l2)). fold (sum_bytes l1). rewrite IH. lia.
Qed.

Lemma data_at_app (pre rest : list byte) (b : byte) :
  data_at (pre ++ b :: rest) (Z.of_nat (length pre)) = Ok b.
Proof.
  unfold data_at.
  destruct (Z.ltb_spec (Z.of_nat (length pre)) 0) as [H | _]; [lia |].
  rewrite Nat2Z.id, nth_error_app2 by lia.
  rewrite Nat.sub_diag. reflexivity.
Qed.

Lemma data_at_short (buf : list byte) (i : Z) :
  i < 0 \/ Z.of_nat (length buf) <= i -> data_at buf i = OutOfBounds.
Proof.
  intros H. unfold data_at.
  destruct (Z.ltb_spec i 0) as [_ | Hi]; [reflexivity |].
  destruct H as [H | H]; [lia |].
  assert (Hn : nth_error buf (Z.to_nat i) = None)
    by (apply nth_error_None; lia).
  rewrite Hn. reflexivity.
Qed.

(** The loop adds up the bytes between [i] and [raw_cfg_len]. *)
Lemma check_sum_loop_sum (mid : list byte) :
  forall (pre tail : list byte) (fuel : nat) (check_sum : Z),
    (length mid <= fuel)%nat ->
    0 <= check_sum < 256 ->
    check_sum_loop fuel (pre ++ mid ++ tail)
                   (Z.of_nat (length pre + length mid))
                   (Z.of_nat (length pre)) check_sum
    = Ok ((check_sum + sum_bytes mid) mod 256).
Proof.
  induction mid as [| b mid IH]; intros pre tail fuel cs Hfuel Hcs.
  - simpl. rewrite Nat.add_0_r.
    destruct fuel; simpl; rewrite Z.ltb_irrefl, Z.add_0_r, Z.mod_small;
      auto.
  - destruct fuel as [| fuel]; [simpl in Hfuel; lia |].
    cbn [check_sum_loop].
    destruct (Z.ltb_spec (Z.of_nat (length pre))
                         (Z.of_nat (length pre + length (b :: mid))))
      as [_ | H]; [| simpl in H; lia].
    change (pre ++ (b :: mid) ++ tail) with (pre ++ b :: (mid ++ tail)).
    rewrite data_at_app. cbn [rbind].
    specialize (IH (pre ++ [b]) tail fuel (u8_wrap (cs + u8_val b))).
    rewrite <- app_assoc in IH. cbn [app] in IH.
    rewrite length_app in IH. cbn [length] in IH.
    replace (Z.of_nat (length pre + 1 + length mid))
      with (Z.of_nat (length pre + length (b :: mid))) in IH
      by (cbn [length]; lia).
    replace (Z.of_nat (length pre + 1)) with (Z.of_nat (length pre) + 1)
      in IH by lia.
    rewrite IH.
    + f_equal. unfold u8_wrap. cbn [sum_bytes fold_right].
      fold (sum_bytes mid).
      rewrite Zplus_mod_idemp_l. f_equal. lia.
    + simpl in Hfuel. lia.
    + unfold u8_wrap. apply Z.mod_pos_bound. lia.
Qed.

(** Validation of a blob that ends in a checksum byte [c] and a fresh
    flag [f]. *)
Lemma goodix_check_cfg_long (payload : list byte) (c f : byte) :
  Z.of_nat (length payload) + 2 <= GOODIX_CONFIG_MAX_LENGTH ->
  goodix_check_cfg (mk_fw (payload ++ [c; f])) =
  Ok (if negb (twos_complement_checksum payload =? u8_val c) then - EINVAL
      else if negb (u8_val f =? 1) then - EINVAL else 0).
Proof.
  intros Hlen. unfold goodix_check_cfg, fw_size. cbn [fw_data].
  rewrite length_app. cbn [length].
  unfold GOODIX_CONFIG_MAX_LENGTH in *.
  destruct (Z.gtb_spec (Z.of_nat (length payload + 2)) 240) as [H | _];
    [lia |].
  replace (Z.of_nat (length payload + 2) - 2)
    with (Z.of_nat (length payload)) by lia.
  rewrite int_wrap_small by lia.
  rewrite Nat2Z.id.
  pose proof (check_sum_loop_sum payload [] [c; f] (length payload) 0
                (Nat.le_refl _)) as Hloop.
  cbn [app length Nat.add Z.of_nat] in Hloop. rewrite Hloop by lia. clear Hloop.
  cbn [rbind]. rewrite Z.add_0_l.
  rewrite data_at_app. cbn [rbind].
  replace (u8_wrap (Z.lnot (sum_bytes payload mod 256) + 1))
    with (twos_complement_checksum payload).
  2:{ unfold u8_wrap, twos_complement_checksum, Z.lnot.
      replace (Z.pred (- (sum_bytes payload mod 256)) + 1)
        with (0 - sum_bytes payload mod 256) by lia.
      rewrite Zminus_mod_idemp_r. reflexivity. }
  destruct (negb (twos_complement_checksum payload =? u8_val c));
    [reflexivity |].
  replace (payload ++ [c; f]) with ((payload ++ [c]) ++ [f])
    by (rewrite <- app_assoc; reflexivity).
  replace (Z.of_nat (length payload) + 1)
    with (Z.of_nat (length (payload ++ [c])))
    by (rewrite length_app; cbn [length]; lia).
  rewrite data_at_app. cbn [rbind].
  destruct (negb (u8_val f =? 1)); reflexivity.
Qed.

(** A blob shorter than two bytes makes [raw_cfg_len] negative, and the
    checksum byte is looked up before the start of the blob. *)
Lemma goodix_check_cfg_short (cfg : firmware) :
  fw_size cfg < 2 -> goodix_check_cfg cfg = OutOfBounds.
Proof.
  destruct cfg as [data]. unfold fw_size. cbn [fw_data].
  destruct data as [| b0 [| b1 data]]; cbn [length]; intros H;
    [reflexivity | reflexivity | lia].
Qed.

Lemma two_last_bytes (data : list byte) :
  (2 <= length data)%nat ->
  exists payload c f, data = payload ++ [c; f].
Proof.
  intros H.
  destruct (exists_last (l := data)) as [l1 [f E1]];
    [intros ->; simpl in H; lia |].
  subst data. rewrite length_app in H. cbn [length] in H.
  destruct (exists_last (l := l1)) as [payload [c E2]];
    [intros ->; simpl in H; lia |].
  subst l1. exists payload, c, f. rewrite <- app_assoc. reflexivity.
Qed.

Lemma checksum_byte_iff_sum_zero (payload : list byte) (c : byte) :
  u8_val c = twos_complement_checksum payload <->
  sum_bytes (payload ++ [c]) mod 256 = 0.
Proof.
  rewrite sum_bytes_app. unfold twos_complement_checksum.
  cbn [sum_bytes fold_right]. fold (sum_bytes payload).
  pose proof (u8_val_range c) as Hc.
  split; intros H; Z.div_mod_to_equations; lia.
Qed.

Lemma goodix_check_cfg_accept (cfg : firmware) :
  goodix_check_cfg cfg = Ok 0 <->
  fw_size cfg <= 240 /\
  exists payload c f,
    fw_data cfg = payload ++ [c; f] /\
    u8_val c = twos_complement_checksum payload /\
    u8_val f = 1.
Proof.
  split.
  - intros Hacc.
    assert (Hsize : fw_size cfg <= 240).
    { unfold goodix_check_cfg, GOODIX_CONFIG_MAX_LENGTH in Hacc.
      destruct (Z.gtb_spec (fw_size cfg) 240) as [H | H]; [| exact H].
      discriminate Hacc. }
    split; [exact Hsize |].
    destruct (Z_lt_le_dec (fw_size cfg) 2) as [Hshort | Hlong].
    { rewrite (goodix_check_cfg_short cfg Hshort) in Hacc.
      discriminate Hacc. }
    destruct cfg as [data]. unfold fw_size in *. cbn [fw_data] in *.
    destruct (two_last_bytes data) as (payload & c & f & ->); [lia |].
    exists payload, c, f. split; [reflexivity |].
    rewrite length_app in Hsize. cbn [length] in Hsize.
    rewrite goodix_check_cfg_long in Hacc
      by (unfold GOODIX_CONFIG_MAX_LENGTH; lia).
    destruct (Z.eqb_spec (twos_complement_checksum payload) (u8_val c))
      as [Hc | Hc]; cbn [negb] in Hacc; [| discriminate Hacc].
    destruct (Z.eqb_spec (u8_val f) 1) as [Hf | Hf]; cbn [negb] in Hacc;
      [| discriminate Hacc].
    split; [symmetry; exact Hc | exact Hf].
  - intros (Hsize & payload & c & f & Hdata & Hc & Hf).
    destruct cfg as [data]. unfold fw_size in Hsize. cbn [fw_data] in *.
    subst data. rewrite length_app in Hsize. cbn [length] in Hsize.
    rewrite goodix_check_cfg_long
      by (unfold GOODIX_CONFIG_MAX_LENGTH; lia).
    rewrite <- Hc, Hf, Z.eqb_refl. reflexivity.
Qed.

(** A blob of two bytes or more is always either accepted or rejected. *)
Lemma goodix_check_cfg_decides (cfg : firmware) :
  2 <= fw_size cfg ->
  goodix_check_cfg cfg = Ok 0 \/ goodix_check_cfg cfg = Ok (- EINVAL).
Proof.
  intros Hlong.
  destruct (Z_le_gt_dec (fw_size cfg) 240) as [Hsize | Hsize].
  - destruct cfg as [data]. unfold fw_size in *. cbn [fw_data] in *.
    destruct (two_last_bytes data) as (payload & c & f & ->); [lia |].
    rewrite length_app in Hsize. cbn [length] in Hsize.
    rewrite goodix_check_cfg_long
      by (unfold GOODIX_CONFIG_MAX_LENGTH; lia).
    destruct (negb (twos_complement_checksum payload =? u8_val c));
      [right; reflexivity |].
    destruct (negb (u8_val f =? 1)); [right | left]; reflexivity.
  - right. unfold goodix_check_cfg, GOODIX_CONFIG_MAX_LENGTH.
    destruct (Z.gtb_spec (fw_size cfg) 240) as [_ | H]; [reflexivity | lia].
Qed.

Lemma goodix_send_cfg_rejected (env : environment) (cfg : firmware)
      (st : state) (e : Z) :
  goodix_check_cfg cfg = Ok e -> e <> 0 ->
  goodix_send_cfg env cfg st = Ok (e, st).
Proof.
  intros Hchk He. unfold goodix_send_cfg, bind, lift. rewrite Hchk.
  cbn [rbind].
  destruct (Z.eqb_spec e 0) as [H0 | _]; [contradiction |].
  reflexivity.
Qed.

(** C3.  [goodix_check_cfg] accepts a blob of length L iff L <= 240, the
    blob ends in a checksum byte equal to the two's-complement checksum of
    the L-2 bytes before it and in a fresh flag equal to 1; the checksum
    condition says that the first L-1 bytes add up to 0 modulo 256; and a
    blob that validation rejects makes [goodix_send_cfg] return that error
    with nothing written to the bus (the trace is unchanged). *)
Theorem goodix_check_cfg_accepts_iff
        (env : environment) (cfg : firmware) (st : state) :
  (goodix_check_cfg cfg = Ok 0 <->
   fw_size cfg <= 240 /\
   exists payload c f,
     fw_data cfg = payload ++ [c; f] /\
     u8_val c = twos_complement_checksum payload /\
     u8_val f = 1) /\
  (forall payload c,
     u8_val c = twos_complement_checksum payload <->
     sum_bytes (payload ++ [c]) mod 256 = 0) /\
  (forall e,
     goodix_check_cfg cfg = Ok e -> e <> 0 ->
     goodix_send_cfg env cfg st = Ok (e, st)).
Proof.
  split; [apply goodix_check_cfg_accept |].
  split; [apply checksum_byte_iff_sum_zero |].
  intros e. apply goodix_send_cfg_rejected.
Qed.

Lemma goodix_check_cfg_accepts_iff_witness :
  goodix_check_cfg (mk_fw cfg_blob_valid) = Ok 0 /\
  goodix_send_cfg env_ok (mk_fw [x00; x00]) st_gt911 =
  Ok (- EINVAL, st_gt911).
Proof.
  split.
  - apply (proj1 (goodix_check_cfg_accepts_iff
                    env_ok (mk_fw cfg_blob_valid) st_gt911)).
    split; [vm_compute; discriminate |].
    exists (repeat x00 184), x00, x01.
    split; [reflexivity |]. split; vm_compute; reflexivity.
  - apply (proj2 (proj2 (goodix_check_cfg_accepts_iff
                           env_ok (mk_fw [x00; x00]) st_gt911))).
    + vm_compute. reflexivity.
    + discriminate.
Defined.

(** C9.  For a blob of length 0 or 1 the index [cfg->size - 2] of the
    checksum byte is negative, the lookup of that byte falls outside the
    blob, and [goodix_check_cfg] stops there instead of rejecting the
    blob. *)
Theorem goodix_check_cfg_short_blob_out_of_bounds (cfg : firmware) :
  fw_size cfg < 2 ->
  int_wrap (fw_size cfg - 2) < 0 /\
  data_at (fw_data cfg) (int_wrap (fw_size cfg - 2)) = OutOfBounds /\
  goodix_check_cfg cfg = OutOfBounds.
Proof.
  intros Hshort.
  assert (Hneg : int_wrap (fw_size cfg - 2) < 0).
  { unfold fw_size in *. rewrite int_wrap_small by lia. lia. }
  split; [exact Hneg |].
  split; [apply data_at_short; left; exact Hneg |].
  apply goodix_check_cfg_short. exact Hshort.
Qed.

Lemma goodix_check_cfg_short_blob_out_of_bounds_witness :
  fw_size (mk_fw [x01]) < 2 /\
  goodix_check_cfg (mk_fw [x01]) = OutOfBounds.
Proof.
  split; [vm_compute; reflexivity |].
  apply (goodix_check_cfg_short_blob_out_of_bounds (mk_fw [x01])).
  vm_compute. reflexivity.
Defined.

(** ** Operations in the trace *)

Lemma after_after (st : state) (e1 e2 : list event) :
  after (after st e1) e2 = after st (e1 ++ e2).
Proof. unfold after. cbn. rewrite app_assoc. reflexivity. Qed.

Lemma log_after (st : state) (e : event) : log st e = after st [e].
Proof. reflexivity. Qed.

Lemma set_int_output_val_run (env : environment) (val : Z) (st : state) :
  exists r,
    runs_as (set_int_output_val env val) st
            (op_error (int_output (ts st) val r))
            (op_calls (int_output (ts st) val r)).
Proof.
  unfold runs_as, set_int_output_val, int_output, bind, get_ts.
  destruct (substitute_i2c_address (ts st) =? 0); cbn [negb].
  - eexists. reflexivity.
  - unfold call_i2c_transfer_write, ret. cbn.
    destruct (val =? 0); eexists; reflexivity.
Qed.

Lemma set_int_input_run (env : environment) (st : state) :
  exists r0 r,
    runs_as (set_int_input env) st
            (op_error (int_input (ts st) r0 r))
            (op_calls (int_input (ts st) r0 r)).
Proof.
  unfold runs_as, set_int_input, int_input, bind, get_ts.
  unfold call_gpiod_direction_input. cbn.
  destruct (substitute_i2c_address (ts st) =? 0); cbn [negb].
  - exists (gpiod_direction_input env (trace st) LineInt), 0. reflexivity.
  - eexists. eexists. unfold call_i2c_transfer_write, ret. cbn.
    unfold after, log. cbn. rewrite <- app_assoc. reflexivity.
Qed.


(** A one-byte register write: the allocation is asked of the environment
    at the current history, the transfer right after it. *)
Lemma goodix_i2c_write_u8_answers (env : environment) (reg value : Z)
      (st : state) :
  let ok := kmalloc env (trace st) 3 in
  let r := i2c_transfer_write env (trace st ++ [Ev_kmalloc 3 true])
             (client_addr (ts st))
             [u8_of (Z.shiftr reg 8); u8_of (Z.land reg 0xFF); u8_of value] in
  runs_as (goodix_i2c_write_u8 env reg value) st
          (op_error (reg_write_u8 (ts st) reg value ok r))
          (op_calls (reg_write_u8 (ts st) reg value ok r)).
Proof.
  cbv zeta.
  unfold runs_as, goodix_i2c_write_u8, goodix_i2c_write, reg_write_u8.
  unfold bind, get_ts, call_kmalloc, call_i2c_transfer_write, ret.
  cbv zeta.
  change (u32_wrap 1) with 1. change (u16_wrap (1 + 2)) with 3.
  change (u32_wrap (1 + 2)) with 3.
  change (Z.to_nat 1) with 1%nat. change (Z.to_nat 3) with 3%nat.
  change (Z.of_nat (length [u8_of value]) <? 1) with false.
  cbn [firstn].
  destruct (kmalloc env (trace st) 3) eqn:Hk; cbn [negb].
  - cbn [op_error op_calls]. unfold after, log.
    cbn [ts trace]. rewrite <- app_assoc. reflexivity.
  - reflexivity.
Qed.

Lemma goodix_i2c_write_u8_run (env : environment) (reg value : Z)
      (st : state) :
  exists ok r,
    runs_as (goodix_i2c_write_u8 env reg value) st
            (op_error (reg_write_u8 (ts st) reg value ok r))
            (op_calls (reg_write_u8 (ts st) reg value ok r)).
Proof.
  eexists. eexists. apply goodix_i2c_write_u8_answers.
Qed.

Lemma goodix_request_irq_run (env : environment) (st : state) :
  exists r,
    runs_as (goodix_request_irq env) st r
            [Ev_request_irq (irq_flags (ts st)) r].
Proof. eexists. reflexivity. Qed.

Lemma goodix_disable_esd_run (st : state) :
  runs_as goodix_disable_esd st tt (esd_cancel (ts st)).
Proof.
  unfold runs_as, goodix_disable_esd, esd_cancel, bind, get_ts.
  destruct (esd_timeout (ts st) =? 0).
  - unfold ret, after. rewrite app_nil_r. destruct st. reflexivity.
  - reflexivity.
Qed.

(** Sequencing after a computation whose run is known. *)
Lemma bind_runs (A B : Type) (m : M A) (k : A -> M B) (st : state) (a : A)
      (evs : list event) :
  runs_as m st a evs -> bind m k st = k a (after st evs).
Proof. unfold runs_as, bind. intros ->. reflexivity. Qed.
Arguments bind_runs {A B} m k st a evs.

Lemma bind_emit (B : Type) (e : event) (k : unit -> M B) (st : state) :
  bind (emit e) k st = k tt (after st [e]).
Proof. reflexivity. Qed.

Lemma bind_get_ts (B : Type) (k : goodix_ts_data -> M B) (st : state) :
  bind get_ts k st = k (ts st) st.
Proof. reflexivity. Qed.

Lemma i2c_ret_nonpositive (n r : Z) : i2c_ret n r = 0 \/ i2c_ret n r < 0.
Proof.
  unfold i2c_ret, EIO.
  destruct (Z.ltb_spec r 0); [right; assumption |].
  destruct (r =? n); cbn [negb]; [left; reflexivity | right; lia].
Qed.

Lemma goodix_i2c_read_run (env : environment) (reg buf_size len : Z)
      (st : state) :
  u16_wrap len <= buf_size ->
  let reply := i2c_transfer_read env (trace st) (client_addr (ts st))
                                 (u16_wrap reg) (u16_wrap len) in
  let buf := map (snd reply) (seq 0 (Z.to_nat (u16_wrap len))) in
  runs_as (goodix_i2c_read env reg buf_size len) st
          (i2c_ret 2 (fst reply), buf)
          [Ev_i2c_read (client_addr (ts st)) (u16_wrap reg) (u16_wrap len)
                       (fst reply) buf].
Proof.
  intros Hroom. cbv zeta.
  unfold runs_as, goodix_i2c_read, call_i2c_transfer_read.
  rewrite bind_get_ts.
  destruct (Z.gtb_spec (u16_wrap len) buf_size) as [H | _]; [lia |].
  unfold bind, ret.
  destruct (i2c_transfer_read env (trace st) (client_addr (ts st))
                              (u16_wrap reg) (u16_wrap len)) as [r f].
  reflexivity.
Qed.

(** ** Operations with the environment's answers *)

Lemma set_reset_output_val_at (env : environment) (val : Z) (st : state) :
  runs_as (set_reset_output_val env val) st
          (op_error (rst_output_at env val (trace st)))
          (op_calls (rst_output_at env val (trace st))).
Proof. reflexivity. Qed.

Lemma set_int_output_val_at (env : environment) (val : Z) (st : state) :
  runs_as (set_int_output_val env val) st
          (op_error (int_output_at env (ts st) val (trace st)))
          (op_calls (int_output_at env (ts st) val (trace st))).
Proof.
  unfold runs_as, set_int_output_val, int_output_at, int_output, bind, get_ts.
  destruct (substitute_i2c_address (ts st) =? 0); cbn [negb].
  - reflexivity.
  - unfold call_i2c_transfer_write, ret. cbn.
    destruct (val =? 0); reflexivity.
Qed.

Lemma set_int_input_at (env : environment) (st : state) :
  runs_as (set_int_input env) st
          (op_error (int_input_at env (ts st) (trace st)))
          (op_calls (int_input_at env (ts st) (trace st))).
Proof.
  unfold runs_as, set_int_input, int_input_at, int_input, bind, get_ts.
  unfold call_gpiod_direction_input. cbn.
  destruct (substitute_i2c_address (ts st) =? 0); cbn [negb].
  - reflexivity.
  - unfold call_i2c_transfer_write, ret. cbn.
    unfold after, log. cbn. rewrite <- app_assoc. reflexivity.
Qed.

Lemma goodix_i2c_write_u8_at (env : environment) (reg value : Z)
      (st : state) :
  runs_as (goodix_i2c_write_u8 env reg value) st
          (op_error (reg_write_u8_at env (ts st) reg value (trace st)))
          (op_calls (reg_write_u8_at env (ts st) reg value (trace st))).
Proof. exact (goodix_i2c_write_u8_answers env reg value st). Qed.

Lemma goodix_request_irq_at (env : environment) (st : state) :
  runs_as (goodix_request_irq env) st
          (op_error (irq_request_at env (ts st) (trace st)))
          (op_calls (irq_request_at env (ts st) (trace st))).
Proof. reflexivity. Qed.

Lemma goodix_enable_esd_at (env : environment) (st : state) :
  runs_as (goodix_enable_esd env) st
          (op_error (esd_arm_at env (ts st) (trace st)))
          (op_calls (esd_arm_at env (ts st) (trace st))).
Proof.
  pose proof (goodix_i2c_write_u8_at env GOODIX_REG_ESD_CHECK
                GOODIX_CMD_ESD_ENABLED st) as Hrun.
  unfold reg_write_u8_at in Hrun.
  unfold runs_as, goodix_enable_esd, esd_arm_at, esd_arm.
  rewrite bind_get_ts.
  destruct (esd_timeout (ts st) =? 0).
  - unfold ret, after. cbn [op_calls op_error]. rewrite app_nil_r.
    destruct st. reflexivity.
  - cbv zeta. rewrite (bind_runs _ _ _ _ _ Hrun).
    destruct (op_error _ =? 0); cbn [negb].
    + rewrite bind_emit. unfold ret. rewrite after_after. reflexivity.
    + reflexivity.
Qed.

Lemma goodix_int_sync_at (env : environment) (st : state) :
  runs_as (goodix_int_sync env) st
          (op_error (int_sync_at env (ts st) (trace st)))
          (op_calls (int_sync_at env (ts st) (trace st))).
Proof.
  pose proof (set_int_output_val_at env 0 st) as Hlow.
  unfold runs_as, goodix_int_sync, int_sync_at. cbn [script op_calls op_error].
  rewrite (bind_runs _ _ _ _ _ Hlow).
  destruct (op_error (int_output_at env (ts st) 0 (trace st)) =? 0);
    cbn [negb fst snd]; [| reflexivity].
  rewrite bind_emit, after_after.
  pose proof (set_int_input_at env
                (after st (op_calls (int_output_at env (ts st) 0 (trace st))
                           ++ [Ev_msleep 50]))) as Hfloat.
  unfold runs_as in Hfloat. rewrite Hfloat.
  change (ts (after st (op_calls (int_output_at env (ts st) 0 (trace st))
                        ++ [Ev_msleep 50]))) with (ts st).
  change (trace (after st (op_calls (int_output_at env (ts st) 0 (trace st))
                           ++ [Ev_msleep 50])))
    with (trace st ++ op_calls (int_output_at env (ts st) 0 (trace st))
          ++ [Ev_msleep 50]).
  destruct (op_error (int_input_at env (ts st) _) =? 0) eqn:E;
    cbn [fst snd]; rewrite after_after, <- ?app_assoc, ?app_nil_r.
  - apply Z.eqb_eq in E. rewrite E. reflexivity.
  - reflexivity.
Qed.
(** ** Reset and address handshake *)

(** Running one operation of a script and, when it succeeds, its delay
    and the rest. *)
Lemma script_step (op : list event -> operation) (delay : event)
      (m : M Z) (k : M Z)
      (rest : list ((list event -> operation) * list event)) (st : state) :
  runs_as m st (op_error (op (trace st))) (op_calls (op (trace st))) ->
  (op_error (op (trace st)) = 0 ->
   runs_as k (after st (op_calls (op (trace st)) ++ [delay]))
           (snd (script rest (trace st ++ op_calls (op (trace st))
                              ++ [delay])))
           (fst (script rest (trace st ++ op_calls (op (trace st))
                              ++ [delay])))) ->
  runs_as (error <- m ;;
           if negb (error =? 0) then ret error
           else emit delay ;; k)
          st
          (snd (script ((op, [delay]) :: rest) (trace st)))
          (fst (script ((op, [delay]) :: rest) (trace st))).
Proof.
  unfold runs_as. intros Hm Hk. unfold bind at 1. rewrite Hm.
  cbn [script].
  destruct (Z.eqb_spec (op_error (op (trace st))) 0) as [E | E];
    cbn [negb fst snd].
  - unfold bind, emit. rewrite log_after, after_after, (Hk E), after_after.
    rewrite <- app_assoc. reflexivity.
  - reflexivity.
Qed.

(** The reset handshake is the sequence: reset driven low, 20 ms; INT
    driven to 1 when the slave address is 0x14 and to 0 otherwise, 100 us;
    reset driven high, 6 ms; INT driven low, 50 ms; INT switched to input.
    Each operation gets the answer of the environment at the history it is
    reached with; the handshake runs up to the first operation that fails
    and returns that operation's error, and 0 when all succeed. *)
Lemma goodix_reset_handshake (env : environment) (st : state) :
  let t := ts st in
  let level := if client_addr t =? 0x14 then 1 else 0 in
  let outcome :=
    script
      [(rst_output_at env 0, [Ev_msleep 20]);
       (int_output_at env t level, [Ev_usleep_range 100 2000]);
       (rst_output_at env 1, [Ev_usleep_range 6000 10000]);
       (int_output_at env t 0, [Ev_msleep 50]);
       (int_input_at env t, [])] (trace st) in
  goodix_reset env st = Ok (snd outcome, after st (fst outcome)).
Proof.
  cbv zeta.
  set (t := ts st).
  set (level := if client_addr t =? 0x14 then 1 else 0).
  match goal with
  | |- _ = Ok (snd ?o, after st (fst ?o)) =>
      change (runs_as (goodix_reset env) st (snd o) (fst o))
  end.
  unfold goodix_reset.
  unfold runs_as, bind at 1, get_ts at 1. fold t level.
  apply (script_step _ _ _ _ _ st (set_reset_output_val_at env 0 st)).
  intros _.
  match goal with
  | |- runs_as _ ?s _ _ =>
      change (trace st ++ op_calls (rst_output_at env 0 (trace st))
              ++ [Ev_msleep 20]) with (trace s);
      apply (script_step _ _ _ _ _ s (set_int_output_val_at env level s))
  end.
  intros _.
  match goal with
  | |- runs_as _ ?s _ _ =>
      match goal with
      | |- context [script _ ?h] =>
          change h with (trace s)
      end;
      apply (script_step _ _ _ _ _ s (set_reset_output_val_at env 1 s))
  end.
  intros _.
  unfold goodix_int_sync.
  match goal with
  | |- runs_as _ ?s _ _ =>
      match goal with
      | |- context [script _ ?h] =>
          change h with (trace s)
      end;
      apply (script_step _ _ _ _ _ s (set_int_output_val_at env 0 s))
  end.
  intros _.
  match goal with
  | |- runs_as _ ?s _ _ =>
      match goal with
      | |- context [script _ ?h] =>
          change h with (trace s)
      end;
      pose proof (set_int_input_at env s) as Hfloat;
      change (ts s) with t in Hfloat
  end.
  unfold runs_as in *. etransitivity; [exact Hfloat |].
  cbn [script fst snd].
  match goal with
  | |- context [op_error ?o =? 0] =>
      destruct (Z.eqb_spec (op_error o) 0) as [E | E]; cbn [fst snd app]
  end.
  - rewrite E, app_nil_r. reflexivity.
  - reflexivity.
Qed.

(** C6.  With the INT line behind a substitute address, the last step of
    the handshake loses an error: the GPIO controller refuses to switch
    INT to input (-22), the write of 3 to register 0x1d that follows
    succeeds, and [goodix_reset] returns 0.  On the same board without a
    substitute address the same refusal is returned. *)
Theorem goodix_reset_drops_input_error :
  goodix_reset env_input_refused st_substitute =
  Ok (0, after st_substitute
           [Ev_gpio_output LineRst 0 0; Ev_msleep 20;
            Ev_i2c_send 0x38 [x1d; x09] 1; Ev_usleep_range 100 2000;
            Ev_gpio_output LineRst 1 0; Ev_usleep_range 6000 10000;
            Ev_i2c_send 0x38 [x1d; x01] 1; Ev_msleep 50;
            Ev_gpio_input LineInt (-22);
            Ev_i2c_send 0x38 [x1d; x03] 1]) /\
  goodix_reset env_input_refused st_gt911 =
  Ok (-22, after st_gt911
             [Ev_gpio_output LineRst 0 0; Ev_msleep 20;
              Ev_gpio_output LineInt 1 0; Ev_usleep_range 100 2000;
              Ev_gpio_output LineRst 1 0; Ev_usleep_range 6000 10000;
              Ev_gpio_output LineInt 0 0; Ev_msleep 50;
              Ev_gpio_input LineInt (-22)]).
Proof. split; vm_compute; reflexivity. Qed.

(** The handshake of a controller at address 0x14 on a board where every
    line operation succeeds: INT is high while reset is low. *)
Example goodix_reset_address_0x14 :
  goodix_reset env_ok st_gt911 =
  Ok (0, after st_gt911
           [Ev_gpio_output LineRst 0 0; Ev_msleep 20;
            Ev_gpio_output LineInt 1 0; Ev_usleep_range 100 2000;
            Ev_gpio_output LineRst 1 0; Ev_usleep_range 6000 10000;
            Ev_gpio_output LineInt 0 0; Ev_msleep 50;
            Ev_gpio_input LineInt 0]).
Proof. vm_compute. reflexivity. Qed.

(** ** Sleep *)

(** C7 (as amended).  With both GPIOs present and the instance not
    suspended, [goodix_sleep] waits for the firmware, takes the mutex,
    cancels the watchdog, frees the IRQ and drives INT low.  When driving
    INT low fails, it re-requests the IRQ and returns that error.  When the
    screen-off command then fails, it switches INT back to input,
    re-requests the IRQ and returns [-EAGAIN].  In both cases no field of
    the instance changes, so [suspended] stays false.  When both succeed it
    returns 0 with [suspended] set.  Every operation gets the answer of
    the environment at the history it is reached with. *)
Theorem goodix_sleep_outcome (env : environment) (st : state) :
  gpiod_int (ts st) = true ->
  gpiod_rst (ts st) = true ->
  suspended (ts st) = false ->
  let t := ts st in
  let prologue :=
    [Ev_wait_firmware_loading; Ev_mutex_lock] ++ esd_cancel t
    ++ [Ev_free_irq] in
  let h0 := trace st ++ prologue in
  let drive_low := int_output_at env t 0 h0 in
  let h1 := h0 ++ op_calls drive_low ++ [Ev_usleep_range 5000 6000] in
  let screen_off :=
    reg_write_u8_at env t GOODIX_REG_COMMAND GOODIX_CMD_SCREEN_OFF h1 in
  let h2 := h1 ++ op_calls screen_off in
  let restore := int_input_at env t h2 in
  let rearm h :=
    [Ev_request_irq (irq_flags t)
                    (devm_request_threaded_irq env h (irq_flags t));
     Ev_mutex_unlock] in
  goodix_sleep env st =
  if negb (op_error drive_low =? 0) then
    Ok (op_error drive_low,
        after st (prologue ++ op_calls drive_low
                  ++ rearm (h0 ++ op_calls drive_low)))
  else if negb (op_error screen_off =? 0) then
    Ok (- EAGAIN,
        after st (prologue ++ op_calls drive_low
                  ++ [Ev_usleep_range 5000 6000] ++ op_calls screen_off
                  ++ op_calls restore
                  ++ rearm (h2 ++ op_calls restore)))
  else
    Ok (0,
        mk_state (set_suspended true t)
                 (trace st ++ prologue ++ op_calls drive_low
                  ++ [Ev_usleep_range 5000 6000] ++ op_calls screen_off
                  ++ [Ev_msleep 58; Ev_mutex_unlock])).
Proof.
  intros Hint Hrst Hsusp. cbv zeta.
  set (t := ts st) in *.
  set (prologue := [Ev_wait_firmware_loading; Ev_mutex_lock] ++ esd_cancel t
                   ++ [Ev_free_irq]).
  set (st0 := after st prologue).
  pose proof (set_int_output_val_at env 0 st0) as H1.
  change (ts st0) with t in H1.
  change (trace st0) with (trace st ++ prologue) in H1.
  set (drive_low := int_output_at env t 0 (trace st ++ prologue)) in *.
  set (st1 := after st0 (op_calls drive_low)) in *.
  pose proof (goodix_i2c_write_u8_at env GOODIX_REG_COMMAND
                GOODIX_CMD_SCREEN_OFF
                (after st1 [Ev_usleep_range 5000 6000])) as H2.
  change (ts (after st1 [Ev_usleep_range 5000 6000])) with t in H2.
  change (trace (after st1 [Ev_usleep_range 5000 6000]))
    with (((trace st ++ prologue) ++ op_calls drive_low)
          ++ [Ev_usleep_range 5000 6000]) in H2.
  rewrite <- (app_assoc (trace st ++ prologue)) in H2.
  set (screen_off := reg_write_u8_at env t GOODIX_REG_COMMAND
                       GOODIX_CMD_SCREEN_OFF _) in *.
  set (st2 := after (after st1 [Ev_usleep_range 5000 6000])
                    (op_calls screen_off)) in *.
  pose proof (set_int_input_at env st2) as H3.
  change (ts st2) with t in H3.
  change (trace st2)
    with ((((trace st ++ prologue) ++ op_calls drive_low)
           ++ [Ev_usleep_range 5000 6000]) ++ op_calls screen_off) in H3.
  rewrite <- (app_assoc (trace st ++ prologue)) in H3.
  set (restore := int_input_at env t _) in *.
  unfold goodix_sleep.
  rewrite bind_get_ts. fold t. rewrite Hint, Hrst, Hsusp. cbn [negb orb].
  rewrite !bind_emit.
  rewrite (bind_runs _ _ _ _ _ (goodix_disable_esd_run _)).
  unfold goodix_free_irq. rewrite bind_emit.
  rewrite !after_after. cbn [ts after].
  change (after st ([Ev_wait_firmware_loading] ++ [Ev_mutex_lock]
                    ++ esd_cancel (ts st) ++ [Ev_free_irq])) with st0.
  rewrite (bind_runs _ _ _ _ _ H1). fold st1.
  destruct (Z.eqb_spec (op_error drive_low) 0) as [E1 | E1]; cbn [negb] in *.
  - rewrite bind_emit, (bind_runs _ _ _ _ _ H2). fold st2.
    destruct (Z.eqb_spec (op_error screen_off) 0) as [E2 | E2]; cbn [negb].
    + rewrite bind_emit. unfold modify_ts, bind, emit, ret, log, after.
      cbn [ts trace]. unfold st2, st1, st0, after. cbn [ts trace].
      rewrite <- ?app_assoc. reflexivity.
    + rewrite (bind_runs _ _ _ _ _ H3).
      rewrite (bind_runs _ _ _ _ _ (goodix_request_irq_at env _)).
      rewrite bind_emit. unfold ret. rewrite !after_after.
      unfold st2, st1, st0. rewrite !after_after.
      unfold irq_request_at, irq_request. cbn [op_calls ts trace after].
      fold t. rewrite <- ?app_assoc. reflexivity.
  - rewrite (bind_runs _ _ _ _ _ (goodix_request_irq_at env _)).
    rewrite bind_emit. unfold ret.
    rewrite after_after. unfold st1, st0. rewrite !after_after.
    unfold irq_request_at, irq_request. cbn [op_calls ts trace after].
    fold t. rewrite <- ?app_assoc. reflexivity.
Qed.

Lemma goodix_sleep_outcome_witness :
  gpiod_int (ts st_gt911) = true /\
  gpiod_rst (ts st_gt911) = true /\
  suspended (ts st_gt911) = false /\
  exists st',
    goodix_sleep env_ok st_gt911 = Ok (0, st') /\
    suspended (ts st') = true.
Proof.
  split; [reflexivity |]. split; [reflexivity |]. split; [reflexivity |].
  rewrite (goodix_sleep_outcome env_ok st_gt911 eq_refl eq_refl eq_refl).
  vm_compute. eexists. split; reflexivity.
Defined.

(** C7 (as stated) fails: when the screen-off write fails with -EIO,
    [goodix_sleep] returns -EAGAIN, not the error of the write. *)
Lemma goodix_sleep_masks_write_error :
  goodix_sleep env_write_nak st_gt911 =
  Ok (- EAGAIN,
      after st_gt911
        [Ev_wait_firmware_loading; Ev_mutex_lock; Ev_cancel_esd_work;
         Ev_free_irq;
         Ev_gpio_output LineInt 0 0; Ev_usleep_range 5000 6000;
         Ev_kmalloc 3 true; Ev_i2c_send 0x14 [x80; x40; x05] (-5);
         Ev_gpio_input LineInt 0;
         Ev_request_irq 0x2002 0; Ev_mutex_unlock]) /\
  i2c_ret 1 (-5) = - EIO /\
  - EAGAIN <> - EIO.
Proof.
  split; [vm_compute; reflexivity |].
  split; [reflexivity | discriminate].
Qed.

(** ** Open and close *)

Lemma gpios_absent (t : goodix_ts_data) :
  gpiod_int t && gpiod_rst t = false ->
  negb (gpiod_int t) || negb (gpiod_rst t) = true.
Proof. destruct (gpiod_int t), (gpiod_rst t); simpl; congruence. Qed.

Lemma gpios_present (t : goodix_ts_data) :
  gpiod_int t && gpiod_rst t = true ->
  negb (gpiod_int t) || negb (gpiod_rst t) = false.
Proof. destruct (gpiod_int t), (gpiod_rst t); simpl; congruence. Qed.

Lemma goodix_set_power_state_on (env : environment) (st : state) :
  let r := pm_runtime_get_sync env (trace st) in
  goodix_set_power_state env true st =
  if r <? 0 then Ok (r, after st [Ev_pm_get_sync r; Ev_pm_put_noidle])
  else Ok (0, after st [Ev_pm_get_sync r]).
Proof.
  cbv zeta. unfold goodix_set_power_state, call_pm_runtime_get_sync.
  unfold bind at 1.
  destruct (pm_runtime_get_sync env (trace st) <? 0); [| reflexivity].
  unfold bind, emit, ret, log, after. cbn [ts trace].
  rewrite <- app_assoc. reflexivity.
Qed.

(** C10.  Without both GPIO handles, [goodix_open] and [goodix_close]
    return at once and leave the instance and the trace as they were.  With
    both, [goodix_open] waits for the firmware and requests power-on: when
    that request fails (a negative value), the reference is dropped again,
    the error is returned and the instance, hence [open_count], is
    unchanged; otherwise [open_count] is incremented, after the request,
    and 0 is returned. *)
Theorem goodix_open_counts_after_power_on (env : environment) (st : state) :
  let t := ts st in
  let r := pm_runtime_get_sync env (trace st ++ [Ev_wait_firmware_loading]) in
  (gpiod_int t && gpiod_rst t = false ->
   goodix_open env st = Ok (0, st) /\ goodix_close env st = Ok (tt, st)) /\
  (gpiod_int t && gpiod_rst t = true ->
   r < 0 ->
   goodix_open env st =
   Ok (r, after st [Ev_wait_firmware_loading; Ev_pm_get_sync r;
                    Ev_pm_put_noidle])) /\
  (gpiod_int t && gpiod_rst t = true ->
   0 <= r ->
   goodix_open env st =
   Ok (0, mk_state (set_open_count (int_wrap (open_count t + 1)) t)
                   (trace st ++ [Ev_wait_firmware_loading;
                                 Ev_pm_get_sync r]))).
Proof.
  cbv zeta. unfold goodix_open, goodix_close.
  rewrite !bind_get_ts.
  split; [| split].
  - intros H. rewrite (gpios_absent _ H). split; reflexivity.
  - intros H Hr. rewrite (gpios_present _ H), bind_emit.
    unfold bind at 1. rewrite goodix_set_power_state_on. cbv zeta.
    change (trace (after st [Ev_wait_firmware_loading]))
      with (trace st ++ [Ev_wait_firmware_loading]).
    destruct (Z.ltb_spec
                (pm_runtime_get_sync env
                   (trace st ++ [Ev_wait_firmware_loading])) 0)
      as [_ | Hge]; [| lia].
    destruct (Z.eqb_spec
                (pm_runtime_get_sync env
                   (trace st ++ [Ev_wait_firmware_loading])) 0)
      as [E | _]; [lia |].
    cbn [negb]. unfold ret. rewrite after_after. reflexivity.
  - intros H Hr. rewrite (gpios_present _ H), bind_emit.
    unfold bind at 1. rewrite goodix_set_power_state_on. cbv zeta.
    change (trace (after st [Ev_wait_firmware_loading]))
      with (trace st ++ [Ev_wait_firmware_loading]).
    destruct (Z.ltb_spec
                (pm_runtime_get_sync env
                   (trace st ++ [Ev_wait_firmware_loading])) 0)
      as [Hlt | _]; [lia |].
    cbn [Z.eqb negb]. unfold bind, modify_ts, ret, after.
    cbn [ts trace]. rewrite <- app_assoc. reflexivity.
Qed.

Lemma goodix_open_counts_after_power_on_witness :
  (goodix_open env_ok st_no_gpio = Ok (0, st_no_gpio) /\
   goodix_close env_ok st_no_gpio = Ok (tt, st_no_gpio)) /\
  goodix_open env_pm_refuses st_gt911 =
  Ok (-13, after st_gt911 [Ev_wait_firmware_loading; Ev_pm_get_sync (-13);
                           Ev_pm_put_noidle]) /\
  exists st',
    goodix_open env_ok st_gt911 = Ok (0, st') /\ open_count (ts st') = 1.
Proof.
  split; [| split].
  - apply (goodix_open_counts_after_power_on env_ok st_no_gpio).
    reflexivity.
  - apply (goodix_open_counts_after_power_on env_pm_refuses st_gt911);
      reflexivity.
  - eexists. split.
    + apply (goodix_open_counts_after_power_on env_ok st_gt911);
        [reflexivity | cbn; lia].
    + reflexivity.
Defined.

(** ** Interrupt handler *)

Lemma nibble_range (b : byte) : 0 <= Z.land (u8_val b) 0x0F <= 15.
Proof.
  pose proof (u8_val_range b) as Hb.
  split; [apply Z.land_nonneg; right; lia |].
  change 15 with (Z.ones 4) at 1. rewrite Z.land_ones by lia.
  pose proof (Z.mod_pos_bound (u8_val b) (2 ^ 4)). lia.
Qed.

(** A report whose header is not ready, or counts more contacts than the
    panel has, leaves [goodix_process_events] after the first read. *)
Lemma goodix_process_events_drop (env : environment) (st : state) :
  let t := ts st in
  let reply := i2c_transfer_read env (trace st) (client_addr t)
                                 GOODIX_READ_COOR_ADDR 9 in
  let header := u8_val (snd reply 0%nat) in
  Z.land header 0x80 = 0 \/ Z.land header 0x0F > max_touch_num t ->
  runs_as (goodix_process_events env) st tt
          [Ev_i2c_read (client_addr t) GOODIX_READ_COOR_ADDR 9 (fst reply)
                       (map (snd reply) (seq 0 9))].
Proof.
  cbv zeta. intros Hhdr.
  unfold runs_as, goodix_process_events, goodix_ts_read_input_report.
  unfold bind at 1. rewrite bind_get_ts.
  assert (Hroom : u16_wrap (GOODIX_CONTACT_SIZE + 1)
                  <= 1 + GOODIX_CONTACT_SIZE * GOODIX_MAX_CONTACTS)
    by (vm_compute; discriminate).
  rewrite (bind_runs _ _ _ _ _
             (goodix_i2c_read_run env GOODIX_READ_COOR_ADDR _ _ st Hroom)).
  change (u16_wrap GOODIX_READ_COOR_ADDR) with GOODIX_READ_COOR_ADDR.
  change (u16_wrap (GOODIX_CONTACT_SIZE + 1)) with 9.
  change (Z.to_nat 9) with 9%nat.
  set (reply := i2c_transfer_read env (trace st) (client_addr (ts st))
                                  GOODIX_READ_COOR_ADDR 9) in *.
  destruct (i2c_ret_nonpositive 2 (fst reply)) as [E | E].
  - rewrite E. cbn [Z.eqb negb].
    unfold bind at 1, lift. cbn [seq map data_at Z.ltb Z.compare Z.to_nat
                                  nth_error rbind].
    destruct Hhdr as [Hready | Hcount].
    + rewrite Hready. cbn [Z.eqb]. reflexivity.
    + destruct (Z.eqb_spec (Z.land (u8_val (snd reply 0%nat)) 128) 0);
        [reflexivity |].
      pose proof (nibble_range (snd reply 0%nat)) as Hn.
      unfold u32_wrap. rewrite Z.mod_small by lia.
      destruct (Z.gtb_spec (Z.land (u8_val (snd reply 0%nat)) 15)
                           (max_touch_num (ts st))) as [_ | H]; [| lia].
      reflexivity.
  - destruct (Z.eqb_spec (i2c_ret 2 (fst reply)) 0) as [E0 | _]; [lia |].
    cbn [negb]. unfold ret.
    destruct (Z.ltb_spec (i2c_ret 2 (fst reply)) 0) as [_ | H]; [| lia].
    reflexivity.
Qed.

(** C5.  When the report header has bit 7 clear, or its contact count
    [header & 0x0F] exceeds [max_touch_num], the interrupt handler reads the
    report, emits nothing into the sink, acknowledges the interrupt by
    writing 0 to register 0x814E (the message 0x81 0x4E 0x00, sent as soon
    as its three-byte buffer is allocated), and returns [IRQ_HANDLED]. *)
Theorem goodix_ts_irq_handler_drops_frame (env : environment) (st : state) :
  let t := ts st in
  let reply := i2c_transfer_read env (trace st) (client_addr t)
                                 GOODIX_READ_COOR_ADDR 9 in
  let header := u8_val (snd reply 0%nat) in
  Z.land header 0x80 = 0 \/ Z.land header 0x0F > max_touch_num t ->
  let report := Ev_i2c_read (client_addr t) GOODIX_READ_COOR_ADDR 9
                            (fst reply) (map (snd reply) (seq 0 9)) in
  let ok := kmalloc env (trace st ++ [report]) 3 in
  let w := i2c_transfer_write env (trace st ++ [report; Ev_kmalloc 3 true])
                              (client_addr t) [x81; x4e; x00] in
  let ack := if ok
             then [Ev_kmalloc 3 true;
                   Ev_i2c_send (client_addr t) [x81; x4e; x00] w]
             else [Ev_kmalloc 3 false] in
  goodix_ts_irq_handler env st =
  Ok (IRQ_HANDLED, after st (report :: ack)) /\
  existsb is_input (report :: ack) = false.
Proof.
  cbv zeta. intros Hhdr.
  pose proof (goodix_process_events_drop env st Hhdr) as Hdrop.
  set (report := Ev_i2c_read _ _ _ _ _) in *.
  pose proof (goodix_i2c_write_u8_answers env GOODIX_READ_COOR_ADDR 0
                (after st [report])) as Hack.
  cbv zeta in Hack.
  change (trace (after st [report])) with (trace st ++ [report]) in Hack.
  change (ts (after st [report])) with (ts st) in Hack.
  rewrite <- app_assoc in Hack.
  change ([report] ++ [Ev_kmalloc 3 true])
    with [report; Ev_kmalloc 3 true] in Hack.
  change [u8_of (Z.shiftr GOODIX_READ_COOR_ADDR 8);
          u8_of (Z.land GOODIX_READ_COOR_ADDR 255); u8_of 0]
    with [x81; x4e; x00] in Hack.
  split.
  - unfold goodix_ts_irq_handler.
    rewrite (bind_runs _ _ _ _ _ Hdrop), (bind_runs _ _ _ _ _ Hack).
    unfold ret. rewrite after_after. unfold reg_write_u8.
    change [u8_of (Z.shiftr GOODIX_READ_COOR_ADDR 8);
            u8_of (Z.land GOODIX_READ_COOR_ADDR 255); u8_of 0]
      with [x81; x4e; x00].
    destruct (kmalloc env (trace st ++ [report]) 3); reflexivity.
  - destruct (kmalloc env (trace st ++ [report]) 3); reflexivity.
Qed.

Lemma goodix_ts_irq_handler_drops_frame_witness :
  Z.land (u8_val x8b) 0x0F > max_touch_num (ts st_gt911) /\
  exists st',
    goodix_ts_irq_handler env_eleven_contacts st_gt911 =
    Ok (IRQ_HANDLED, st') /\
    existsb is_input (trace st') = false.
Proof.
  assert (Hcount : Z.land (u8_val x8b) 0x0F > max_touch_num (ts st_gt911))
    by reflexivity.
  split; [exact Hcount |].
  destruct (goodix_ts_irq_handler_drops_frame env_eleven_contacts st_gt911
              (or_intror Hcount)) as (Hrun & Hquiet).
  eexists. split; [exact Hrun | exact Hquiet].
Defined.

(** ** Touch decoder *)

Lemma lor_shiftl_8 (lo hi : Z) :
  0 <= lo < 256 -> 0 <= hi -> Z.lor lo (Z.shiftl hi 8) = lo + 256 * hi.
Proof.
  intros Hlo Hhi.
  assert (Hdisjoint : Z.land lo (Z.shiftl hi 8) = 0).
  { apply Z.bits_inj'. intros n Hn.
    rewrite Z.land_spec, Z.bits_0.
    destruct (Z.lt_ge_cases n 8) as [Hlow | Hhigh].
    - rewrite Z.shiftl_spec_low by lia. apply andb_false_r.
    - destruct (Z.eq_dec lo 0) as [-> | Hnz].
      + rewrite Z.bits_0. reflexivity.
      + rewrite (Z.bits_above_log2 lo n); [reflexivity | lia |].
        apply Z.lt_le_trans with 8; [| exact Hhigh].
        apply Z.log2_lt_pow2; lia. }
  pose proof (Z.add_lor_land lo (Z.shiftl hi 8)) as Hsum.
  rewrite Hdisjoint, Z.add_0_r in Hsum. rewrite Hsum.
  rewrite Z.shiftl_mul_pow2 by lia. lia.
Qed.

Lemma get_unaligned_le16_head (lo hi : byte) (buf : list byte) :
  get_unaligned_le16 (lo :: hi :: buf) 0 = Ok (u16_le lo hi).
Proof.
  unfold get_unaligned_le16, u16_le.
  change (data_at (lo :: hi :: buf) 0) with (Ok lo).
  change (data_at (lo :: hi :: buf) (0 + 1)) with (Ok hi).
  cbn [rbind].
  pose proof (u8_val_range lo). pose proof (u8_val_range hi).
  rewrite lor_shiftl_8 by lia. reflexivity.
Qed.

Lemma contact_fields (c0 xl xh yl yh wl wh : byte) (rest : list byte) :
  let coor_data := c0 :: xl :: xh :: yl :: yh :: wl :: wh :: rest in
  data_at coor_data 0 = Ok c0 /\
  get_unaligned_le16 coor_data 1 = Ok (u16_le xl xh) /\
  get_unaligned_le16 coor_data 3 = Ok (u16_le yl yh) /\
  get_unaligned_le16 coor_data 5 = Ok (u16_le wl wh).
Proof.
  cbv zeta. split; [reflexivity |].
  split; [| split].
  - apply (get_unaligned_le16_head xl xh (yl :: yh :: wl :: wh :: rest)).
  - apply (get_unaligned_le16_head yl yh (wl :: wh :: rest)).
  - apply (get_unaligned_le16_head wl wh rest).
Qed.

Lemma u16_le_range (lo hi : byte) : 0 <= u16_le lo hi <= 65535.
Proof.
  unfold u16_le.
  pose proof (u8_val_range lo). pose proof (u8_val_range hi). lia.
Qed.

(** One contact block, decoded and emitted. *)
Lemma goodix_ts_report_touch_run (st : state)
      (c0 xl xh yl yh wl wh : byte) (rest : list byte) :
  extent_fits_int (abs_x_max (ts st)) ->
  extent_fits_int (abs_y_max (ts st)) ->
  let p := emitted_position (ts st) (u16_le xl xh) (u16_le yl yh) in
  runs_as (goodix_ts_report_touch
             (c0 :: xl :: xh :: yl :: yh :: wl :: wh :: rest))
          st tt
          (contact_events (Z.land (u8_val c0) 0x0F) (fst p) (snd p)
                          (u16_le wl wh)).
Proof.
  unfold extent_fits_int. intros Hx Hy. cbv zeta.
  unfold runs_as, emitted_position.
  unfold goodix_ts_report_touch. rewrite bind_get_ts.
  destruct (contact_fields c0 xl xh yl yh wl wh rest)
    as (H0 & H1 & H3 & H5).
  unfold bind at 1, lift at 1. rewrite H0. cbn [rbind].
  unfold bind at 1, lift at 1. rewrite H1. cbn [rbind].
  unfold bind at 1, lift at 1. rewrite H3. cbn [rbind].
  unfold bind at 1, lift at 1. rewrite H5. cbn [rbind].
  pose proof (u16_le_range xl xh) as Rx.
  pose proof (u16_le_range yl yh) as Ry.
  assert (Ex : (if inverted_x (ts st)
                then int_wrap (abs_x_max (ts st) - u16_le xl xh)
                else u16_le xl xh)
               = (if inverted_x (ts st)
                  then abs_x_max (ts st) - u16_le xl xh
                  else u16_le xl xh)).
  { destruct (inverted_x (ts st)); [apply int_wrap_small; lia | reflexivity]. }
  assert (Ey : (if inverted_y (ts st)
                then int_wrap (abs_y_max (ts st) - u16_le yl yh)
                else u16_le yl yh)
               = (if inverted_y (ts st)
                  then abs_y_max (ts st) - u16_le yl yh
                  else u16_le yl yh)).
  { destruct (inverted_y (ts st)); [apply int_wrap_small; lia | reflexivity]. }
  rewrite Ex, Ey. unfold swap_if.
  destruct (swapped_x_y (ts st)); cbn [fst snd];
    rewrite !bind_emit; unfold emit; rewrite log_after, !after_after;
    reflexivity.
Qed.

(** C4.  For a contact with raw coordinates (x, y), the position emitted
    into the sink is obtained by the inversions first,
    xi = inverted_x ? abs_x_max - x : x and
    yi = inverted_y ? abs_y_max - y : y, and then the swap: (yi, xi) when
    swapped_x_y is set, (xi, yi) otherwise. *)
Theorem goodix_ts_report_touch_transform (st : state)
        (c0 xl xh yl yh wl wh : byte) (rest : list byte) :
  let t := ts st in
  let x := u16_le xl xh in
  let y := u16_le yl yh in
  let w := u16_le wl wh in
  extent_fits_int (abs_x_max t) ->
  extent_fits_int (abs_y_max t) ->
  let xi := if inverted_x t then abs_x_max t - x else x in
  let yi := if inverted_y t then abs_y_max t - y else y in
  let emitted := if swapped_x_y t then (yi, xi) else (xi, yi) in
  goodix_ts_report_touch
    (c0 :: xl :: xh :: yl :: yh :: wl :: wh :: rest) st =
  Ok (tt, after st (contact_events (Z.land (u8_val c0) 0x0F)
                                   (fst emitted) (snd emitted) w)).
Proof.
  cbv zeta. intros Hx Hy.
  exact (goodix_ts_report_touch_run st c0 xl xh yl yh wl wh rest Hx Hy).
Qed.

Lemma goodix_ts_report_touch_transform_witness :
  extent_fits_int (abs_x_max (ts st_rotated)) /\
  extent_fits_int (abs_y_max (ts st_rotated)) /\
  goodix_ts_report_touch [x03; x0a; x00; x14; x00; x05; x00; x00] st_rotated =
  Ok (tt, after st_rotated (contact_events 3 4086 4076 5)).
Proof.
  assert (Hx : extent_fits_int (abs_x_max (ts st_rotated)))
    by (unfold extent_fits_int; cbn; lia).
  assert (Hy : extent_fits_int (abs_y_max (ts st_rotated)))
    by (unfold extent_fits_int; cbn; lia).
  split; [exact Hx |]. split; [exact Hy |].
  exact (goodix_ts_report_touch_transform st_rotated
           x03 x0a x00 x14 x00 x05 x00 [x00] Hx Hy).
Defined.

(** ** A whole frame *)

Lemma after_nil (st : state) : after st [] = st.
Proof. destruct st. unfold after. cbn. rewrite app_nil_r. reflexivity. Qed.

(** The report loop emits the contacts of the frame in the order of the
    blocks. *)
Lemma report_loop_frame (n : nat) :
  forall (pre blocks : list byte) (i : Z) (st : state),
    Z.of_nat (length pre) = 1 + GOODIX_CONTACT_SIZE * i ->
    0 <= i ->
    (8 * n <= length blocks)%nat ->
    extent_fits_int (abs_x_max (ts st)) ->
    extent_fits_int (abs_y_max (ts st)) ->
    runs_as (report_loop n (pre ++ blocks) (i + Z.of_nat n) i) st tt
            (frame_contacts (ts st) blocks n).
Proof.
  unfold runs_as.
  induction n as [| n IH]; intros pre blocks i st Hpre Hi Hlen Hx Hy.
  - cbn [report_loop frame_contacts]. change (Z.of_nat 0) with 0.
    rewrite Z.add_0_r, Z.ltb_irrefl, after_nil. reflexivity.
  - destruct blocks as [| c0 [| xl [| xh [| yl [| yh [| wl [| wh [| r rest]]]]]]]];
      cbn [length] in Hlen; try lia.
    cbn [report_loop frame_contacts].
    destruct (Z.ltb_spec i (i + Z.of_nat (S n))) as [_ | H]; [| lia].
    assert (Hskip : skipn (Z.to_nat (1 + GOODIX_CONTACT_SIZE * i))
                          (pre ++ c0 :: xl :: xh :: yl :: yh :: wl :: wh
                               :: r :: rest)
                    = c0 :: xl :: xh :: yl :: yh :: wl :: wh :: r :: rest).
    { rewrite <- Hpre, Nat2Z.id, skipn_app, skipn_all, Nat.sub_diag.
      reflexivity. }
    rewrite Hskip.
    rewrite (bind_runs _ _ _ _ _
               (goodix_ts_report_touch_run st c0 xl xh yl yh wl wh
                  (r :: rest) Hx Hy)).
    specialize (IH (pre ++ [c0; xl; xh; yl; yh; wl; wh; r]) rest (i + 1)
                   (after st (contact_events
                                (Z.land (u8_val c0) 0x0F)
                                (fst (emitted_position (ts st) (u16_le xl xh)
                                                       (u16_le yl yh)))
                                (snd (emitted_position (ts st) (u16_le xl xh)
                                                       (u16_le yl yh)))
                                (u16_le wl wh)))).
    rewrite <- app_assoc in IH. cbn [app] in IH.
    replace (i + 1 + Z.of_nat n) with (i + Z.of_nat (S n)) in IH by lia.
    rewrite IH.
    + rewrite after_after. reflexivity.
    + rewrite length_app. cbn [length]. unfold GOODIX_CONTACT_SIZE in *. lia.
    + lia.
    + lia.
    + exact Hx.
    + exact Hy.
Qed.

(** The steps of [goodix_process_events] up to the decision on a second
    read, for a first read that went through with a ready header and a
    count the panel allows. *)
Ltac first_read_ready env st Hret Hready Hcount :=
  unfold goodix_process_events, goodix_ts_read_input_report;
  unfold bind at 1; rewrite bind_get_ts;
  rewrite (bind_runs _ _ _ _ _
             (goodix_i2c_read_run env GOODIX_READ_COOR_ADDR
                (1 + GOODIX_CONTACT_SIZE * GOODIX_MAX_CONTACTS)
                (GOODIX_CONTACT_SIZE + 1) st
                ltac:(vm_compute; discriminate)));
  change (u16_wrap GOODIX_READ_COOR_ADDR) with GOODIX_READ_COOR_ADDR;
  change (u16_wrap (GOODIX_CONTACT_SIZE + 1)) with 9;
  change (Z.to_nat 9) with 9%nat;
  match goal with
  | |- context [i2c_ret 2 ?r] =>
      replace (i2c_ret 2 r) with 0 by (rewrite Hret; reflexivity)
  end;
  cbn [Z.eqb negb];
  unfold bind at 1, lift at 1;
  match goal with
  | |- context [data_at (map ?f (seq 0 9)) 0] =>
      change (data_at (map f (seq 0 9)) 0) with (Ok (f 0%nat));
      cbn [rbind];
      destruct (Z.eqb_spec (Z.land (u8_val (f 0%nat)) 128) 0)
        as [? | _]; [contradiction |];
      unfold u32_wrap;
      rewrite (Z.mod_small (Z.land (u8_val (f 0%nat)) 15))
        by (pose proof (nibble_range (f 0%nat)); lia);
      destruct (Z.gtb_spec (Z.land (u8_val (f 0%nat)) 15)
                           (max_touch_num (ts st))) as [? | _]; [lia |];
      change (map f (seq 0 9)) with ([f 0%nat] ++ map f (seq 1 8));
      change (skipn 1 ([f 0%nat] ++ map f (seq 1 8)))
        with (map f (seq 1 8))
  end.

(** A frame that is ready and within the panel's contact count and the
    driver's ten contacts: the contacts of the header's count are emitted
    in order, followed by one frame sync and one input sync.  Frames of
    two contacts and more take a second read for the blocks after the
    first. *)
Lemma goodix_process_events_frame (env : environment) (st : state) :
  let t := ts st in
  let reply1 := i2c_transfer_read env (trace st) (client_addr t)
                                  GOODIX_READ_COOR_ADDR 9 in
  let buf1 := map (snd reply1) (seq 0 9) in
  let report1 := Ev_i2c_read (client_addr t) GOODIX_READ_COOR_ADDR 9
                             (fst reply1) buf1 in
  let header := u8_val (snd reply1 0%nat) in
  let n := Z.land header 0x0F in
  let more := GOODIX_CONTACT_SIZE * (n - 1) in
  let reply2 := i2c_transfer_read env (trace st ++ [report1]) (client_addr t)
                                  (GOODIX_READ_COOR_ADDR + 9) more in
  let buf2 := map (snd reply2) (seq 0 (Z.to_nat more)) in
  let report2 := Ev_i2c_read (client_addr t) (GOODIX_READ_COOR_ADDR + 9)
                             more (fst reply2) buf2 in
  let syncs := [Ev_input input_mt_sync_frame; Ev_input input_sync] in
  fst reply1 = 2 ->
  Z.land header 0x80 <> 0 ->
  n <= max_touch_num t ->
  n <= GOODIX_MAX_CONTACTS ->
  extent_fits_int (abs_x_max t) ->
  extent_fits_int (abs_y_max t) ->
  (n <= 1 ->
   goodix_process_events env st =
   Ok (tt, after st ([report1]
                     ++ frame_contacts t (skipn 1 buf1) (Z.to_nat n)
                     ++ syncs))) /\
  (1 < n -> fst reply2 = 2 ->
   goodix_process_events env st =
   Ok (tt, after st ([report1; report2]
                     ++ frame_contacts t (skipn 1 buf1 ++ buf2) (Z.to_nat n)
                     ++ syncs))).
Proof.
  cbv zeta. intros Hret Hready Hcount Hten Hx Hy.
  unfold GOODIX_MAX_CONTACTS in Hten.
  split.
  - intros Hone.
    first_read_ready env st Hret Hready Hcount.
    set (reply1 := i2c_transfer_read env (trace st) (client_addr (ts st))
                                     GOODIX_READ_COOR_ADDR 9) in *.
    pose proof (nibble_range (snd reply1 0%nat)) as Hn.
    set (n := Z.land (u8_val (snd reply1 0%nat)) 15) in *.
    set (report1 := Ev_i2c_read _ GOODIX_READ_COOR_ADDR 9 _ _).
    destruct (Z.gtb_spec n 1) as [H | _]; [lia |].
    unfold ret at 1.
    destruct (Z.ltb_spec n 0) as [H | _]; [lia |].
    pose proof (report_loop_frame (Z.to_nat n) [snd reply1 0%nat]
                  (map (snd reply1) (seq 1 8)) 0 (after st [report1]))
      as Hloop.
    rewrite Z2Nat.id, Z.add_0_l in Hloop by lia.
    rewrite (bind_runs _ _ _ _ _
               (Hloop eq_refl (Z.le_refl 0)
                      ltac:(rewrite length_map, length_seq; lia) Hx Hy)).
    rewrite !bind_emit. unfold emit. rewrite log_after, !after_after.
    rewrite <- ?app_assoc. reflexivity.
  - intros Hmany Hret2.
    first_read_ready env st Hret Hready Hcount.
    set (reply1 := i2c_transfer_read env (trace st) (client_addr (ts st))
                                     GOODIX_READ_COOR_ADDR 9) in *.
    pose proof (nibble_range (snd reply1 0%nat)) as Hn.
    set (n := Z.land (u8_val (snd reply1 0%nat)) 15) in *.
    set (report1 := Ev_i2c_read _ GOODIX_READ_COOR_ADDR 9 _ _) in *.
    destruct (Z.gtb_spec n 1) as [_ | H]; [| lia].
    assert (Hroom2 : u16_wrap (GOODIX_CONTACT_SIZE * (n - 1))
                     <= 1 + GOODIX_CONTACT_SIZE * GOODIX_MAX_CONTACTS
                        - (1 + GOODIX_CONTACT_SIZE)).
    { unfold u16_wrap, GOODIX_CONTACT_SIZE, GOODIX_MAX_CONTACTS.
      rewrite Z.mod_small by lia. lia. }
    rewrite (bind_runs _ _ _ _ _
               (goodix_i2c_read_run env
                  (GOODIX_READ_COOR_ADDR + 1 + GOODIX_CONTACT_SIZE) _ _
                  (after st [report1]) Hroom2)).
    change (u16_wrap (GOODIX_READ_COOR_ADDR + 1 + GOODIX_CONTACT_SIZE))
      with (GOODIX_READ_COOR_ADDR + 9).
    assert (Hwrap : u16_wrap (GOODIX_CONTACT_SIZE * (n - 1))
                    = GOODIX_CONTACT_SIZE * (n - 1)).
    { unfold u16_wrap, GOODIX_CONTACT_SIZE. apply Z.mod_small. lia. }
    rewrite Hwrap.
    change (ts (after st [report1])) with (ts st).
    change (trace (after st [report1])) with (trace st ++ [report1]).
    set (reply2 := i2c_transfer_read env (trace st ++ [report1])
                     (client_addr (ts st)) (GOODIX_READ_COOR_ADDR + 9)
                     (GOODIX_CONTACT_SIZE * (n - 1))) in *.
    set (buf2 := map (snd reply2)
                     (seq 0 (Z.to_nat (GOODIX_CONTACT_SIZE * (n - 1))))).
    set (report2 := Ev_i2c_read _ (GOODIX_READ_COOR_ADDR + 9) _ _ _).
    replace (i2c_ret 2 (fst reply2)) with 0 by (rewrite Hret2; reflexivity).
    cbn [Z.eqb negb].
    unfold ret at 1.
    destruct (Z.ltb_spec n 0) as [H | _]; [lia |].
    pose proof (report_loop_frame (Z.to_nat n) [snd reply1 0%nat]
                  (map (snd reply1) (seq 1 8) ++ buf2) 0
                  (after (after st [report1]) [report2])) as Hloop.
    rewrite Z2Nat.id, Z.add_0_l in Hloop by lia.
    rewrite <- app_assoc.
    rewrite (bind_runs _ _ _ _ _
               (Hloop eq_refl (Z.le_refl 0)
                      ltac:(unfold buf2, GOODIX_CONTACT_SIZE;
                            rewrite length_app, !length_map, !length_seq;
                            lia) Hx Hy)).
    rewrite !bind_emit. unfold emit. rewrite log_after, !after_after.
    rewrite <- ?app_assoc. reflexivity.
Qed.

(** ** The interrupt handler on any bus behaviour *)

Lemma i2c_ret_failed (n r : Z) : r <> n -> i2c_ret n r < 0.
Proof.
  unfold i2c_ret, EIO. intros H.
  destruct (Z.ltb_spec r 0); [assumption |].
  destruct (Z.eqb_spec r n); [contradiction | cbn [negb]; lia].
Qed.

Lemma filter_frame_contacts (t : goodix_ts_data) (n : nat) :
  forall blocks : list byte,
    filter is_input (frame_contacts t blocks n) = frame_contacts t blocks n.
Proof.
  induction n as [| n IH]; intros blocks; [reflexivity |].
  destruct blocks as [| c0 [| xl [| xh [| yl [| yh [| wl [| wh [| r rest]]]]]]]];
    try reflexivity.
  cbn [frame_contacts]. rewrite filter_app, IH. reflexivity.
Qed.

(** A first read that did not go through ends [goodix_process_events]. *)
Lemma goodix_process_events_first_read_fails (env : environment)
      (st : state) :
  let t := ts st in
  let reply := i2c_transfer_read env (trace st) (client_addr t)
                                 GOODIX_READ_COOR_ADDR 9 in
  fst reply <> 2 ->
  runs_as (goodix_process_events env) st tt
          [Ev_i2c_read (client_addr t) GOODIX_READ_COOR_ADDR 9 (fst reply)
                       (map (snd reply) (seq 0 9))].
Proof.
  cbv zeta. intros Hret.
  unfold runs_as, goodix_process_events, goodix_ts_read_input_report.
  unfold bind at 1. rewrite bind_get_ts.
  rewrite (bind_runs _ _ _ _ _
             (goodix_i2c_read_run env GOODIX_READ_COOR_ADDR
                (1 + GOODIX_CONTACT_SIZE * GOODIX_MAX_CONTACTS)
                (GOODIX_CONTACT_SIZE + 1) st
                ltac:(vm_compute; discriminate))).
  change (u16_wrap GOODIX_READ_COOR_ADDR) with GOODIX_READ_COOR_ADDR.
  change (u16_wrap (GOODIX_CONTACT_SIZE + 1)) with 9.
  change (Z.to_nat 9) with 9%nat.
  pose proof (i2c_ret_failed 2 _ Hret) as E.
  destruct (Z.eqb_spec
              (i2c_ret 2 (fst (i2c_transfer_read env (trace st)
                                 (client_addr (ts st))
                                 GOODIX_READ_COOR_ADDR 9))) 0)
    as [E0 | _]; [lia |].
  cbn [negb]. unfold ret.
  destruct (Z.ltb_spec
              (i2c_ret 2 (fst (i2c_transfer_read env (trace st)
                                 (client_addr (ts st))
                                 GOODIX_READ_COOR_ADDR 9))) 0)
    as [_ | H]; [| lia].
  reflexivity.
Qed.

(** A second read that did not go through ends [goodix_process_events]
    before anything is emitted. *)
Lemma goodix_process_events_second_read_fails (env : environment)
      (st : state) :
  let t := ts st in
  let reply1 := i2c_transfer_read env (trace st) (client_addr t)
                                  GOODIX_READ_COOR_ADDR 9 in
  let buf1 := map (snd reply1) (seq 0 9) in
  let report1 := Ev_i2c_read (client_addr t) GOODIX_READ_COOR_ADDR 9
                             (fst reply1) buf1 in
  let header := u8_val (snd reply1 0%nat) in
  let n := Z.land header 0x0F in
  let more := GOODIX_CONTACT_SIZE * (n - 1) in
  let reply2 := i2c_transfer_read env (trace st ++ [report1]) (client_addr t)
                                  (GOODIX_READ_COOR_ADDR + 9) more in
  let buf2 := map (snd reply2) (seq 0 (Z.to_nat more)) in
  let report2 := Ev_i2c_read (client_addr t) (GOODIX_READ_COOR_ADDR + 9)
                             more (fst reply2) buf2 in
  fst reply1 = 2 ->
  Z.land header 0x80 <> 0 ->
  n <= max_touch_num t ->
  n <= GOODIX_MAX_CONTACTS ->
  1 < n ->
  fst reply2 <> 2 ->
  runs_as (goodix_process_events env) st tt [report1; report2].
Proof.
  cbv zeta. intros Hret Hready Hcount Hten Hmany Hret2.
  unfold GOODIX_MAX_CONTACTS in Hten. unfold runs_as.
  first_read_ready env st Hret Hready Hcount.
  set (reply1 := i2c_transfer_read env (trace st) (client_addr (ts st))
                                   GOODIX_READ_COOR_ADDR 9) in *.
  pose proof (nibble_range (snd reply1 0%nat)) as Hn.
  set (n := Z.land (u8_val (snd reply1 0%nat)) 15) in *.
  set (report1 := Ev_i2c_read _ GOODIX_READ_COOR_ADDR 9 _ _) in *.
  destruct (Z.gtb_spec n 1) as [_ | H]; [| lia].
  assert (Hroom2 : u16_wrap (GOODIX_CONTACT_SIZE * (n - 1))
                   <= 1 + GOODIX_CONTACT_SIZE * GOODIX_MAX_CONTACTS
                      - (1 + GOODIX_CONTACT_SIZE)).
  { unfold u16_wrap, GOODIX_CONTACT_SIZE, GOODIX_MAX_CONTACTS.
    rewrite Z.mod_small by lia. lia. }
  rewrite (bind_runs _ _ _ _ _
             (goodix_i2c_read_run env
                (GOODIX_READ_COOR_ADDR + 1 + GOODIX_CONTACT_SIZE) _ _
                (after st [report1]) Hroom2)).
  change (u16_wrap (GOODIX_READ_COOR_ADDR + 1 + GOODIX_CONTACT_SIZE))
    with (GOODIX_READ_COOR_ADDR + 9).
  assert (Hwrap : u16_wrap (GOODIX_CONTACT_SIZE * (n - 1))
                  = GOODIX_CONTACT_SIZE * (n - 1)).
  { unfold u16_wrap, GOODIX_CONTACT_SIZE. apply Z.mod_small. lia. }
  rewrite Hwrap.
  change (ts (after st [report1])) with (ts st).
  change (trace (after st [report1])) with (trace st ++ [report1]).
  set (reply2 := i2c_transfer_read env (trace st ++ [report1])
                   (client_addr (ts st)) (GOODIX_READ_COOR_ADDR + 9)
                   (GOODIX_CONTACT_SIZE * (n - 1))) in *.
  pose proof (i2c_ret_failed 2 _ Hret2) as E.
  destruct (Z.eqb_spec (i2c_ret 2 (fst reply2)) 0) as [E0 | _]; [lia |].
  cbn [negb]. unfold ret.
  destruct (Z.ltb_spec (i2c_ret 2 (fst reply2)) 0) as [_ | H]; [| lia].
  rewrite after_after. reflexivity.
Qed.

(** What [goodix_process_events] emits whatever the bus returns, for a
    panel of at most ten contacts: bus reads, then the sink events of the
    frame when it is accepted. *)
Lemma goodix_process_events_sink (env : environment) (st : state) :
  let t := ts st in
  let reply1 := i2c_transfer_read env (trace st) (client_addr t)
                                  GOODIX_READ_COOR_ADDR 9 in
  let buf1 := map (snd reply1) (seq 0 9) in
  let report1 := Ev_i2c_read (client_addr t) GOODIX_READ_COOR_ADDR 9
                             (fst reply1) buf1 in
  let header := u8_val (snd reply1 0%nat) in
  let n := Z.land header 0x0F in
  let more := GOODIX_CONTACT_SIZE * (n - 1) in
  let reply2 := i2c_transfer_read env (trace st ++ [report1]) (client_addr t)
                                  (GOODIX_READ_COOR_ADDR + 9) more in
  let buf2 := map (snd reply2) (seq 0 (Z.to_nat more)) in
  let accepted := (fst reply1 =? 2) && negb (Z.land header 0x80 =? 0)
                  && (n <=? max_touch_num t)
                  && ((n <=? 1) || (fst reply2 =? 2)) in
  let sink := if accepted
              then frame_contacts t
                     (skipn 1 buf1 ++ (if n <=? 1 then [] else buf2))
                     (Z.to_nat n)
                   ++ [Ev_input input_mt_sync_frame; Ev_input input_sync]
              else [] in
  max_touch_num t <= GOODIX_MAX_CONTACTS ->
  extent_fits_int (abs_x_max t) ->
  extent_fits_int (abs_y_max t) ->
  exists reads,
    runs_as (goodix_process_events env) st tt (reads ++ sink) /\
    filter is_input reads = [].
Proof.
  cbv zeta. intros Hmax Hx Hy.
  destruct (Z.eqb_spec
              (fst (i2c_transfer_read env (trace st) (client_addr (ts st))
                      GOODIX_READ_COOR_ADDR 9)) 2) as [Hret | Hret].
  2: { cbn [andb]. eexists. rewrite app_nil_r. split.
       - exact (goodix_process_events_first_read_fails env st Hret).
       - reflexivity. }
  cbn [andb].
  destruct (Z.eqb_spec
              (Z.land (u8_val (snd (i2c_transfer_read env (trace st)
                                      (client_addr (ts st))
                                      GOODIX_READ_COOR_ADDR 9) 0%nat)) 128)
              0) as [Hready | Hready].
  { cbn [negb andb]. eexists. rewrite app_nil_r. split.
    - exact (goodix_process_events_drop env st (or_introl Hready)).
    - reflexivity. }
  cbn [negb andb].
  destruct (Z.leb_spec
              (Z.land (u8_val (snd (i2c_transfer_read env (trace st)
                                      (client_addr (ts st))
                                      GOODIX_READ_COOR_ADDR 9) 0%nat)) 15)
              (max_touch_num (ts st))) as [Hcount | Hcount].
  2: { cbn [andb]. eexists. rewrite app_nil_r. split.
       - apply (goodix_process_events_drop env st). right. lia.
       - reflexivity. }
  cbn [andb].
  assert (Hten : Z.land (u8_val (snd (i2c_transfer_read env (trace st)
                                        (client_addr (ts st))
                                        GOODIX_READ_COOR_ADDR 9) 0%nat)) 15
                 <= GOODIX_MAX_CONTACTS) by lia.
  pose proof (goodix_process_events_frame env st Hret Hready Hcount Hten
                Hx Hy) as [Hone Hmany].
  destruct (Z.leb_spec
              (Z.land (u8_val (snd (i2c_transfer_read env (trace st)
                                      (client_addr (ts st))
                                      GOODIX_READ_COOR_ADDR 9) 0%nat)) 15)
              1) as [Hn | Hn].
  { cbn [orb]. eexists. split.
    - unfold runs_as. rewrite app_nil_r. exact (Hone Hn).
    - reflexivity. }
  cbn [orb].
  match goal with
  | |- context [if ?r =? 2 then _ else _] =>
      destruct (Z.eqb_spec r 2) as [Hret2 | Hret2]
  end.
  - eexists. split.
    + unfold runs_as. exact (Hmany Hn Hret2).
    + reflexivity.
  - eexists. rewrite app_nil_r. split.
    + exact (goodix_process_events_second_read_fails env st Hret Hready
               Hcount Hten Hn Hret2).
    + reflexivity.
Qed.

(** X7.  On a panel configured for at most ten contacts, the interrupt
    handler completes whatever the bus returns: no access leaves
    [point_data], the result is [IRQ_HANDLED] and the instance is
    unchanged.  What reaches the sink is all or nothing: the contacts of
    the frame in block order followed by one frame sync and one input
    sync when both reads went through, the header is ready and its count
    is within the panel's, and nothing at all otherwise. *)
Theorem goodix_ts_irq_handler_all_or_nothing (env : environment)
        (st : state) :
  let t := ts st in
  let reply1 := i2c_transfer_read env (trace st) (client_addr t)
                                  GOODIX_READ_COOR_ADDR 9 in
  let buf1 := map (snd reply1) (seq 0 9) in
  let report1 := Ev_i2c_read (client_addr t) GOODIX_READ_COOR_ADDR 9
                             (fst reply1) buf1 in
  let header := u8_val (snd reply1 0%nat) in
  let n := Z.land header 0x0F in
  let more := GOODIX_CONTACT_SIZE * (n - 1) in
  let reply2 := i2c_transfer_read env (trace st ++ [report1]) (client_addr t)
                                  (GOODIX_READ_COOR_ADDR + 9) more in
  let buf2 := map (snd reply2) (seq 0 (Z.to_nat more)) in
  let accepted := (fst reply1 =? 2) && negb (Z.land header 0x80 =? 0)
                  && (n <=? max_touch_num t)
                  && ((n <=? 1) || (fst reply2 =? 2)) in
  max_touch_num t <= GOODIX_MAX_CONTACTS ->
  extent_fits_int (abs_x_max t) ->
  extent_fits_int (abs_y_max t) ->
  exists evs,
    goodix_ts_irq_handler env st = Ok (IRQ_HANDLED, after st evs) /\
    filter is_input evs =
    if accepted
    then frame_contacts t (skipn 1 buf1 ++ (if n <=? 1 then [] else buf2))
                        (Z.to_nat n)
         ++ [Ev_input input_mt_sync_frame; Ev_input input_sync]
    else [].
Proof.
  cbv zeta. intros Hmax Hx Hy.
  destruct (goodix_process_events_sink env st Hmax Hx Hy)
    as (reads & Hrun & Hreads).
  cbv zeta in Hrun.
  match type of Hrun with
  | runs_as _ _ _ (_ ++ ?s) => set (sink := s) in *
  end.
  destruct (goodix_i2c_write_u8_run env GOODIX_READ_COOR_ADDR 0
              (after st (reads ++ sink))) as (ok & r & Hack).
  exists ((reads ++ sink)
          ++ op_calls (reg_write_u8 (ts st) GOODIX_READ_COOR_ADDR 0 ok r)).
  split.
  - unfold goodix_ts_irq_handler.
    rewrite (bind_runs _ _ _ _ _ Hrun), (bind_runs _ _ _ _ _ Hack).
    unfold ret. rewrite after_after. reflexivity.
  - rewrite !filter_app, Hreads. cbn [app].
    assert (Hquiet : filter is_input
                       (op_calls (reg_write_u8 (ts st) GOODIX_READ_COOR_ADDR
                                               0 ok r)) = [])
      by (destruct ok; reflexivity).
    rewrite Hquiet, app_nil_r.
    subst sink.
    match goal with
    | |- filter is_input (if ?c then _ else _) = _ => destruct c
    end; [| reflexivity].
    rewrite filter_app, filter_frame_contacts. reflexivity.
Qed.

Lemma goodix_ts_irq_handler_all_or_nothing_witness :
  exists st',
    goodix_ts_irq_handler env_one_contact st_gt911 = Ok (IRQ_HANDLED, st') /\
    filter is_input (trace st') =
    contact_events 3 100 200 16
    ++ [Ev_input input_mt_sync_frame; Ev_input input_sync].
Proof.
  destruct (goodix_ts_irq_handler_all_or_nothing env_one_contact st_gt911)
    as (evs & Hrun & Hsink).
  - vm_compute. discriminate.
  - vm_compute. split; discriminate.
  - vm_compute. split; discriminate.
  - exists (after st_gt911 evs). split; [exact Hrun |].
    change (trace (after st_gt911 evs)) with evs.
    rewrite Hsink. vm_compute. reflexivity.
Defined.

(** ** Computations that keep the instance *)

Section Within.

Variable P : event -> bool.

Lemma within_ret (A : Type) (a : A) : runs_within P (ret a).
Proof.
  intros st. exists a, []. split; [| reflexivity].
  unfold runs_as, ret. rewrite after_nil. reflexivity.
Qed.

Lemma within_bind (A B : Type) (m : M A) (k : A -> M B) :
  runs_within P m -> (forall a, runs_within P (k a)) ->
  runs_within P (bind m k).
Proof.
  intros Hm Hk st.
  destruct (Hm st) as (a & evs & Hrun & Hevs).
  destruct (Hk a (after st evs)) as (b & evs' & Hrun' & Hevs').
  exists b, (evs ++ evs'). split.
  - unfold runs_as in *. rewrite (bind_runs _ _ _ _ _ Hrun), Hrun'.
    rewrite after_after. reflexivity.
  - rewrite forallb_app, Hevs, Hevs'. reflexivity.
Qed.

Lemma within_emit (e : event) : P e = true -> runs_within P (emit e).
Proof.
  intros He st. exists tt, [e]. split; [reflexivity |].
  cbn. rewrite He. reflexivity.
Qed.

Lemma within_get_ts (B : Type) (k : goodix_ts_data -> M B) :
  (forall t, runs_within P (k t)) -> runs_within P (bind get_ts k).
Proof.
  intros Hk st. destruct (Hk (ts st) st) as (b & evs & Hrun & Hevs).
  exists b, evs. split; [| exact Hevs].
  unfold runs_as in *. rewrite bind_get_ts. exact Hrun.
Qed.

Lemma within_if (A : Type) (c : bool) (m1 m2 : M A) :
  runs_within P m1 -> runs_within P m2 ->
  runs_within P (if c then m1 else m2).
Proof. destruct c; auto. Qed.

Lemma within_call_i2c_transfer_write (env : environment) (addr : Z)
      (msg : list byte) :
  (forall r, P (Ev_i2c_send addr msg r) = true) ->
  runs_within P (call_i2c_transfer_write env addr msg).
Proof.
  intros He st.
  exists (i2c_transfer_write env (trace st) addr msg),
    [Ev_i2c_send addr msg (i2c_transfer_write env (trace st) addr msg)].
  split; [reflexivity |]. cbn. rewrite He. reflexivity.
Qed.

Lemma within_call_kmalloc (env : environment) (size : Z) :
  (forall ok, P (Ev_kmalloc size ok) = true) ->
  runs_within P (call_kmalloc env size).
Proof.
  intros He st.
  exists (kmalloc env (trace st) size),
    [Ev_kmalloc size (kmalloc env (trace st) size)].
  split; [reflexivity |]. cbn. rewrite He. reflexivity.
Qed.

Lemma within_call_gpiod_direction_output (env : environment)
      (line : gpio_line) (val : Z) :
  (forall r, P (Ev_gpio_output line val r) = true) ->
  runs_within P (call_gpiod_direction_output env line val).
Proof.
  intros He st.
  exists (gpiod_direction_output env (trace st) line val),
    [Ev_gpio_output line val
       (gpiod_direction_output env (trace st) line val)].
  split; [reflexivity |]. cbn. rewrite He. reflexivity.
Qed.

Lemma within_call_gpiod_direction_input (env : environment)
      (line : gpio_line) :
  (forall r, P (Ev_gpio_input line r) = true) ->
  runs_within P (call_gpiod_direction_input env line).
Proof.
  intros He st.
  exists (gpiod_direction_input env (trace st) line),
    [Ev_gpio_input line (gpiod_direction_input env (trace st) line)].
  split; [reflexivity |]. cbn. rewrite He. reflexivity.
Qed.

Lemma within_call_pm_runtime_get_sync (env : environment) :
  (forall r, P (Ev_pm_get_sync r) = true) ->
  runs_within P (call_pm_runtime_get_sync env).
Proof.
  intros He st.
  exists (pm_runtime_get_sync env (trace st)),
    [Ev_pm_get_sync (pm_runtime_get_sync env (trace st))].
  split; [reflexivity |]. cbn. rewrite He. reflexivity.
Qed.

Lemma within_call_pm_runtime_put_autosuspend (env : environment) :
  (forall r, P (Ev_pm_put_autosuspend r) = true) ->
  runs_within P (call_pm_runtime_put_autosuspend env).
Proof.
  intros He st.
  exists (pm_runtime_put_autosuspend env (trace st)),
    [Ev_pm_put_autosuspend (pm_runtime_put_autosuspend env (trace st))].
  split; [reflexivity |]. cbn. rewrite He. reflexivity.
Qed.

End Within.

(** Decomposes a computation into the calls it makes. *)
Ltac within_steps :=
  repeat first
    [ apply within_get_ts; intro
    | apply within_bind; [| intro]
    | apply within_ret
    | apply within_emit; reflexivity
    | apply within_if
    | apply within_call_i2c_transfer_write; intro; reflexivity
    | apply within_call_kmalloc; intro; reflexivity
    | apply within_call_gpiod_direction_output; intro; reflexivity
    | apply within_call_gpiod_direction_input; intro; reflexivity
    | apply within_call_pm_runtime_get_sync; intro; reflexivity
    | apply within_call_pm_runtime_put_autosuspend; intro; reflexivity
    | assumption ].

Lemma set_reset_output_val_steady (env : environment) (val : Z) :
  runs_within steady (set_reset_output_val env val).
Proof. unfold set_reset_output_val. within_steps. Qed.

Lemma set_int_output_val_steady (env : environment) (val : Z) :
  runs_within steady (set_int_output_val env val).
Proof. unfold set_int_output_val. within_steps. Qed.

Lemma set_int_input_steady (env : environment) :
  runs_within steady (set_int_input env).
Proof. unfold set_int_input. within_steps. Qed.

Lemma goodix_int_sync_steady (env : environment) :
  runs_within steady (goodix_int_sync env).
Proof.
  unfold goodix_int_sync.
  pose proof (set_int_output_val_steady env 0).
  pose proof (set_int_input_steady env).
  within_steps.
Qed.

Lemma goodix_reset_steady (env : environment) :
  runs_within steady (goodix_reset env).
Proof.
  unfold goodix_reset.
  pose proof (set_reset_output_val_steady env).
  pose proof (set_int_output_val_steady env).
  pose proof (goodix_int_sync_steady env).
  within_steps; auto.
Qed.

Lemma goodix_i2c_write_u8_steady (env : environment) (reg value : Z) :
  runs_within steady (goodix_i2c_write_u8 env reg value).
Proof.
  unfold goodix_i2c_write_u8, goodix_i2c_write. cbv zeta.
  change (u32_wrap 1) with 1.
  change (Z.of_nat (length [u8_of value]) <? 1) with false.
  cbv iota. within_steps.
Qed.

Lemma goodix_enable_esd_steady (env : environment) :
  runs_within steady (goodix_enable_esd env).
Proof.
  unfold goodix_enable_esd.
  pose proof (goodix_i2c_write_u8_steady env).
  within_steps; auto.
Qed.

Lemma goodix_set_power_state_steady (env : environment) (on : bool) :
  runs_within steady (goodix_set_power_state env on).
Proof. unfold goodix_set_power_state. within_steps. Qed.

(** ** Panel capabilities *)

Lemma goodix_get_cfg_len_values (id : Z) :
  goodix_get_cfg_len id = 186 \/ goodix_get_cfg_len id = 228 \/
  goodix_get_cfg_len id = 240.
Proof.
  unfold goodix_get_cfg_len.
  destruct id as [| p | p]; try (right; right; reflexivity).
  repeat (try (left; reflexivity); try (right; left; reflexivity);
          try (right; right; reflexivity);
          destruct p as [p | p |]; simpl).
Qed.

Lemma data_at_map_seq (f : nat -> byte) (n i : nat) :
  (i < n)%nat -> data_at (map f (seq 0 n)) (Z.of_nat i) = Ok (f i).
Proof.
  intros Hi. unfold data_at.
  destruct (Z.ltb_spec (Z.of_nat i) 0) as [H | _]; [lia |].
  rewrite Nat2Z.id, nth_error_map, nth_error_seq.
  destruct (Nat.ltb_spec i n) as [_ | H]; [reflexivity | lia].
Qed.

Lemma get_unaligned_le16_map_seq (f : nat -> byte) (n i : nat) :
  (S i < n)%nat ->
  get_unaligned_le16 (map f (seq 0 n)) (Z.of_nat i) =
  Ok (u16_le (f i) (f (S i))).
Proof.
  intros Hi. unfold get_unaligned_le16.
  rewrite data_at_map_seq by lia. cbn [rbind].
  replace (Z.of_nat i + 1) with (Z.of_nat (S i)) by lia.
  rewrite data_at_map_seq by lia. cbn [rbind].
  unfold u16_le.
  pose proof (u8_val_range (f i)). pose proof (u8_val_range (f (S i))).
  rewrite lor_shiftl_8 by lia. reflexivity.
Qed.

Lemma land_3_range (b : byte) : 0 <= Z.land (u8_val b) 0x03 <= 3.
Proof.
  pose proof (u8_val_range b) as Hb.
  split; [apply Z.land_nonneg; right; lia |].
  change 3 with (Z.ones 2) at 1. rewrite Z.land_ones by lia.
  pose proof (Z.mod_pos_bound (u8_val b) (2 ^ 2)). lia.
Qed.

Lemma default_geometry_is_default (t : goodix_ts_data) :
  geometry_default (default_geometry t).
Proof.
  unfold geometry_default, default_geometry, swap_if.
  destruct (swapped_x_y t); cbn; repeat split; reflexivity.
Qed.

(** The run of [goodix_read_config]: one read of [cfg_len] bytes, and the
    instance it leaves. *)
Lemma goodix_read_config_run (env : environment) (st : state) :
  cfg_len (ts st) = goodix_get_cfg_len (id (ts st)) ->
  let t := ts st in
  let reply := i2c_transfer_read env (trace st) (client_addr t)
                                 GOODIX_REG_CONFIG_DATA (cfg_len t) in
  let config := snd reply in
  let x := u16_le (config 1%nat) (config 2%nat) in
  let y := u16_le (config 3%nat) (config 4%nat) in
  let mt := Z.land (u8_val (config 5%nat)) 0x0F in
  let trig := Z.land (u8_val (config 6%nat)) 0x03 in
  let stored :=
    if (x =? 0) || (y =? 0) || (mt =? 0) then default_geometry t
    else set_geometry (if swapped_x_y t then y else x)
                      (if swapped_x_y t then x else y) trig mt t in
  goodix_read_config env st =
  Ok (tt,
      mk_state (if fst reply =? 2
                then if dmi_check_system env
                     then set_inverted true true stored
                     else stored
                else default_geometry t)
               (trace st ++
                [Ev_i2c_read (client_addr t) GOODIX_REG_CONFIG_DATA
                   (cfg_len t) (fst reply)
                   (map config (seq 0 (Z.to_nat (cfg_len t))))])).
Proof.
  intros Hlen. cbv zeta.
  assert (Hrange : 7 <= cfg_len (ts st) <= 240)
    by (rewrite Hlen; destruct (goodix_get_cfg_len_values (id (ts st)))
          as [-> | [-> | ->]]; lia).
  assert (Hwrap : u16_wrap (cfg_len (ts st)) = cfg_len (ts st))
    by (unfold u16_wrap; apply Z.mod_small; lia).
  unfold goodix_read_config. rewrite bind_get_ts.
  assert (Hroom : u16_wrap (cfg_len (ts st)) <= GOODIX_CONFIG_MAX_LENGTH)
    by (rewrite Hwrap; unfold GOODIX_CONFIG_MAX_LENGTH; lia).
  rewrite (bind_runs _ _ _ _ _
             (goodix_i2c_read_run env GOODIX_REG_CONFIG_DATA _ _ st Hroom)).
  rewrite Hwrap.
  change (u16_wrap GOODIX_REG_CONFIG_DATA) with GOODIX_REG_CONFIG_DATA.
  set (reply := i2c_transfer_read env (trace st) (client_addr (ts st))
                                  GOODIX_REG_CONFIG_DATA (cfg_len (ts st))).
  set (n := Z.to_nat (cfg_len (ts st))).
  assert (Hn : (7 <= n)%nat) by (unfold n; lia).
  set (ev := Ev_i2c_read _ _ _ _ _).
  destruct (Z.eqb_spec (fst reply) 2) as [Hret | Hret].
  - replace (i2c_ret 2 (fst reply)) with 0 by (rewrite Hret; reflexivity).
    cbn [Z.eqb negb].
    unfold RESOLUTION_LOC, TRIGGER_LOC, MAX_CONTACTS_LOC.
    change 1 with (Z.of_nat 1). change (Z.of_nat 1 + 2) with (Z.of_nat 3).
    change 6 with (Z.of_nat 6). change 5 with (Z.of_nat 5) at 1.
    unfold bind at 1, lift at 1.
    rewrite get_unaligned_le16_map_seq by lia. cbn [rbind].
    unfold bind at 1, lift at 1.
    rewrite get_unaligned_le16_map_seq by lia. cbn [rbind].
    set (x := u16_le (snd reply 1%nat) (snd reply 2%nat)).
    set (y := u16_le (snd reply 3%nat) (snd reply 4%nat)).
    set (mt := Z.land (u8_val (snd reply 5%nat)) 15) in *.
    set (trig := Z.land (u8_val (snd reply 6%nat)) 3) in *.
    assert (Hzero : forall b : bool,
               (fst (swap_if b (x, y)) =? 0) || (snd (swap_if b (x, y)) =? 0)
               = (x =? 0) || (y =? 0))
      by (intros [|]; cbn [swap_if fst snd]; [apply orb_comm | reflexivity]).
    specialize (Hzero (swapped_x_y (ts st))).
    assert (Hswap : swap_if (swapped_x_y (ts st)) (x, y)
                    = (if swapped_x_y (ts st) then y else x,
                       if swapped_x_y (ts st) then x else y))
      by (destruct (swapped_x_y (ts st)); reflexivity).
    rewrite Hswap in *. cbn [fst snd] in Hzero.
    unfold bind at 1, lift at 1. rewrite data_at_map_seq by lia.
    cbn [rbind].
    unfold bind at 1, lift at 1. rewrite data_at_map_seq by lia.
    cbn [rbind]. fold mt trig.
    unfold bind at 1, modify_ts at 1. cbn [ts trace after].
    rewrite Hzero.
    destruct ((x =? 0) || (y =? 0) || (mt =? 0));
      unfold bind at 1, modify_ts at 1, ret at 1; cbn [ts trace];
      destruct (dmi_check_system env); unfold modify_ts, ret;
      cbn [ts trace]; reflexivity.
  - pose proof (i2c_ret_failed 2 _ Hret) as E.
    destruct (Z.eqb_spec (i2c_ret 2 (fst reply)) 0) as [E0 | _]; [lia |].
    cbn [negb]. reflexivity.
Qed.

(** C1 (as amended).  After [goodix_read_config], for every content of
    the config registers, abs_x_max and abs_y_max lie in 1..65535 and the
    trigger index in 0..3.  A non-zero resolution read with a non-zero
    contact count is stored as it is, the extents exchanged when
    [swapped_x_y] is set, with the trigger index [config[6] & 3].  When the
    read fails, or the resolution or the contact count read is zero, the
    geometry is exactly the defaults 4096x4096, 10 contacts, trigger type
    1.  max_touch_num lies in 1..10 on the default paths and whenever the
    contact count read is at most 10, and is then that count. *)
Theorem goodix_read_config_geometry (env : environment) (st : state) :
  cfg_len (ts st) = goodix_get_cfg_len (id (ts st)) ->
  let t := ts st in
  let reply := i2c_transfer_read env (trace st) (client_addr t)
                                 GOODIX_REG_CONFIG_DATA (cfg_len t) in
  let config := snd reply in
  let x := u16_le (config 1%nat) (config 2%nat) in
  let y := u16_le (config 3%nat) (config 4%nat) in
  let mt := Z.land (u8_val (config 5%nat)) 0x0F in
  let trig := Z.land (u8_val (config 6%nat)) 0x03 in
  let fallback :=
    negb (fst reply =? 2) || (x =? 0) || (y =? 0) || (mt =? 0) in
  exists t',
    goodix_read_config env st =
    Ok (tt, mk_state t'
              (trace st ++
               [Ev_i2c_read (client_addr t) GOODIX_REG_CONFIG_DATA (cfg_len t)
                  (fst reply)
                  (map config (seq 0 (Z.to_nat (cfg_len t))))])) /\
    1 <= abs_x_max t' <= 65535 /\
    1 <= abs_y_max t' <= 65535 /\
    0 <= int_trigger_type t' <= 3 /\
    (fallback = true \/ mt <= 10 -> 1 <= max_touch_num t' <= 10) /\
    (if fallback then geometry_default t'
     else abs_x_max t' = (if swapped_x_y t then y else x) /\
          abs_y_max t' = (if swapped_x_y t then x else y) /\
          int_trigger_type t' = trig /\
          (mt <= 10 -> max_touch_num t' = mt)).
Proof.
  intros Hlen. cbv zeta.
  pose proof (goodix_read_config_run env st Hlen) as Hrun.
  cbv zeta in Hrun.
  set (reply := i2c_transfer_read env (trace st) (client_addr (ts st))
                                  GOODIX_REG_CONFIG_DATA (cfg_len (ts st)))
    in *.
  pose proof (u16_le_range (snd reply 1%nat) (snd reply 2%nat)) as Rx.
  pose proof (u16_le_range (snd reply 3%nat) (snd reply 4%nat)) as Ry.
  pose proof (land_3_range (snd reply 6%nat)) as Rt.
  pose proof (nibble_range (snd reply 5%nat)) as Rm.
  set (x := u16_le (snd reply 1%nat) (snd reply 2%nat)) in *.
  set (y := u16_le (snd reply 3%nat) (snd reply 4%nat)) in *.
  set (mt := Z.land (u8_val (snd reply 5%nat)) 15) in *.
  set (trig := Z.land (u8_val (snd reply 6%nat)) 3) in *.
  eexists. split; [exact Hrun |].
  assert (Hdefault : forall t0 : goodix_ts_data,
             geometry_default t0 ->
             1 <= abs_x_max t0 <= 65535 /\ 1 <= abs_y_max t0 <= 65535 /\
             0 <= int_trigger_type t0 <= 3 /\ 1 <= max_touch_num t0 <= 10)
    by (intros t0 (-> & -> & -> & ->); lia).
  assert (Hinv : forall t0 : goodix_ts_data,
             geometry_default t0 ->
             geometry_default (set_inverted true true t0))
    by (intros t0 H; exact H).
  destruct (Z.eqb_spec (fst reply) 2) as [Hret | Hret]; cbn [negb orb].
  2: { pose proof (default_geometry_is_default (ts st)) as Hd.
       destruct (Hdefault _ Hd) as (H1 & H2 & H3 & H4).
       repeat split; try tauto; try apply Hd; try lia. }
  destruct ((x =? 0) || (y =? 0) || (mt =? 0)) eqn:Hzero.
  - pose proof (default_geometry_is_default (ts st)) as Hd.
    destruct (dmi_check_system env);
      [apply Hinv in Hd |];
      destruct (Hdefault _ Hd) as (H1 & H2 & H3 & H4);
      repeat split; try tauto; try apply Hd; try lia.
  - apply orb_false_iff in Hzero. destruct Hzero as [Hzero Hm0].
    apply orb_false_iff in Hzero. destruct Hzero as [Hx0 Hy0].
    apply Z.eqb_neq in Hx0, Hy0, Hm0.
    destruct (dmi_check_system env); destruct (swapped_x_y (ts st)) eqn:Hsw;
      cbn [abs_x_max abs_y_max int_trigger_type max_touch_num
           set_geometry set_inverted];
      repeat split; try lia; intros [H | H]; try discriminate H; lia.
Qed.

Lemma goodix_read_config_geometry_witness :
  cfg_len (ts st_gt911) = goodix_get_cfg_len (id (ts st_gt911)) /\
  exists st',
    goodix_read_config env_wide_panel st_gt911 = Ok (tt, st') /\
    abs_x_max (ts st') = 5000 /\ abs_y_max (ts st') = 4096 /\
    int_trigger_type (ts st') = 1 /\ max_touch_num (ts st') = 5.
Proof.
  split; [reflexivity |].
  destruct (goodix_read_config_geometry env_wide_panel st_gt911 eq_refl)
    as (t' & Hrun & _ & _ & _ & _ & Hstored).
  vm_compute in Hstored. destruct Hstored as (Hx & Hy & Ht & Hm).
  eexists. split; [exact Hrun |]. cbn [ts].
  repeat split; try assumption.
  apply Hm. discriminate.
Defined.

(** C1 (as stated) fails: a panel whose config registers hold a resolution
    of 5000x4096 is stored with that width, outside 1..4096. *)
Lemma goodix_read_config_exceeds_model_ranges :
  exists st',
    goodix_read_config env_wide_panel st_gt911 = Ok (tt, st') /\
    abs_x_max (ts st') = 5000 /\
    ~ geometry_in_model_ranges (ts st').
Proof.
  eexists. split; [vm_compute; reflexivity |].
  split; [reflexivity |].
  unfold geometry_in_model_ranges. cbn. lia.
Qed.

(** With 15 contacts stored, a report that announces 11 contacts passes the
    count check, and its second read runs past the 81 bytes of
    [point_data], which hold 10 contacts. *)
Example goodix_process_events_overruns_point_data :
  exists st',
    goodix_read_config env_big_panel st_gt911 = Ok (tt, st') /\
    goodix_process_events env_eleven_contacts st' = OutOfBounds.
Proof.
  eexists. split.
  - vm_compute. reflexivity.
  - vm_compute. reflexivity.
Qed.

(** ** ESD supervisor *)

Lemma esd_healthy_spec (reply : Z * (nat -> byte)) :
  esd_healthy reply =
  (i2c_ret 2 (fst reply) =? 0)
  && (negb (u8_val (snd reply 0%nat) =? GOODIX_CMD_ESD_ENABLED)
      && (u8_val (snd reply 1%nat) =? GOODIX_CMD_ESD_ENABLED)).
Proof.
  unfold esd_healthy, i2c_ret, EIO. rewrite <- andb_assoc. f_equal.
  destruct (Z.ltb_spec (fst reply) 0) as [Hneg | Hpos].
  - destruct (Z.eqb_spec (fst reply) 2), (Z.eqb_spec (fst reply) 0);
      try reflexivity; lia.
  - destruct (Z.eqb_spec (fst reply) 2); reflexivity.
Qed.

(** One pass through the body of the retry loop. *)
Lemma esd_attempt (env : environment) (st : state) (k : M Z) (retries : Z) :
  let t := ts st in
  let reply := i2c_transfer_read env (trace st) (client_addr t)
                                 GOODIX_REG_COMMAND 2 in
  let read := Ev_i2c_read (client_addr t) GOODIX_REG_COMMAND 2 (fst reply)
                          [snd reply 0%nat; snd reply 1%nat] in
  ('(error, esd_data) <- goodix_i2c_read env GOODIX_REG_COMMAND 2 2 ;;
   if negb (error =? 0) then k
   else
     d0 <- lift (data_at esd_data 0) ;;
     d1 <- lift (data_at esd_data 1) ;;
     if negb (u8_val d0 =? GOODIX_CMD_ESD_ENABLED)
        && (u8_val d1 =? GOODIX_CMD_ESD_ENABLED) then
       _ <- goodix_i2c_write_u8 env GOODIX_REG_COMMAND
                                GOODIX_CMD_ESD_ENABLED ;;
       ret retries
     else k) st =
  if esd_healthy reply then
    Ok (retries,
        after st (read :: op_calls (reg_write_u8_at env t GOODIX_REG_COMMAND
                                      GOODIX_CMD_ESD_ENABLED
                                      (trace st ++ [read]))))
  else k (after st [read]).
Proof.
  cbv zeta.
  assert (Hroom : u16_wrap 2 <= 2) by (vm_compute; discriminate).
  rewrite (bind_runs _ _ _ _ _
             (goodix_i2c_read_run env GOODIX_REG_COMMAND 2 2 st Hroom)).
  change (u16_wrap GOODIX_REG_COMMAND) with GOODIX_REG_COMMAND.
  change (u16_wrap 2) with 2. change (Z.to_nat 2) with 2%nat.
  cbn [seq map].
  set (reply := i2c_transfer_read env (trace st) (client_addr (ts st))
                                  GOODIX_REG_COMMAND 2).
  set (read := Ev_i2c_read _ _ _ _ _).
  pose proof (goodix_i2c_write_u8_at env GOODIX_REG_COMMAND
                GOODIX_CMD_ESD_ENABLED (after st [read])) as Hfeed.
  change (ts (after st [read])) with (ts st) in Hfeed.
  change (trace (after st [read])) with (trace st ++ [read]) in Hfeed.
  rewrite esd_healthy_spec.
  destruct (i2c_ret 2 (fst reply) =? 0); cbn [negb andb]; [| reflexivity].
  unfold bind at 1, lift at 1.
  change (data_at [snd reply 0%nat; snd reply 1%nat] 0)
    with (Ok (snd reply 0%nat)).
  cbn [rbind]. unfold bind at 1, lift at 1.
  change (data_at [snd reply 0%nat; snd reply 1%nat] 1)
    with (Ok (snd reply 1%nat)).
  cbn [rbind].
  destruct (negb (u8_val (snd reply 0%nat) =? GOODIX_CMD_ESD_ENABLED)
            && (u8_val (snd reply 1%nat) =? GOODIX_CMD_ESD_ENABLED));
    [| reflexivity].
  rewrite (bind_runs _ _ _ _ _ Hfeed). unfold ret.
  rewrite after_after. reflexivity.
Qed.

(** The retry loop of a tick reads the command register at most twice: it
    leaves with [retries] 2 or 1 after a healthy reading, fed back to the
    controller, and with [retries] 0 after two failed attempts. *)
Lemma esd_retry_loop_two_reads (env : environment) (st : state) :
  let t := ts st in
  let reply1 := i2c_transfer_read env (trace st) (client_addr t)
                                  GOODIX_REG_COMMAND 2 in
  let read1 := Ev_i2c_read (client_addr t) GOODIX_REG_COMMAND 2 (fst reply1)
                           [snd reply1 0%nat; snd reply1 1%nat] in
  let reply2 := i2c_transfer_read env (trace st ++ [read1]) (client_addr t)
                                  GOODIX_REG_COMMAND 2 in
  let read2 := Ev_i2c_read (client_addr t) GOODIX_REG_COMMAND 2 (fst reply2)
                           [snd reply2 0%nat; snd reply2 1%nat] in
  let feed h := op_calls (reg_write_u8_at env t GOODIX_REG_COMMAND
                            GOODIX_CMD_ESD_ENABLED h) in
  esd_retry_loop env 3 3 st =
  if esd_healthy reply1
  then Ok (2, after st (read1 :: feed (trace st ++ [read1])))
  else if esd_healthy reply2
       then Ok (1, after st (read1 :: read2
                             :: feed (trace st ++ [read1; read2])))
       else Ok (0, after st [read1; read2]).
Proof.
  cbv zeta.
  set (reply1 := i2c_transfer_read env (trace st) (client_addr (ts st))
                                   GOODIX_REG_COMMAND 2).
  set (read1 := Ev_i2c_read _ _ _ (fst reply1) _).
  set (reply2 := i2c_transfer_read env (trace st ++ [read1])
                                   (client_addr (ts st))
                                   GOODIX_REG_COMMAND 2).
  set (read2 := Ev_i2c_read _ _ _ (fst reply2) _).
  cbn [esd_retry_loop].
  change (int_wrap (3 - 1)) with 2. change (int_wrap (2 - 1)) with 1.
  change (int_wrap (1 - 1)) with 0. cbn [Z.eqb].
  pose proof (esd_attempt env st
              ('(error, esd_data) <- goodix_i2c_read env GOODIX_REG_COMMAND
                                                     2 2 ;;
               if negb (error =? 0) then ret 0
               else
                 d0 <- lift (data_at esd_data 0) ;;
                 d1 <- lift (data_at esd_data 1) ;;
                 if negb (u8_val d0 =? GOODIX_CMD_ESD_ENABLED)
                    && (u8_val d1 =? GOODIX_CMD_ESD_ENABLED) then
                   _ <- goodix_i2c_write_u8 env GOODIX_REG_COMMAND
                                            GOODIX_CMD_ESD_ENABLED ;;
                   ret 1
                 else ret 0) 2) as Hfirst.
  cbv zeta in Hfirst. fold reply1 read1 in Hfirst.
  pose proof (esd_attempt env (after st [read1]) (ret 0) 1) as Hsecond.
  cbv zeta in Hsecond.
  change (ts (after st [read1])) with (ts st) in Hsecond.
  change (trace (after st [read1])) with (trace st ++ [read1]) in Hsecond.
  fold reply2 read2 in Hsecond.
  rewrite <- app_assoc in Hsecond.
  change ([read1] ++ [read2]) with [read1; read2] in Hsecond.
  destruct (esd_healthy reply1) eqn:Hh1.
  - exact Hfirst.
  - rewrite Hfirst, Hsecond.
    destruct (esd_healthy reply2).
    + rewrite after_after. reflexivity.
    + unfold ret. rewrite after_after. reflexivity.
Qed.

(** A tick that finds the controller healthy at its first or second read
    feeds the watchdog and schedules the next tick. *)
Lemma goodix_esd_work_feeds_when_healthy (env : environment) (st : state) :
  let t := ts st in
  let st0 := after st [Ev_wait_firmware_loading] in
  let reply1 := i2c_transfer_read env (trace st0) (client_addr t)
                                  GOODIX_REG_COMMAND 2 in
  let read1 := Ev_i2c_read (client_addr t) GOODIX_REG_COMMAND 2 (fst reply1)
                           [snd reply1 0%nat; snd reply1 1%nat] in
  let reply2 := i2c_transfer_read env (trace st0 ++ [read1]) (client_addr t)
                                  GOODIX_REG_COMMAND 2 in
  let read2 := Ev_i2c_read (client_addr t) GOODIX_REG_COMMAND 2 (fst reply2)
                           [snd reply2 0%nat; snd reply2 1%nat] in
  esd_healthy reply1 || esd_healthy reply2 = true ->
  let reads := if esd_healthy reply1 then [read1] else [read1; read2] in
  let feed := op_calls (reg_write_u8_at env t GOODIX_REG_COMMAND
                          GOODIX_CMD_ESD_ENABLED (trace st0 ++ reads)) in
  goodix_esd_work env st =
  Ok (tt, after st0 (reads ++ feed
                     ++ [Ev_schedule_esd_work (esd_timeout t)])).
Proof.
  cbv zeta. intros Hhealthy.
  pose proof (esd_retry_loop_two_reads env
                (after st [Ev_wait_firmware_loading])) as Hloop.
  cbv zeta in Hloop.
  change (ts (after st [Ev_wait_firmware_loading])) with (ts st) in Hloop.
  unfold goodix_esd_work. rewrite bind_emit.
  unfold bind at 1. rewrite Hloop.
  destruct (esd_healthy _) eqn:H1.
  - cbn [Z.eqb]. rewrite bind_get_ts. unfold emit. rewrite log_after.
    rewrite after_after. reflexivity.
  - cbn [orb] in Hhealthy. rewrite Hhealthy.
    cbn [Z.eqb]. rewrite bind_get_ts. unfold emit. rewrite log_after.
    rewrite after_after. reflexivity.
Qed.

(** C2.  On a bus where the command register reads {0xAA, 0xAA} twice and
    would read {0x00, 0xAA}, a healthy controller, at a third read, a tick
    reads the register twice and then runs the ESD recovery (IRQ freed,
    reset handshake, config re-sent, IRQ re-requested, watchdog re-armed):
    there is no third attempt. *)
Theorem goodix_esd_work_recovers_after_two_reads :
  let unhealthy := Ev_i2c_read 0x14 GOODIX_REG_COMMAND 2 2 [xaa; xaa] in
  esd_healthy (i2c_transfer_read env_third_read_healthy
                 [Ev_wait_firmware_loading; unhealthy; unhealthy]
                 0x14 GOODIX_REG_COMMAND 2) = true /\
  goodix_esd_work env_third_read_healthy st_gt911 =
  Ok (tt,
      after st_gt911
        [Ev_wait_firmware_loading; unhealthy; unhealthy;
         Ev_free_irq;
         Ev_gpio_output LineRst 0 0; Ev_msleep 20;
         Ev_gpio_output LineInt 1 0; Ev_usleep_range 100 2000;
         Ev_gpio_output LineRst 1 0; Ev_usleep_range 6000 10000;
         Ev_gpio_output LineInt 0 0; Ev_msleep 50;
         Ev_gpio_input LineInt 0;
         Ev_request_firmware 0 cfg_blob_valid;
         Ev_kmalloc 188 true;
         Ev_i2c_send 0x14 ([x80; x47] ++ cfg_blob_valid) 1;
         Ev_usleep_range 10000 11000;
         Ev_release_firmware;
         Ev_request_irq 0x2002 0;
         Ev_kmalloc 3 true;
         Ev_i2c_send 0x14 [x80; x41; xaa] 1;
         Ev_schedule_esd_work 2000]).
Proof. split; vm_compute; reflexivity. Qed.

(** ** Wake-up, resume and the way back from sleep *)

Lemma goodix_wakeup_idle (env : environment) (st : state) :
  negb (gpiod_int (ts st)) || negb (gpiod_rst (ts st)) = false ->
  suspended (ts st) = false ->
  goodix_wakeup env st = Ok (0, after st [Ev_mutex_lock; Ev_mutex_unlock]).
Proof.
  intros Hgpio Hs. unfold goodix_wakeup.
  rewrite bind_get_ts, Hgpio, bind_emit, Hs. cbn [negb].
  rewrite bind_emit. unfold ret. rewrite after_after. reflexivity.
Qed.

(** What a wake-up of a suspended instance does, each operation with the
    answer of the environment at the history it is reached with. *)
Lemma goodix_wakeup_at (env : environment) (st : state) :
  gpiod_int (ts st) = true ->
  gpiod_rst (ts st) = true ->
  suspended (ts st) = true ->
  let t := ts st in
  let outcome :=
    script [(int_output_at env t 1, [Ev_usleep_range 2000 5000]);
            (int_sync_at env t, []);
            (irq_request_at env t, []);
            (esd_arm_at env t, [])] (trace st ++ [Ev_mutex_lock]) in
  goodix_wakeup env st =
  Ok (snd outcome,
      mk_state (if snd outcome =? 0 then set_suspended false t else t)
               (trace st ++ [Ev_mutex_lock] ++ fst outcome
                ++ [Ev_mutex_unlock])).
Proof.
  intros Hint Hrst Hsusp. cbv zeta.
  set (t := ts st) in *.
  set (st0 := after st [Ev_mutex_lock]).
  pose proof (set_int_output_val_at env 1 st0) as H1.
  change (ts st0) with t in H1.
  change (trace st0) with (trace st ++ [Ev_mutex_lock]) in H1.
  set (high := int_output_at env t 1 (trace st ++ [Ev_mutex_lock])) in *.
  set (st1 := after st0 (op_calls high ++ [Ev_usleep_range 2000 5000])).
  pose proof (goodix_int_sync_at env st1) as H2.
  change (ts st1) with t in H2.
  change (trace st1)
    with ((trace st ++ [Ev_mutex_lock]) ++ op_calls high
          ++ [Ev_usleep_range 2000 5000]) in H2.
  set (sync := int_sync_at env t _) in *.
  set (st2 := after st1 (op_calls sync)).
  pose proof (goodix_request_irq_at env st2) as H3.
  change (ts st2) with t in H3.
  change (trace st2)
    with (((trace st ++ [Ev_mutex_lock]) ++ op_calls high
           ++ [Ev_usleep_range 2000 5000]) ++ op_calls sync) in H3.
  pose proof (goodix_enable_esd_at env (after st2 (op_calls
                 (irq_request_at env t (trace st2))))) as H4.
  change (ts (after st2 _)) with t in H4.
  change (trace (after st2 (op_calls (irq_request_at env t (trace st2)))))
    with ((((trace st ++ [Ev_mutex_lock]) ++ op_calls high
            ++ [Ev_usleep_range 2000 5000]) ++ op_calls sync)
          ++ op_calls (irq_request_at env t
                         (((trace st ++ [Ev_mutex_lock]) ++ op_calls high
                           ++ [Ev_usleep_range 2000 5000])
                          ++ op_calls sync))) in H4.
  change (trace st2)
    with (((trace st ++ [Ev_mutex_lock]) ++ op_calls high
           ++ [Ev_usleep_range 2000 5000]) ++ op_calls sync) in H4.
  unfold goodix_wakeup. rewrite bind_get_ts. fold t.
  rewrite Hint, Hrst, Hsusp. cbn [negb orb].
  rewrite bind_emit. fold st0.
  rewrite (bind_runs _ _ _ _ _ H1).
  cbn [script]. fold high.
  destruct (Z.eqb_spec (op_error high) 0) as [E1 | E1]; cbn [negb fst snd].
  2:{ rewrite bind_emit. unfold ret.
      destruct (Z.eqb_spec (op_error high) 0) as [E | _]; [contradiction |].
      unfold st0, after. cbn [ts trace]. rewrite <- !app_assoc.
      reflexivity. }
  rewrite bind_emit, after_after. fold st1.
  rewrite (bind_runs _ _ _ _ _ H2). fold st2.
  rewrite !app_nil_r. fold sync.
  destruct (Z.eqb_spec (op_error sync) 0) as [E2 | E2]; cbn [negb fst snd].
  2:{ rewrite bind_emit. unfold ret.
      destruct (Z.eqb_spec (op_error sync) 0) as [E | _]; [contradiction |].
      unfold st2, st1, st0, after. cbn [ts trace]. rewrite <- !app_assoc.
      reflexivity. }
  rewrite (bind_runs _ _ _ _ _ H3).
  set (irq := irq_request_at env t _) in *.
  destruct (Z.eqb_spec (op_error irq) 0) as [E3 | E3]; cbn [negb fst snd].
  2:{ rewrite bind_emit. unfold ret.
      destruct (Z.eqb_spec (op_error irq) 0) as [E | _]; [contradiction |].
      unfold st2, st1, st0, after. cbn [ts trace].
      rewrite <- !app_assoc. reflexivity. }
  rewrite (bind_runs _ _ _ _ _ H4).
  set (arm := esd_arm_at env t _) in *.
  destruct (Z.eqb_spec (op_error arm) 0) as [E4 | E4]; cbn [negb fst snd].
  2:{ rewrite bind_emit. unfold ret.
      destruct (Z.eqb_spec (op_error arm) 0) as [E | _]; [contradiction |].
      unfold st2, st1, st0, after. cbn [ts trace].
      rewrite <- !app_assoc. reflexivity. }
  unfold bind, modify_ts, emit, ret, log.
  unfold st2, st1, st0, after. cbn [ts trace].
  rewrite <- !app_assoc. reflexivity.
Qed.

Lemma goodix_wakeup_instance (env : environment) (st st2 : state) :
  goodix_wakeup env st = Ok (0, st2) ->
  ts st2 = (if gpiod_int (ts st) && gpiod_rst (ts st) && suspended (ts st)
            then set_suspended false (ts st) else ts st).
Proof.
  intros H.
  destruct (gpiod_int (ts st)) eqn:Hint;
    [destruct (gpiod_rst (ts st)) eqn:Hrst;
     [destruct (suspended (ts st)) eqn:Hs |] |]; cbn [andb].
  - pose proof (goodix_wakeup_at env st Hint Hrst Hs) as Hrun.
    cbv zeta in Hrun. rewrite Hrun in H.
    set (outcome := script _ _) in H.
    injection H as Hr Hst. rewrite <- Hst, Hr. reflexivity.
  - rewrite goodix_wakeup_idle in H by (try rewrite Hint, Hrst; auto).
    inversion H. reflexivity.
  - unfold goodix_wakeup in H. rewrite bind_get_ts, Hint, Hrst in H.
    inversion H. reflexivity.
  - unfold goodix_wakeup in H. rewrite bind_get_ts, Hint in H.
    inversion H. reflexivity.
Qed.

Lemma ts_after (st : state) (evs : list event) : ts (after st evs) = ts st.
Proof. reflexivity. Qed.

Lemma goodix_sleep_instance (env : environment) (st st1 : state) :
  suspended (ts st) = false ->
  goodix_sleep env st = Ok (0, st1) ->
  ts st1 = (if gpiod_int (ts st) && gpiod_rst (ts st)
            then set_suspended true (ts st) else ts st).
Proof.
  intros Hs H. unfold goodix_sleep in H. rewrite bind_get_ts in H.
  destruct (gpiod_int (ts st)) eqn:Hint;
    [destruct (gpiod_rst (ts st)) eqn:Hrst |]; cbn [andb negb orb] in H |- *;
    try (inversion H; reflexivity).
  rewrite !bind_emit, Hs in H.
  rewrite (bind_runs _ _ _ _ _ (goodix_disable_esd_run _)) in H.
  unfold goodix_free_irq in H. rewrite bind_emit in H.
  rewrite !after_after in H.
  match type of H with
  | bind _ _ ?s = _ =>
      destruct (set_int_output_val_run env 0 s) as [r1 H1];
      rewrite !ts_after in H1;
      rewrite (bind_runs _ _ _ _ _ H1) in H
  end.
  revert H.
  destruct (op_error (int_output (ts st) 0 r1) =? 0) eqn:E1; cbn [negb];
    intros H.
  - rewrite bind_emit in H.
    match type of H with
    | bind _ _ ?s = _ =>
        destruct (goodix_i2c_write_u8_run env GOODIX_REG_COMMAND
                    GOODIX_CMD_SCREEN_OFF s) as (ok & r2 & H2);
        rewrite (bind_runs _ _ _ _ _ H2) in H
    end.
    revert H. destruct (negb (op_error _ =? 0)); intros H.
    + match type of H with
      | bind _ _ ?s = _ =>
          destruct (set_int_input_run env s) as (r3 & r4 & H3);
          rewrite (bind_runs _ _ _ _ _ H3) in H
      end.
      match type of H with
      | bind _ _ ?s = _ =>
          destruct (goodix_request_irq_run env s) as (r5 & H5);
          rewrite (bind_runs _ _ _ _ _ H5) in H
      end.
      rewrite bind_emit in H. discriminate H.
    + rewrite bind_emit in H. unfold bind, modify_ts, emit, ret in H.
      inversion H. reflexivity.
  - match type of H with
    | bind _ _ ?s = _ =>
        destruct (goodix_request_irq_run env s) as (r5 & H5);
        rewrite (bind_runs _ _ _ _ _ H5) in H
    end.
    rewrite bind_emit in H. unfold ret in H.
    injection H as Hr Hst. rewrite Hr in E1. discriminate E1.
Qed.



(** A sleep on an instance that is already suspended changes nothing. *)
Lemma goodix_sleep_idle (env : environment) (st st1 : state) (r : Z) :
  suspended (ts st) = true ->
  goodix_sleep env st = Ok (r, st1) ->
  r = 0 /\ ts st1 = ts st.
Proof.
  intros Hs H. unfold goodix_sleep in H. rewrite bind_get_ts in H.
  destruct (negb (gpiod_int (ts st)) || negb (gpiod_rst (ts st))).
  - inversion H. split; reflexivity.
  - rewrite !bind_emit, Hs, bind_emit in H. inversion H.
    split; reflexivity.
Qed.

Lemma sleep_then_wakeup (env : environment) (st st1 st2 : state) :
  suspended (ts st) = false ->
  goodix_sleep env st = Ok (0, st1) ->
  goodix_wakeup env st1 = Ok (0, st2) ->
  ts st2 = ts st.
Proof.
  intros Hs Hsleep Hwake.
  pose proof (goodix_sleep_instance env st st1 Hs Hsleep) as E1.
  pose proof (goodix_wakeup_instance env st1 st2 Hwake) as E2.
  rewrite E2, E1.
  destruct (gpiod_int (ts st) && gpiod_rst (ts st)) eqn:Hgpio.
  - change (gpiod_int (set_suspended true (ts st))) with (gpiod_int (ts st)).
    change (gpiod_rst (set_suspended true (ts st))) with (gpiod_rst (ts st)).
    rewrite Hgpio.
    change (suspended (set_suspended true (ts st))) with true.
    cbn [andb].
    destruct (ts st). cbn in *. rewrite Hs. reflexivity.
  - rewrite Hgpio. reflexivity.
Qed.

(** A wake-up after a sleep on an instance that was already suspended:
    the sleep did nothing, and the wake-up clears the flag of an instance
    with both GPIOs. *)
Lemma sleep_then_wakeup_suspended (env : environment) (st st1 st2 : state) :
  suspended (ts st) = true ->
  goodix_sleep env st = Ok (0, st1) ->
  goodix_wakeup env st1 = Ok (0, st2) ->
  ts st1 = ts st /\
  ts st2 = (if gpiod_int (ts st) && gpiod_rst (ts st)
            then set_suspended false (ts st) else ts st).
Proof.
  intros Hs Hsleep Hwake.
  destruct (goodix_sleep_idle env st st1 0 Hs Hsleep) as [_ E1].
  split; [exact E1 |].
  rewrite (goodix_wakeup_instance env st1 st2 Hwake), E1, Hs.
  rewrite andb_true_r. reflexivity.
Qed.

(** X2.  A sleep followed by a wake-up, both returning 0.  From an
    instance that is not suspended the pair leaves the instance as it was
    before the sleep, and in between an instance with both GPIOs is marked
    suspended.  From an instance that is already suspended the sleep
    changes nothing and the wake-up clears [suspended] when both GPIOs are
    there: the pair does not give back the suspended state. *)
Theorem goodix_sleep_wakeup_round_trip
        (env : environment) (st st1 st2 : state) :
  goodix_sleep env st = Ok (0, st1) ->
  goodix_wakeup env st1 = Ok (0, st2) ->
  (suspended (ts st) = false ->
   ts st2 = ts st /\
   (gpiod_int (ts st) && gpiod_rst (ts st) = true ->
    suspended (ts st1) = true)) /\
  (suspended (ts st) = true ->
   ts st1 = ts st /\
   ts st2 = (if gpiod_int (ts st) && gpiod_rst (ts st)
             then set_suspended false (ts st) else ts st)).
Proof.
  intros Hsleep Hwake. split; intros Hs.
  - split; [exact (sleep_then_wakeup env st st1 st2 Hs Hsleep Hwake) |].
    intros Hgpio.
    rewrite (goodix_sleep_instance env st st1 Hs Hsleep), Hgpio.
    reflexivity.
  - exact (sleep_then_wakeup_suspended env st st1 st2 Hs Hsleep Hwake).
Qed.

Lemma goodix_sleep_wakeup_round_trip_witness :
  goodix_sleep env_ok st_gt911 = Ok (0, st_gt911_slept) /\
  goodix_wakeup env_ok st_gt911_slept = Ok (0, st_gt911_woken) /\
  ts st_gt911_woken = ts st_gt911 /\
  suspended (ts st_gt911_slept) = true.
Proof.
  assert (Hsleep : goodix_sleep env_ok st_gt911 = Ok (0, st_gt911_slept))
    by (vm_compute; reflexivity).
  assert (Hwake : goodix_wakeup env_ok st_gt911_slept
                  = Ok (0, st_gt911_woken))
    by (vm_compute; reflexivity).
  split; [exact Hsleep |]. split; [exact Hwake |].
  destruct (proj1 (goodix_sleep_wakeup_round_trip
                     env_ok st_gt911 st_gt911_slept st_gt911_woken
                     Hsleep Hwake) eq_refl) as [Hback Hbetween].
  split; [exact Hback | exact (Hbetween eq_refl)].
Defined.

(** X3.  [goodix_resume] after a sleep that returned 0.  On an instance
    that is not open it does nothing at all, so a device put to sleep
    stays asleep.  On an open instance a resume that returns 0 leaves an
    instance that was not suspended before the sleep as it was then; an
    instance that was already suspended, which the sleep left alone, ends
    with [suspended] cleared when both GPIOs are there. *)
Theorem goodix_sleep_resume_round_trip
        (env : environment) (st st1 st2 : state) :
  goodix_sleep env st = Ok (0, st1) ->
  goodix_resume env st1 = Ok (0, st2) ->
  (open_count (ts st) = 0 -> st2 = st1) /\
  (open_count (ts st) <> 0 -> suspended (ts st) = false ->
   ts st2 = ts st) /\
  (open_count (ts st) <> 0 -> suspended (ts st) = true ->
   ts st2 = (if gpiod_int (ts st) && gpiod_rst (ts st)
             then set_suspended false (ts st) else ts st)).
Proof.
  intros Hsleep Hres.
  assert (Hoc : open_count (ts st1) = open_count (ts st)).
  { destruct (suspended (ts st)) eqn:Hs.
    - destruct (goodix_sleep_idle env st st1 0 Hs Hsleep) as [_ ->].
      reflexivity.
    - rewrite (goodix_sleep_instance env st st1 Hs Hsleep).
      destruct (gpiod_int (ts st) && gpiod_rst (ts st)); reflexivity. }
  unfold goodix_resume in Hres. rewrite bind_get_ts, Hoc in Hres.
  split; [| split].
  - intros Hopen. rewrite Hopen in Hres. cbn in Hres. inversion Hres.
    reflexivity.
  - intros Hopen Hs.
    destruct (Z.eqb_spec (open_count (ts st)) 0) as [E | _];
      [contradiction |].
    exact (sleep_then_wakeup env st st1 st2 Hs Hsleep Hres).
  - intros Hopen Hs.
    destruct (Z.eqb_spec (open_count (ts st)) 0) as [E | _];
      [contradiction |].
    exact (proj2 (sleep_then_wakeup_suspended env st st1 st2 Hs Hsleep
                    Hres)).
Qed.

Lemma goodix_sleep_resume_round_trip_witness :
  goodix_sleep env_ok st_opened = Ok (0, st_opened_slept) /\
  goodix_resume env_ok st_opened_slept
  = Ok (0, st_opened_resumed) /\
  ts st_opened_resumed = ts st_opened.
Proof.
  assert (Hsleep : goodix_sleep env_ok st_opened = Ok (0, st_opened_slept))
    by (vm_compute; reflexivity).
  assert (Hres : goodix_resume env_ok st_opened_slept
                 = Ok (0, st_opened_resumed))
    by (vm_compute; reflexivity).
  split; [exact Hsleep |]. split; [exact Hres |].
  apply (proj1 (proj2 (goodix_sleep_resume_round_trip
                         env_ok st_opened st_opened_slept st_opened_resumed
                         Hsleep Hres))).
  - discriminate.
  - reflexivity.
Defined.

(** ** Open and close together *)

Lemma int_wrap_succ_pred (c : Z) :
  - 2147483648 <= c < 2147483648 -> int_wrap (int_wrap (c + 1) - 1) = c.
Proof.
  intros Hc. unfold int_wrap. Z.div_mod_to_equations. lia.
Qed.

(** X4.  An open that returns 0 followed by a close leaves the instance,
    and with it [open_count], as it was: the close takes back the
    reference whatever the power-off request returns. *)
Theorem goodix_open_close_round_trip
        (env : environment) (st st1 st2 : state) :
  - 2147483648 <= open_count (ts st) < 2147483648 ->
  goodix_open env st = Ok (0, st1) ->
  goodix_close env st1 = Ok (tt, st2) ->
  ts st2 = ts st.
Proof.
  intros Hc Hopen Hclose.
  unfold goodix_open in Hopen. rewrite bind_get_ts in Hopen.
  unfold goodix_close in Hclose. rewrite bind_get_ts in Hclose.
  destruct (negb (gpiod_int (ts st)) || negb (gpiod_rst (ts st))) eqn:Hgpio.
  - inversion Hopen; subst st1. rewrite Hgpio in Hclose.
    inversion Hclose. reflexivity.
  - rewrite bind_emit in Hopen. unfold bind at 1 in Hopen.
    rewrite goodix_set_power_state_on in Hopen. cbv zeta in Hopen.
    revert Hopen.
    destruct (Z.ltb_spec (pm_runtime_get_sync env
                            (trace (after st [Ev_wait_firmware_loading]))) 0)
      as [Hneg | _].
    + destruct (Z.eqb_spec (pm_runtime_get_sync env
                              (trace (after st [Ev_wait_firmware_loading])))
                           0) as [E | _]; [lia |].
      cbn [negb]. unfold ret. intros Hopen.
      injection Hopen as Hr _.
      change (trace (after st [Ev_wait_firmware_loading]))
        with (trace st ++ [Ev_wait_firmware_loading]) in Hneg. lia.
    + intros Hopen. cbn [Z.eqb negb] in Hopen.
      unfold bind, modify_ts, ret in Hopen. cbn [ts trace after] in Hopen.
      injection Hopen as Hst1. subst st1. cbn [ts] in Hclose.
      change (gpiod_int (set_open_count _ (ts st))) with (gpiod_int (ts st))
        in Hclose.
      change (gpiod_rst (set_open_count _ (ts st))) with (gpiod_rst (ts st))
        in Hclose.
      rewrite Hgpio in Hclose.
      match type of Hclose with
      | bind _ _ ?s = _ =>
          destruct (goodix_set_power_state_steady env false s)
            as (a & evs & Hrun & _);
          rewrite (bind_runs _ _ _ _ _ Hrun) in Hclose
      end.
      unfold modify_ts in Hclose. cbn [ts trace after] in Hclose.
      injection Hclose as Hst2. subst st2. cbn [ts].
      destruct (ts st). cbn in *. rewrite int_wrap_succ_pred by exact Hc.
      reflexivity.
Qed.

Lemma goodix_open_close_round_trip_witness :
  - 2147483648 <= open_count (ts st_gt911) < 2147483648 /\
  goodix_open env_ok st_gt911 = Ok (0, st_gt911_open) /\
  goodix_close env_ok st_gt911_open = Ok (tt, st_gt911_closed) /\
  open_count (ts st_gt911_open) = 1 /\
  ts st_gt911_closed = ts st_gt911.
Proof.
  assert (Hc : - 2147483648 <= open_count (ts st_gt911) < 2147483648)
    by (cbn; lia).
  assert (Hopen : goodix_open env_ok st_gt911 = Ok (0, st_gt911_open))
    by (vm_compute; reflexivity).
  assert (Hclose : goodix_close env_ok st_gt911_open
                   = Ok (tt, st_gt911_closed))
    by (vm_compute; reflexivity).
  split; [exact Hc |]. split; [exact Hopen |]. split; [exact Hclose |].
  split; [reflexivity |].
  exact (goodix_open_close_round_trip env_ok st_gt911 st_gt911_open
           st_gt911_closed Hc Hopen Hclose).
Defined.

(** ** Probe of the bus *)

(** X5.  [goodix_i2c_test] reads one byte from the config register at
    most twice and waits 20 ms after each failed read; it returns 0 at the
    first read that goes through, and otherwise the error of the second
    read, which is negative. *)
Theorem goodix_i2c_test_two_attempts (env : environment) (st : state) :
  let t := ts st in
  let reply1 := i2c_transfer_read env (trace st) (client_addr t)
                                  GOODIX_REG_CONFIG_DATA 1 in
  let read1 := Ev_i2c_read (client_addr t) GOODIX_REG_CONFIG_DATA 1
                           (fst reply1) [snd reply1 0%nat] in
  let reply2 := i2c_transfer_read env (trace st ++ [read1; Ev_msleep 20])
                                  (client_addr t) GOODIX_REG_CONFIG_DATA 1 in
  let read2 := Ev_i2c_read (client_addr t) GOODIX_REG_CONFIG_DATA 1
                           (fst reply2) [snd reply2 0%nat] in
  goodix_i2c_test env st =
  (if fst reply1 =? 2 then Ok (0, after st [read1])
   else if fst reply2 =? 2
        then Ok (0, after st [read1; Ev_msleep 20; read2])
        else Ok (i2c_ret 2 (fst reply2),
                 after st [read1; Ev_msleep 20; read2; Ev_msleep 20])) /\
  (fst reply2 <> 2 -> i2c_ret 2 (fst reply2) < 0).
Proof.
  cbv zeta.
  assert (Hroom : u16_wrap 1 <= 1) by (vm_compute; discriminate).
  assert (Hret : forall r, (i2c_ret 2 r =? 0) = (r =? 2)).
  { intros r. unfold i2c_ret, EIO.
    destruct (Z.ltb_spec r 0); destruct (Z.eqb_spec r 2); cbn [negb];
      try reflexivity; try lia.
    all: destruct (Z.eqb_spec r 0); try reflexivity; lia. }
  split.
  - unfold goodix_i2c_test. cbn [i2c_test_loop].
    change (0 <? 2) with true. change (int_wrap (0 + 1)) with 1.
    change (1 <? 2) with true. change (int_wrap (1 + 1)) with 2.
    change (2 <? 2) with false. cbv iota.
    rewrite (bind_runs _ _ _ _ _
               (goodix_i2c_read_run env GOODIX_REG_CONFIG_DATA 1 1 st Hroom)).
    change (u16_wrap GOODIX_REG_CONFIG_DATA) with GOODIX_REG_CONFIG_DATA.
    change (u16_wrap 1) with 1. change (Z.to_nat 1) with 1%nat.
    cbn [seq map].
    set (reply1 := i2c_transfer_read env (trace st) (client_addr (ts st))
                                     GOODIX_REG_CONFIG_DATA 1).
    set (read1 := Ev_i2c_read _ _ _ (fst reply1) _).
    rewrite Hret. destruct (fst reply1 =? 2); [reflexivity |].
    rewrite bind_emit, after_after.
    rewrite (bind_runs _ _ _ _ _
               (goodix_i2c_read_run env GOODIX_REG_CONFIG_DATA 1 1
                  (after st ([read1] ++ [Ev_msleep 20])) Hroom)).
    change (u16_wrap GOODIX_REG_CONFIG_DATA) with GOODIX_REG_CONFIG_DATA.
    change (u16_wrap 1) with 1. change (Z.to_nat 1) with 1%nat.
    cbn [seq map].
    change (ts (after st ([read1] ++ [Ev_msleep 20]))) with (ts st).
    change (trace (after st ([read1] ++ [Ev_msleep 20])))
      with (trace st ++ [read1; Ev_msleep 20]).
    set (reply2 := i2c_transfer_read env (trace st ++ [read1; Ev_msleep 20])
                                     (client_addr (ts st))
                                     GOODIX_REG_CONFIG_DATA 1).
    rewrite Hret. destruct (fst reply2 =? 2).
    + unfold ret. rewrite after_after. reflexivity.
    + rewrite bind_emit. unfold ret. rewrite !after_after. reflexivity.
  - intros Hfail.
    destruct (i2c_ret_nonpositive 2
                (fst (i2c_transfer_read env
                        (trace st ++
                         [Ev_i2c_read (client_addr (ts st))
                            GOODIX_REG_CONFIG_DATA 1
                            (fst (i2c_transfer_read env (trace st)
                                    (client_addr (ts st))
                                    GOODIX_REG_CONFIG_DATA 1))
                            [snd (i2c_transfer_read env (trace st)
                                    (client_addr (ts st))
                                    GOODIX_REG_CONFIG_DATA 1) 0%nat];
                          Ev_msleep 20])
                        (client_addr (ts st)) GOODIX_REG_CONFIG_DATA 1)))
      as [E | E]; [| exact E].
    apply Z.eqb_eq in E. rewrite Hret in E. apply Z.eqb_eq in E.
    contradiction.
Qed.

Lemma goodix_i2c_test_two_attempts_witness :
  exists st',
    goodix_i2c_test env_no_answer st_gt911 = Ok (-6, st') /\ -6 < 0.
Proof.
  destruct (goodix_i2c_test_two_attempts env_no_answer st_gt911)
    as [Hrun Hneg].
  eexists. split; [exact Hrun |].
  apply Hneg. discriminate.
Defined.

(** ** Sending a config blob *)

(** A write of a whole buffer that fits a 16-bit message length. *)
Lemma goodix_i2c_write_whole (env : environment) (reg : Z) (buf : list byte)
      (st : state) :
  let len := Z.of_nat (length buf) in
  len + 2 < 65536 ->
  let msg := u8_of (Z.shiftr reg 8) :: u8_of (Z.land reg 0xFF) :: buf in
  let w := i2c_transfer_write env (trace st ++ [Ev_kmalloc (len + 2) true])
                              (client_addr (ts st)) msg in
  goodix_i2c_write env reg buf len st =
  if kmalloc env (trace st) (len + 2) then
    Ok (i2c_ret 1 w,
        after st [Ev_kmalloc (len + 2) true;
                  Ev_i2c_send (client_addr (ts st)) msg w])
  else Ok (- ENOMEM, after st [Ev_kmalloc (len + 2) false]).
Proof.
  cbv zeta. intros Hlen.
  unfold goodix_i2c_write. rewrite bind_get_ts. cbv zeta.
  assert (H32 : u32_wrap (Z.of_nat (length buf)) = Z.of_nat (length buf))
    by (unfold u32_wrap; apply Z.mod_small; lia).
  assert (H32' : u32_wrap (Z.of_nat (length buf) + 2)
                 = Z.of_nat (length buf) + 2)
    by (unfold u32_wrap; apply Z.mod_small; lia).
  assert (H16 : u16_wrap (Z.of_nat (length buf) + 2)
                = Z.of_nat (length buf) + 2)
    by (unfold u16_wrap; apply Z.mod_small; lia).
  rewrite H32, H32', H16, Z.ltb_irrefl, Nat2Z.id, firstn_all.
  rewrite firstn_all2 by (cbn [length]; lia).
  unfold bind, call_kmalloc, call_i2c_transfer_write, ret.
  destruct (kmalloc env (trace st) (Z.of_nat (length buf) + 2));
    cbn [negb]; [| reflexivity].
  unfold after, log. cbn [ts trace]. rewrite <- app_assoc. reflexivity.
Qed.

(** X6.  A blob that validation accepts is written whole and unchanged, in
    one message that starts with the register address 0x80 0x47; the 10 ms
    settle delay follows a successful write only; a failed write returns
    its error, and a failed allocation of the transfer buffer [-ENOMEM]
    with nothing sent. *)
Theorem goodix_send_cfg_accepted
        (env : environment) (cfg : firmware) (st : state) :
  goodix_check_cfg cfg = Ok 0 ->
  let t := ts st in
  let size := fw_size cfg + 2 in
  let msg := x80 :: x47 :: fw_data cfg in
  let w := i2c_transfer_write env (trace st ++ [Ev_kmalloc size true])
                              (client_addr t) msg in
  goodix_send_cfg env cfg st =
  if kmalloc env (trace st) size then
    if i2c_ret 1 w =? 0 then
      Ok (0, after st [Ev_kmalloc size true; Ev_i2c_send (client_addr t) msg w;
                       Ev_usleep_range 10000 11000])
    else
      Ok (i2c_ret 1 w,
          after st [Ev_kmalloc size true; Ev_i2c_send (client_addr t) msg w])
  else Ok (- ENOMEM, after st [Ev_kmalloc size false]).
Proof.
  intros Hvalid. cbv zeta.
  destruct (proj1 (goodix_check_cfg_accept cfg) Hvalid)
    as (Hsize & payload & c & f & Hdata & _ & _).
  assert (Hlen : 2 <= fw_size cfg).
  { unfold fw_size. rewrite Hdata, length_app. cbn [length]. lia. }
  unfold goodix_send_cfg.
  unfold bind at 1, lift at 1. rewrite Hvalid. cbn [rbind Z.eqb negb].
  unfold bind at 1.
  change (fw_size cfg) with (Z.of_nat (length (fw_data cfg))).
  rewrite goodix_i2c_write_whole
    by (fold (fw_size cfg); lia).
  change (u8_of (Z.shiftr GOODIX_REG_CONFIG_DATA 8)) with x80.
  change (u8_of (Z.land GOODIX_REG_CONFIG_DATA 255)) with x47.
  destruct (kmalloc env (trace st) (Z.of_nat (length (fw_data cfg)) + 2)).
  - destruct (i2c_ret 1 _ =? 0); cbn [negb].
    + rewrite bind_emit. unfold ret. rewrite after_after. reflexivity.
    + reflexivity.
  - reflexivity.
Qed.

Lemma goodix_send_cfg_accepted_witness :
  goodix_check_cfg (mk_fw cfg_blob_valid) = Ok 0 /\
  goodix_send_cfg env_ok (mk_fw cfg_blob_valid) st_gt911 =
  Ok (0, after st_gt911
           [Ev_kmalloc 188 true;
            Ev_i2c_send 0x14 (x80 :: x47 :: cfg_blob_valid) 1;
            Ev_usleep_range 10000 11000]).
Proof.
  assert (Hvalid : goodix_check_cfg (mk_fw cfg_blob_valid) = Ok 0)
    by (vm_compute; reflexivity).
  split; [exact Hvalid |].
  exact (goodix_send_cfg_accepted env_ok (mk_fw cfg_blob_valid) st_gt911
           Hvalid).
Defined.

(** ** A watchdog tick on any bus *)

Lemma goodix_send_cfg_steady (env : environment) (cfg : firmware) :
  2 <= fw_size cfg ->
  runs_within steady (goodix_send_cfg env cfg).
Proof.
  intros Hlong. unfold goodix_send_cfg.
  assert (Hchk : exists e, goodix_check_cfg cfg = Ok e)
    by (destruct (goodix_check_cfg_decides cfg Hlong) as [-> | ->];
        eexists; reflexivity).
  destruct Hchk as [e ->].
  change (lift (Ok e)) with (ret (A := Z) e).
  unfold goodix_i2c_write. cbv zeta.
  assert (Hfits : (Z.of_nat (length (fw_data cfg)) <? u32_wrap (fw_size cfg))
                  = false).
  { apply Z.ltb_ge. unfold u32_wrap, fw_size.
    apply Z.mod_le; lia. }
  rewrite Hfits. cbv iota.
  within_steps.
Qed.

(** The recovery of [goodix_esd_work]: whatever the reset, the config and
    the watchdog do, the interrupt is freed once and requested once. *)
Lemma goodix_esd_recovery_run (env : environment) (st : state) :
  (forall h, fst (request_firmware env h) = 0 ->
             (2 <= length (snd (request_firmware env h)))%nat) ->
  exists mid r_irq rest,
    (goodix_free_irq ;;
     _ <- goodix_reset env ;;
     '(error, cfg) <- call_request_firmware env ;;
     (if error =? 0 then
        _ <- goodix_send_cfg env cfg ;;
        emit Ev_release_firmware
      else ret tt) ;;
     _ <- goodix_request_irq env ;;
     _ <- goodix_enable_esd env ;;
     ret tt) st =
    Ok (tt, after st ([Ev_free_irq] ++ mid
                      ++ [Ev_request_irq (irq_flags (ts st)) r_irq]
                      ++ rest)) /\
    forallb steady mid = true /\ forallb steady rest = true.
Proof.
  intros Hfw.
  unfold goodix_free_irq. rewrite bind_emit.
  destruct (goodix_reset_steady env (after st [Ev_free_irq]))
    as (e1 & evs1 & Hreset & Hsteady1).
  rewrite (bind_runs _ _ _ _ _ Hreset), after_after.
  set (st1 := after st ([Ev_free_irq] ++ evs1)).
  unfold bind at 1, call_request_firmware at 1.
  specialize (Hfw (trace st1)).
  destruct (request_firmware env (trace st1)) as [r blob].
  cbn [fst snd] in Hfw.
  rewrite log_after.
  assert (Hcfg : exists evs2,
             runs_as (if r =? 0
                      then _ <- goodix_send_cfg env (mk_fw blob) ;;
                           emit Ev_release_firmware
                      else ret tt)
                     (after st1 [Ev_request_firmware r blob]) tt evs2 /\
             forallb steady evs2 = true).
  { destruct (Z.eqb_spec r 0) as [Hr | Hr].
    - destruct (goodix_send_cfg_steady env (mk_fw blob)
                  ltac:(unfold fw_size; cbn [fw_data]; specialize (Hfw Hr);
                        lia)
                  (after st1 [Ev_request_firmware r blob]))
        as (e2 & evs2 & Hsend & Hsteady2).
      exists (evs2 ++ [Ev_release_firmware]). split.
      + unfold runs_as. rewrite (bind_runs _ _ _ _ _ Hsend).
        unfold emit. rewrite log_after, after_after. reflexivity.
      + rewrite forallb_app, Hsteady2. reflexivity.
    - exists []. split; [| reflexivity].
      unfold runs_as, ret. rewrite after_nil. reflexivity. }
  destruct Hcfg as (evs2 & Hcfg & Hsteady2).
  rewrite (bind_runs _ _ _ _ _ Hcfg), !after_after.
  destruct (goodix_request_irq_run env
              (after st1 ([Ev_request_firmware r blob] ++ evs2)))
    as [r_irq Hirq].
  rewrite (bind_runs _ _ _ _ _ Hirq), after_after.
  match goal with
  | |- context [bind (goodix_enable_esd env) _ ?s] =>
      destruct (goodix_enable_esd_steady env s)
        as (e4 & evs4 & Hesd & Hsteady4);
      rewrite (bind_runs _ _ _ _ _ Hesd)
  end.
  exists (evs1 ++ [Ev_request_firmware r blob] ++ evs2), r_irq, evs4.
  split; [| split].
  - unfold ret, st1. rewrite !after_after.
    rewrite <- ?app_assoc. reflexivity.
  - rewrite !forallb_app, Hsteady1, Hsteady2. reflexivity.
  - exact Hsteady4.
Qed.

(** X8.  A watchdog tick that reads the command register unhealthy twice
    always completes its recovery, provided every blob the firmware loader
    delivers has the two trailer bytes: the interrupt is freed once and
    requested once, in this order, whatever the reset, the config transfer
    and the re-arming of the watchdog return in between and after; nothing
    reaches the sink and the instance is unchanged. *)
Theorem goodix_esd_work_recovery_rearms_irq (env : environment)
        (st : state) :
  let t := ts st in
  let st0 := after st [Ev_wait_firmware_loading] in
  let reply1 := i2c_transfer_read env (trace st0) (client_addr t)
                                  GOODIX_REG_COMMAND 2 in
  let read1 := Ev_i2c_read (client_addr t) GOODIX_REG_COMMAND 2 (fst reply1)
                           [snd reply1 0%nat; snd reply1 1%nat] in
  let reply2 := i2c_transfer_read env (trace st0 ++ [read1]) (client_addr t)
                                  GOODIX_REG_COMMAND 2 in
  let read2 := Ev_i2c_read (client_addr t) GOODIX_REG_COMMAND 2 (fst reply2)
                           [snd reply2 0%nat; snd reply2 1%nat] in
  (forall h, fst (request_firmware env h) = 0 ->
             (2 <= length (snd (request_firmware env h)))%nat) ->
  esd_healthy reply1 = false ->
  esd_healthy reply2 = false ->
  exists mid r_irq rest,
    goodix_esd_work env st =
    Ok (tt, after st ([Ev_wait_firmware_loading; read1; read2; Ev_free_irq]
                      ++ mid ++ [Ev_request_irq (irq_flags t) r_irq]
                      ++ rest)) /\
    forallb steady mid = true /\ forallb steady rest = true.
Proof.
  cbv zeta. intros Hfw Hbad1 Hbad2.
  pose proof (esd_retry_loop_two_reads env
                (after st [Ev_wait_firmware_loading])) as Hloop.
  cbv zeta in Hloop.
  change (ts (after st [Ev_wait_firmware_loading])) with (ts st) in Hloop.
  rewrite Hbad1, Hbad2 in Hloop.
  unfold goodix_esd_work. rewrite bind_emit.
  unfold bind at 1. rewrite Hloop. cbn [Z.eqb].
  match goal with
  | |- context [after (after st ?a) ?b] =>
      destruct (goodix_esd_recovery_run env (after (after st a) b) Hfw)
        as (mid & r_irq & rest & Hrun & Hmid & Hrest)
  end.
  exists mid, r_irq, rest. split; [| split; assumption].
  rewrite Hrun, !after_after. reflexivity.
Qed.

Lemma goodix_esd_work_recovery_rearms_irq_witness :
  exists mid r_irq rest,
    goodix_esd_work env_third_read_healthy st_gt911 =
    Ok (tt, after st_gt911
              ([Ev_wait_firmware_loading;
                Ev_i2c_read 0x14 GOODIX_REG_COMMAND 2 2 [xaa; xaa];
                Ev_i2c_read 0x14 GOODIX_REG_COMMAND 2 2 [xaa; xaa];
                Ev_free_irq]
               ++ mid ++ [Ev_request_irq 0x2002 r_irq] ++ rest)) /\
    forallb steady mid = true /\ forallb steady rest = true.
Proof.
  apply (goodix_esd_work_recovery_rearms_irq env_third_read_healthy st_gt911).
  - intros h _. cbn. lia.
  - reflexivity.
  - reflexivity.
Defined.

(** X9.  A watchdog tick that reads the command register healthy at its
    first or second attempt feeds the watchdog, writing 0xAA back to the
    command register, and schedules the next tick after [esd_timeout]
    milliseconds, whether or not the feed went through as the environment
    answers it; it touches neither the interrupt nor the reset line. *)
Theorem goodix_esd_work_healthy_tick (env : environment) (st : state) :
  let t := ts st in
  let st0 := after st [Ev_wait_firmware_loading] in
  let reply1 := i2c_transfer_read env (trace st0) (client_addr t)
                                  GOODIX_REG_COMMAND 2 in
  let read1 := Ev_i2c_read (client_addr t) GOODIX_REG_COMMAND 2 (fst reply1)
                           [snd reply1 0%nat; snd reply1 1%nat] in
  let reply2 := i2c_transfer_read env (trace st0 ++ [read1]) (client_addr t)
                                  GOODIX_REG_COMMAND 2 in
  let read2 := Ev_i2c_read (client_addr t) GOODIX_REG_COMMAND 2 (fst reply2)
                           [snd reply2 0%nat; snd reply2 1%nat] in
  esd_healthy reply1 || esd_healthy reply2 = true ->
  let reads := if esd_healthy reply1 then [read1] else [read1; read2] in
  let feed := op_calls (reg_write_u8_at env t GOODIX_REG_COMMAND
                          GOODIX_CMD_ESD_ENABLED (trace st0 ++ reads)) in
  goodix_esd_work env st =
  Ok (tt, after st0 (reads ++ feed
                     ++ [Ev_schedule_esd_work (esd_timeout t)])).
Proof. exact (goodix_esd_work_feeds_when_healthy env st). Qed.

Lemma goodix_esd_work_healthy_tick_witness :
  goodix_esd_work env_healthy st_gt911 =
  Ok (tt, after st_gt911
            [Ev_wait_firmware_loading;
             Ev_i2c_read 0x14 GOODIX_REG_COMMAND 2 2 [x00; xaa];
             Ev_kmalloc 3 true; Ev_i2c_send 0x14 [x80; x40; xaa] 1;
             Ev_schedule_esd_work 2000]).
Proof.
  rewrite (goodix_esd_work_healthy_tick env_healthy st_gt911 eq_refl).
  vm_compute. reflexivity.
Defined.

(** ** What [goodix_read_config] stores *)

(** X10.  [goodix_read_config] reads [cfg_len] bytes from 0x8047 once and
    always completes.  After a read that went through with non-zero
    extents and contact count, the instance holds the registers' values:
    the 16-bit extents at offsets 1 and 3, exchanged when [swapped_x_y] is
    set, the trigger index [config[6] & 3] and the contact count
    [config[5] & 0xf]; a zero among the three gives the defaults.  On a
    board of the rotated-screen table both inversion flags are then set.
    After a failed read the defaults are stored and the rotated-screen
    table is not consulted: the inversion flags stay as they were. *)
Theorem goodix_read_config_stores (env : environment) (st : state) :
  cfg_len (ts st) = goodix_get_cfg_len (id (ts st)) ->
  let t := ts st in
  let reply := i2c_transfer_read env (trace st) (client_addr t)
                                 GOODIX_REG_CONFIG_DATA (cfg_len t) in
  let config := snd reply in
  let x := u16_le (config 1%nat) (config 2%nat) in
  let y := u16_le (config 3%nat) (config 4%nat) in
  let mt := Z.land (u8_val (config 5%nat)) 0x0F in
  let trig := Z.land (u8_val (config 6%nat)) 0x03 in
  let stored :=
    if (x =? 0) || (y =? 0) || (mt =? 0) then default_geometry t
    else set_geometry (if swapped_x_y t then y else x)
                      (if swapped_x_y t then x else y) trig mt t in
  goodix_read_config env st =
  Ok (tt,
      mk_state (if fst reply =? 2
                then if dmi_check_system env
                     then set_inverted true true stored
                     else stored
                else default_geometry t)
               (trace st ++
                [Ev_i2c_read (client_addr t) GOODIX_REG_CONFIG_DATA
                   (cfg_len t) (fst reply)
                   (map config (seq 0 (Z.to_nat (cfg_len t))))])).
Proof. exact (goodix_read_config_run env st). Qed.

Lemma goodix_read_config_stores_witness :
  exists st',
    goodix_read_config env_big_panel st_rotated = Ok (tt, st') /\
    abs_x_max (ts st') = 5000 /\ abs_y_max (ts st') = 4096 /\
    max_touch_num (ts st') = 15 /\ int_trigger_type (ts st') = 1 /\
    inverted_x (ts st') = true /\ inverted_y (ts st') = true.
Proof.
  eexists. split.
  - exact (goodix_read_config_stores env_big_panel st_rotated eq_refl).
  - vm_compute. repeat split; reflexivity.
Defined.

(** ** The attributes *)

(** X11.  Writing the watchdog timeout always completes.  Text that does
    not parse returns the parser's error and changes nothing.  Otherwise
    the new timeout is stored and the byte count returned, whatever the
    watchdog does; while the device is runtime-active, a change from
    non-zero to zero cancels the pending tick, and a change from zero to
    non-zero arms the watchdog with the new timeout: 0xAA is written to
    0x8041 and, when that write went through as the environment answers
    it, the first tick is scheduled after the new timeout.  Any other change touches neither the bus nor
    the pending work. *)
Theorem goodix_esd_timeout_store_outcome
        (env : environment) (kstrtouint : list byte -> Z * Z)
        (pm_runtime_active : list event -> bool)
        (buf : list byte) (count : Z) (st : state) :
  let t := ts st in
  let error := fst (kstrtouint buf) in
  let new := int_wrap (snd (kstrtouint buf)) in
  let old := esd_timeout t in
  let t' := set_esd_timeout new t in
  goodix_esd_timeout_store env kstrtouint pm_runtime_active buf count st =
  if error =? 0 then
    Ok (count,
        mk_state t'
          (trace st ++
           if pm_runtime_active (trace st) then
             if negb (old =? 0) && (new =? 0) then [Ev_cancel_esd_work]
             else if (old =? 0) && negb (new =? 0)
                  then op_calls (esd_arm_at env t' (trace st))
                  else []
           else []))
  else Ok (error, st).
Proof.
  cbv zeta.
  pose proof (goodix_enable_esd_at env
                (mk_state (set_esd_timeout
                             (int_wrap (snd (kstrtouint buf))) (ts st))
                          (trace st))) as Harm.
  cbn [ts trace] in Harm.
  unfold goodix_esd_timeout_store.
  destruct (kstrtouint buf) as [error parsed]. cbn [fst snd] in *.
  set (new := int_wrap parsed) in *.
  destruct (error =? 0); cbn [negb]; [| reflexivity].
  rewrite bind_get_ts.
  destruct (Z.eqb_spec (esd_timeout (ts st)) 0) as [Hold | Hold];
    destruct (Z.eqb_spec new 0) as [Hnew | Hnew]; cbn [negb andb].
  - (* disabled stays disabled *)
    unfold bind, ret, modify_ts. cbn [ts trace].
    destruct (pm_runtime_active (trace st)); rewrite app_nil_r; reflexivity.
  - (* enabled now *)
    unfold bind at 1, ret at 1. unfold bind at 1, modify_ts at 1.
    cbn [ts trace].
    unfold bind at 1. unfold bind at 1, call_pm_runtime_active at 1.
    cbn [trace].
    destruct (pm_runtime_active (trace st)).
    + rewrite (bind_runs _ _ _ _ _ Harm). reflexivity.
    + unfold ret. rewrite app_nil_r. reflexivity.
  - (* disabled now *)
    unfold bind at 1. unfold bind at 1, call_pm_runtime_active at 1.
    destruct (pm_runtime_active (trace st)).
    + pose proof (goodix_disable_esd_run st) as Hcancel.
      unfold runs_as in Hcancel. rewrite Hcancel.
      unfold esd_cancel.
      destruct (Z.eqb_spec (esd_timeout (ts st)) 0) as [H | _];
        [contradiction |].
      reflexivity.
    + unfold bind, ret, modify_ts. cbn [ts trace].
      rewrite app_nil_r. reflexivity.
  - (* enabled stays enabled *)
    unfold bind, ret, modify_ts. cbn [ts trace].
    destruct (pm_runtime_active (trace st)); rewrite app_nil_r; reflexivity.
Qed.

(** The loop of [goodix_dump_config_show] over a buffer that holds the
    bytes it visits: the count returned is the length of the text. *)
Lemma dump_loop_count (scnprintf_02x : Z -> byte -> list byte)
      (PAGE_SIZE : Z) (config : list byte) (st : state) (n : nat) :
  (forall size b, (length (scnprintf_02x size b) <= 3)%nat) ->
  forall (i : Z) (text : list byte),
    0 <= i ->
    i + Z.of_nat n = Z.of_nat (length config) ->
    Z.of_nat (length config) <= GOODIX_CONFIG_MAX_LENGTH ->
    (length text <= 3 * Z.to_nat i)%nat ->
    exists text',
      dump_loop scnprintf_02x PAGE_SIZE n config
                (Z.of_nat (length config)) i (Z.of_nat (length text)) text st
      = Ok ((Z.of_nat (length text'), text'), st) /\
      (length text' <= 3 * length config)%nat.
Proof.
  intros Hscn. unfold GOODIX_CONFIG_MAX_LENGTH.
  induction n as [| n IH]; intros i text Hi Hend Hmax Htext.
  - cbn [dump_loop].
    destruct (Z.ltb_spec i (Z.of_nat (length config))) as [H | _]; [lia |].
    exists text. split; [reflexivity | lia].
  - cbn [dump_loop].
    destruct (Z.ltb_spec i (Z.of_nat (length config))) as [_ | H]; [| lia].
    unfold bind at 1, lift at 1.
    assert (Hat : exists b, data_at config i = Ok b).
    { unfold data_at.
      destruct (Z.ltb_spec i 0) as [H | _]; [lia |].
      destruct (nth_error config (Z.to_nat i)) as [b |] eqn:E;
        [exists b; reflexivity |].
      apply nth_error_None in E. lia. }
    destruct Hat as [b ->]. cbn [rbind].
    pose proof (Hscn (PAGE_SIZE - Z.of_nat (length text)) b) as Hchunk.
    set (chunk := scnprintf_02x (PAGE_SIZE - Z.of_nat (length text)) b) in *.
    replace (int_wrap (Z.of_nat (length text) + Z.of_nat (length chunk)))
      with (Z.of_nat (length (text ++ chunk))).
    + apply IH; try lia. rewrite length_app. lia.
    + rewrite length_app, Nat2Z.inj_add. unfold int_wrap.
      symmetry.
      match goal with
      | |- context [(?a + 2147483648) mod 4294967296] =>
          rewrite (Z.mod_small (a + 2147483648) 4294967296) by lia
      end.
      lia.
Qed.

(** X12.  Dumping the config always completes and leaves the power
    references balanced.  When the device cannot be resumed the error is
    returned with no bus traffic, the usage count given back at once.
    Otherwise the config is read once and the device is released for
    autosuspend exactly once, after a failed read as after a good one; a
    failed read returns its error and no text, a good one the length of
    the text, at most three characters for each config byte. *)
Theorem goodix_dump_config_show_outcome
        (env : environment) (scnprintf_02x : Z -> byte -> list byte)
        (PAGE_SIZE : Z) (st : state) :
  cfg_len (ts st) = goodix_get_cfg_len (id (ts st)) ->
  (forall size b, (length (scnprintf_02x size b) <= 3)%nat) ->
  let t := ts st in
  let r_on := pm_runtime_get_sync env (trace st) in
  let reply := i2c_transfer_read env (trace st ++ [Ev_pm_get_sync r_on])
                                 (client_addr t) GOODIX_REG_CONFIG_DATA
                                 (cfg_len t) in
  let read := Ev_i2c_read (client_addr t) GOODIX_REG_CONFIG_DATA (cfg_len t)
                          (fst reply)
                          (map (snd reply) (seq 0 (Z.to_nat (cfg_len t)))) in
  let r_off := pm_runtime_put_autosuspend env
                 (trace st ++ [Ev_pm_get_sync r_on; read;
                               Ev_pm_mark_last_busy]) in
  exists text,
    goodix_dump_config_show env scnprintf_02x PAGE_SIZE st =
    (if r_on <? 0
     then Ok ((r_on, []), after st [Ev_pm_get_sync r_on; Ev_pm_put_noidle])
     else Ok ((if fst reply =? 2 then Z.of_nat (length text)
               else i2c_ret 2 (fst reply), text),
              after st [Ev_pm_get_sync r_on; read; Ev_pm_mark_last_busy;
                        Ev_pm_put_autosuspend r_off])) /\
    (fst reply <> 2 -> text = []) /\
    (length text <= 3 * Z.to_nat (cfg_len t))%nat.
Proof.
  intros Hlen Hscn. cbv zeta.
  assert (Hrange : 7 <= cfg_len (ts st) <= 240)
    by (rewrite Hlen; destruct (goodix_get_cfg_len_values (id (ts st)))
          as [-> | [-> | ->]]; lia).
  assert (Hwrap : u16_wrap (cfg_len (ts st)) = cfg_len (ts st))
    by (unfold u16_wrap; apply Z.mod_small; lia).
  unfold goodix_dump_config_show. rewrite bind_get_ts.
  unfold goodix_set_power_state at 1.
  unfold bind at 1. unfold bind at 1, call_pm_runtime_get_sync at 1.
  cbv zeta. rewrite log_after.
  set (r_on := pm_runtime_get_sync env (trace st)).
  destruct (Z.ltb_spec r_on 0) as [Hneg | Hpos].
  { exists []. split; [| split; [reflexivity | cbn [length]; lia]].
    rewrite bind_emit. unfold ret at 1.
    destruct (Z.eqb_spec r_on 0) as [H | _]; [lia |].
    cbn [negb]. unfold ret. rewrite after_after. reflexivity. }
  unfold ret at 1. cbn [Z.eqb negb].
  assert (Hroom : u16_wrap (cfg_len (ts st)) <= GOODIX_CONFIG_MAX_LENGTH)
    by (rewrite Hwrap; unfold GOODIX_CONFIG_MAX_LENGTH; lia).
  rewrite (bind_runs _ _ _ _ _
             (goodix_i2c_read_run env GOODIX_REG_CONFIG_DATA _ _
                (after st [Ev_pm_get_sync r_on]) Hroom)).
  rewrite Hwrap, after_after.
  change (u16_wrap GOODIX_REG_CONFIG_DATA) with GOODIX_REG_CONFIG_DATA.
  change (ts (after st [Ev_pm_get_sync r_on])) with (ts st).
  change (trace (after st [Ev_pm_get_sync r_on]))
    with (trace st ++ [Ev_pm_get_sync r_on]).
  set (reply := i2c_transfer_read env (trace st ++ [Ev_pm_get_sync r_on])
                  (client_addr (ts st)) GOODIX_REG_CONFIG_DATA
                  (cfg_len (ts st))).
  set (config := map (snd reply) (seq 0 (Z.to_nat (cfg_len (ts st))))).
  set (read := Ev_i2c_read _ _ _ _ _).
  assert (Hoff : forall s : state,
             goodix_set_power_state env false s =
             Ok (let r := pm_runtime_put_autosuspend env
                            (trace s ++ [Ev_pm_mark_last_busy]) in
                 if r <? 0 then r else 0,
                 after s [Ev_pm_mark_last_busy;
                          Ev_pm_put_autosuspend
                            (pm_runtime_put_autosuspend env
                               (trace s ++ [Ev_pm_mark_last_busy]))])).
  { intros s. unfold goodix_set_power_state.
    unfold bind at 1. rewrite bind_emit.
    unfold call_pm_runtime_put_autosuspend. cbv zeta.
    rewrite log_after, after_after.
    change (trace (after s [Ev_pm_mark_last_busy]))
      with (trace s ++ [Ev_pm_mark_last_busy]).
    destruct (_ <? 0); reflexivity. }
  assert (Hconfig : Z.of_nat (length config) = cfg_len (ts st))
    by (unfold config; rewrite length_map, length_seq; lia).
  destruct (Z.eqb_spec (fst reply) 2) as [Hret | Hret].
  - replace (i2c_ret 2 (fst reply)) with 0 by (rewrite Hret; reflexivity).
    cbn [Z.eqb negb].
    unfold bind at 1. rewrite Hoff. cbv zeta.
    rewrite after_after.
    match goal with
    | |- context [dump_loop _ _ _ _ _ _ _ _ ?s] =>
        destruct (dump_loop_count scnprintf_02x PAGE_SIZE config s
                    (Z.to_nat (cfg_len (ts st))) Hscn 0 [])
          as (text & Hloop & Hshort);
        [ lia | lia | unfold GOODIX_CONFIG_MAX_LENGTH; lia
        | cbn [length]; lia | ]
    end.
    rewrite Hconfig in Hloop. cbn [length] in Hloop.
    change (Z.of_nat 0) with 0 in Hloop.
    exists text. split; [| split].
    + rewrite Hloop. cbn [app].
      change (trace (after st [Ev_pm_get_sync r_on; read]))
        with (trace st ++ [Ev_pm_get_sync r_on; read]).
      rewrite <- app_assoc. reflexivity.
    + intros H. contradiction.
    + lia.
  - pose proof (i2c_ret_failed 2 _ Hret) as E.
    destruct (Z.eqb_spec (i2c_ret 2 (fst reply)) 0) as [E0 | _]; [lia |].
    cbn [negb].
    exists []. split; [| split; [reflexivity | cbn [length]; lia]].
    unfold bind at 1. rewrite Hoff. cbv zeta.
    unfold ret. rewrite after_after. cbn [app].
    change (trace (after st [Ev_pm_get_sync r_on; read]))
      with (trace st ++ [Ev_pm_get_sync r_on; read]).
    rewrite <- app_assoc. reflexivity.
Qed.

Lemma goodix_dump_config_show_outcome_witness :
  exists text st',
    goodix_dump_config_show env_ok format_02x 4096 st_gt911 =
    Ok ((Z.of_nat (length text), text), st') /\
    (length text <= 558)%nat.
Proof.
  destruct (goodix_dump_config_show_outcome env_ok format_02x 4096 st_gt911
              eq_refl)
    as (text & Hrun & _ & Hshort).
  - intros size b. unfold format_02x.
    rewrite length_firstn. cbn [length]. lia.
  - exists text. eexists. split; [exact Hrun | exact Hshort].
Defined.
